(** * King James School authentication system: validation, credentials, attendance

    A shallow embedding of the business rules of [main.py] (class
    [SchoolAuthSystem]): the field validators, the password hash, the four
    SQLite relations and the handlers that read and write them.  Widgets,
    message boxes and the log file are left out; what a handler shows to the
    user is kept as an [Outcome].

    Modelling conventions.
    - A Python [str] is a [string]; its characters are read as the code points
      U+0000 .. U+00FF.  On that range the decimal digits (category Nd) are
      exactly [0-9] and the white space of [str.strip], [str.isspace] and the
      regular expression class [\s] is 09-0D, 1C-1F, 20, 85 and A0.
    - [datetime.now().strftime(...)] is an input of the handler that calls it,
      one argument per call.
    - The SQLite connection is the record [Database]; a table is the list of
      its rows in insertion order, an AUTOINCREMENT key comes from a counter
      that is never reset.  [sqlite3.Error] other than the primary-key
      [IntegrityError] and the refusal of an over-long [LIKE] pattern (a
      failing disk, a locked file) is not modelled. *)

From Stdlib Require Import ZArith NArith List Bool Ascii String Lia.
From Stdlib Require Import Permutation Sorted.
Import ListNotations.

Local Open Scope string_scope.
Local Open Scope Z_scope.

(* ================================================================= *)
(** ** Characters and Python string primitives *)

Module PyStr.

Definition code (c : ascii) : N := N_of_ascii c.

Definition in_range (lo hi : N) (c : ascii) : bool :=
  ((lo <=? code c) && (code c <=? hi))%N.

(** [Py_UNICODE_ISSPACE]: the white space of [str.strip()] and of [\s]. *)
Definition isspace (c : ascii) : bool :=
  in_range 9 13 c || in_range 28 32 c
  || (code c =? 133)%N || (code c =? 160)%N.

(** [\d], and the digits [int()] reads. *)
Definition isdigit (c : ascii) : bool := in_range 48 57 c.

(** [A-Za-z] *)
Definition isalpha (c : ascii) : bool := in_range 65 90 c || in_range 97 122 c.

Definition digit_value (c : ascii) : Z := Z.of_N (code c) - 48.

Fixpoint lstrip (s : string) : string :=
  match s with
  | EmptyString => EmptyString
  | String c s' => if isspace c then lstrip s' else s
  end.

Fixpoint rstrip (s : string) : string :=
  match s with
  | EmptyString => EmptyString
  | String c s' =>
      match rstrip s' with
      | EmptyString => if isspace c then EmptyString else String c EmptyString
      | r => String c r
      end
  end.

(** [s.strip()] *)
Definition strip (s : string) : string := rstrip (lstrip s).

(** Truth value of a string: [bool(s)], as used by [all([...])]. *)
Definition truthy (s : string) : bool :=
  match s with EmptyString => false | _ => true end.

Fixpoint all_chars (p : ascii -> bool) (s : string) : bool :=
  match s with
  | EmptyString => true
  | String c s' => p c && all_chars p s'
  end.

(** *** [int(s)] for a [str] argument, base 10

    [PyLong_FromUnicodeObject]: non-ASCII white space becomes a blank, then
    [PyLong_FromString] skips [Py_ISSPACE] characters, reads an optional sign,
    then digits in which a single underscore may stand between two digits,
    then skips trailing white space and must be at the end.  A numeral of
    more than [sys.int_max_str_digits] digits (4300 unless the interpreter is
    told otherwise; underscores, sign and white space do not count) is
    refused.  [None] is [ValueError]. *)

Definition int_isspace (c : ascii) : bool :=
  in_range 9 13 c || (code c =? 32)%N
  || (code c =? 133)%N || (code c =? 160)%N.

Fixpoint int_skip (s : string) : string :=
  match s with
  | EmptyString => EmptyString
  | String c s' => if int_isspace c then int_skip s' else s
  end.

(** The scan after a first digit; [acc] is the value read so far and [n]
    the number of digits read so far. *)
Fixpoint int_scan (acc : Z) (n : Z) (s : string) : option (Z * Z * string) :=
  match s with
  | EmptyString => Some (acc, n, EmptyString)
  | String c s' =>
      if isdigit c then int_scan (10 * acc + digit_value c) (n + 1) s'
      else if (c =? "_")%char then
        match s' with
        | String d s'' =>
            if isdigit d then int_scan (10 * acc + digit_value d) (n + 1) s''
            else None
        | EmptyString => None
        end
      else Some (acc, n, s)
  end.

(** [sys.int_max_str_digits], by default. *)
Definition int_max_str_digits : Z := 4300.

Definition int_sign (s : string) : Z * string :=
  match s with
  | String c r =>
      if (c =? "+")%char then (1, r)
      else if (c =? "-")%char then (-1, r)
      else (1, s)
  | EmptyString => (1, s)
  end.

Definition int (s : string) : option Z :=
  let (sign, body) := int_sign (int_skip s) in
  match body with
  | EmptyString => None
  | String c r =>
      if isdigit c then
        match int_scan (digit_value c) 1 r with
        | Some (v, n, rest) =>
            if int_max_str_digits <? n then None
            else if all_chars int_isspace rest then Some (sign * v)
            else None
        | None => None
        end
      else None
  end.

(** [s.encode()]: UTF-8 of code points below U+0100. *)
Fixpoint encode (s : string) : list Z :=
  match s with
  | EmptyString => []
  | String c s' =>
      let n := Z.of_N (code c) in
      if n <? 128 then n :: encode s'
      else (192 + Z.shiftr n 6) :: (128 + Z.land n 63) :: encode s'
  end.

End PyStr.

(* ================================================================= *)
(** ** The regular expressions of the validators

    [re.match] anchors at the start of the string.  Without [re.MULTILINE]
    the anchor [$] holds at the end of the string and also just before a
    newline that is the last character. *)

Module Re.

Definition at_end (s : string) : bool :=
  match s with
  | EmptyString => true
  | String c EmptyString => (c =? "010")%char
  | _ => false
  end.

(** A literal character. *)
Definition lit (c : ascii) (s : string) : option string :=
  match s with
  | String d s' => if (c =? d)%char then Some s' else None
  | EmptyString => None
  end.

(** [\d{n}] *)
Fixpoint digits (n : nat) (s : string) : option string :=
  match n with
  | O => Some s
  | S n' =>
      match s with
      | String c s' => if PyStr.isdigit c then digits n' s' else None
      | EmptyString => None
      end
  end.

Definition then_ (m : option string) (k : string -> option string) : option string :=
  match m with Some s => k s | None => None end.

(** [^XJ\d{4}\d{4}$] for a letter X. *)
Definition id_pattern (x : ascii) (s : string) : bool :=
  match then_ (then_ (then_ (lit x s) (lit "J")) (digits 4)) (digits 4) with
  | Some rest => at_end rest
  | None => false
  end.

(** [cls+$]: one or more characters of the class, every split tried. *)
Fixpoint plus_then_end (cls : ascii -> bool) (s : string) : bool :=
  match s with
  | EmptyString => false
  | String c s' => cls c && (at_end s' || plus_then_end cls s')
  end.

(** [[A-Za-z\s]] *)
Definition name_class (c : ascii) : bool := PyStr.isalpha c || PyStr.isspace c.

End Re.

(* ================================================================= *)
(** ** [hashlib.sha256(...).hexdigest()]

    SHA-256 on a list of bytes, 32-bit words as [Z] reduced modulo 2^32
    after every addition and left shift. *)

Module Sha256.

Definition wrap (x : Z) : Z := Z.land x 4294967295.

Definition add32 (x y : Z) : Z := wrap (x + y).

Definition rotr (n x : Z) : Z :=
  Z.lor (Z.shiftr x n) (wrap (Z.shiftl x (32 - n))).

Definition not32 (x : Z) : Z := Z.lxor x 4294967295.

Definition ch (x y z : Z) : Z := Z.lxor (Z.land x y) (Z.land (not32 x) z).

Definition maj (x y z : Z) : Z :=
  Z.lxor (Z.lxor (Z.land x y) (Z.land x z)) (Z.land y z).

Definition big_sigma0 (x : Z) : Z :=
  Z.lxor (Z.lxor (rotr 2 x) (rotr 13 x)) (rotr 22 x).

Definition big_sigma1 (x : Z) : Z :=
  Z.lxor (Z.lxor (rotr 6 x) (rotr 11 x)) (rotr 25 x).

Definition small_sigma0 (x : Z) : Z :=
  Z.lxor (Z.lxor (rotr 7 x) (rotr 18 x)) (Z.shiftr x 3).

Definition small_sigma1 (x : Z) : Z :=
  Z.lxor (Z.lxor (rotr 17 x) (rotr 19 x)) (Z.shiftr x 10).

(** The round constants of FIPS 180-4, section 4.2.2 (the first 32 bits of
    the fractional parts of the cube roots of the first 64 primes), in
    decimal. *)
Definition round_constants : list Z :=
  [
    1116352408; 1899447441; 3049323471; 3921009573;
    961987163; 1508970993; 2453635748; 2870763221;
    3624381080; 310598401; 607225278; 1426881987;
    1925078388; 2162078206; 2614888103; 3248222580;
    3835390401; 4022224774; 264347078; 604807628;
    770255983; 1249150122; 1555081692; 1996064986;
    2554220882; 2821834349; 2952996808; 3210313671;
    3336571891; 3584528711; 113926993; 338241895;
    666307205; 773529912; 1294757372; 1396182291;
    1695183700; 1986661051; 2177026350; 2456956037;
    2730485921; 2820302411; 3259730800; 3345764771;
    3516065817; 3600352804; 4094571909; 275423344;
    430227734; 506948616; 659060556; 883997877;
    958139571; 1322822218; 1537002063; 1747873779;
    1955562222; 2024104815; 2227730452; 2361852424;
    2428436474; 2756734187; 3204031479; 3329325298
  ].

(** The eight working variables, and the chaining value between blocks. *)
Record regs : Type := Regs {
  ra : Z; rb : Z; rc : Z; rd : Z; re : Z; rf : Z; rg : Z; rh : Z
}.

(** The initial hash value of FIPS 180-4, section 5.3.3, in decimal. *)
Definition initial : regs :=
  Regs 1779033703 3144134277 1013904242 2773480762
       1359893119 2600822924 528734635 1541459225.

(** Padding: the byte 80, zeros up to 56 modulo 64, the bit length on
    eight bytes, most significant first. *)
Definition length_bytes (bits : Z) : list Z :=
  map (fun k => Z.land (Z.shiftr bits (8 * k)) 255) [7; 6; 5; 4; 3; 2; 1; 0].

Definition pad (msg : list Z) : list Z :=
  let n := Z.of_nat (List.length msg) in
  msg ++ [128] ++ repeat 0 (Z.to_nat ((55 - n) mod 64)) ++ length_bytes (8 * n).

Fixpoint words_of_bytes (bs : list Z) : list Z :=
  match bs with
  | b0 :: b1 :: b2 :: b3 :: rest =>
      (Z.shiftl b0 24 + Z.shiftl b1 16 + Z.shiftl b2 8 + b3)
        :: words_of_bytes rest
  | _ => []
  end.

(** The message schedule, kept newest first: [extend k ws] adds [k] words,
    each from the words 2, 7, 15 and 16 places back. *)
Fixpoint extend (k : nat) (ws : list Z) : list Z :=
  match k with
  | O => ws
  | S k' =>
      let w := add32 (add32 (add32 (small_sigma1 (nth 1 ws 0)) (nth 6 ws 0))
                            (small_sigma0 (nth 14 ws 0))) (nth 15 ws 0) in
      extend k' (w :: ws)
  end.

Definition schedule (block : list Z) : list Z :=
  rev (extend 48 (rev block)).

Definition round (r : regs) (kw : Z * Z) : regs :=
  let (k, w) := kw in
  let t1 := add32 (add32 (add32 (add32 (rh r) (big_sigma1 (re r)))
                                (ch (re r) (rf r) (rg r))) k) w in
  let t2 := add32 (big_sigma0 (ra r)) (maj (ra r) (rb r) (rc r)) in
  Regs (add32 t1 t2) (ra r) (rb r) (rc r) (add32 (rd r) t1) (re r) (rf r) (rg r).

Definition compress (hv : regs) (block : list Z) : regs :=
  let r := fold_left round (combine round_constants (schedule block)) hv in
  Regs (add32 (ra hv) (ra r)) (add32 (rb hv) (rb r))
       (add32 (rc hv) (rc r)) (add32 (rd hv) (rd r))
       (add32 (re hv) (re r)) (add32 (rf hv) (rf r))
       (add32 (rg hv) (rg r)) (add32 (rh hv) (rh r)).

(** [blocks n ws]: the first [n] blocks of sixteen words. *)
Fixpoint blocks (n : nat) (ws : list Z) : list (list Z) :=
  match n with
  | O => []
  | S n' => firstn 16 ws :: blocks n' (skipn 16 ws)
  end.

Definition digest (msg : list Z) : regs :=
  let ws := words_of_bytes (pad msg) in
  fold_left compress (blocks (Nat.div (List.length ws) 16) ws) initial.

Definition hex_digit (n : Z) : ascii :=
  if n <? 10 then ascii_of_N (Z.to_N (48 + n)) else ascii_of_N (Z.to_N (87 + n)).

(** A 32-bit word on eight hexadecimal digits, lower case. *)
Definition hex_word (w : Z) : list ascii :=
  map (fun k => hex_digit (Z.land (Z.shiftr w (4 * k)) 15)) [7; 6; 5; 4; 3; 2; 1; 0].

Definition hexdigest (r : regs) : string :=
  string_of_list_ascii
    (flat_map hex_word [ra r; rb r; rc r; rd r; re r; rf r; rg r; rh r]).

Definition is_hex (c : ascii) : bool :=
  PyStr.isdigit c || PyStr.in_range 97 102 c.

End Sha256.

(* ================================================================= *)
(** ** The data model: configuration and the four relations *)

Record Config : Type := {
  school_name : string;
  min_age : Z;
  max_age : Z;
  admin_password : string;
  teacher_password : string
}.

Record Student : Type := {
  student_id : string;
  name : string;
  age : Z;
  class_name : string;
  password_hash : string;
  created_at : string;
  last_login : option string
}.

Record AttendanceRecord : Type := {
  att_id : Z;
  att_student_id : string;
  att_name : string;
  att_class_name : string;
  login_time : string;
  status : string
}.

Record Teacher : Type := {
  teacher_id : string;
  teacher_name : string;
  teacher_password_hash : string;
  teacher_created_at : string
}.

Record AdminLogEntry : Type := {
  log_id : Z;
  action : string;
  details : string;
  timestamp : string
}.

(** [self.conn]: the tables, and the [sqlite_sequence] counters of the two
    AUTOINCREMENT keys. *)
Record Database : Type := {
  students : list Student;
  attendance : list AttendanceRecord;
  teachers : list Teacher;
  admin_logs : list AdminLogEntry;
  attendance_seq : Z;
  admin_logs_seq : Z
}.

Record SchoolAuthSystem : Type := {
  conn : Database;
  config : Config
}.

(** What the handler tells the user. *)
Inductive Reason : Type :=
| FieldsRequired      (* "All fields are required", "Password is required" *)
| BadStudentId        (* "Invalid Student ID ..." *)
| BadTeacherId        (* "Invalid Teacher ID ..." *)
| BadName             (* "Name must contain only letters and spaces", "Invalid name format" *)
| BadClass            (* "Invalid class selection" *)
| BadAge              (* "Age must be 11-18" *)
| BadCredentials      (* "Invalid credentials" *)
| BadAdminPassword    (* "Invalid admin password" *)
| IdExists            (* "Student ID already exists", "Teacher ID already exists" *)
| NoSelection.        (* "Select a student to delete" *)

Inductive Outcome : Type :=
| Success             (* [messagebox.showinfo("Success", ...)] *)
| Rejected (r : Reason)  (* [messagebox.showerror("Error", ...)] *)
| Cancelled.          (* the confirmation was answered no: nothing is shown *)

(** The error taxonomy of the specification. *)
Definition is_validation_error (o : Outcome) : bool :=
  match o with
  | Rejected FieldsRequired | Rejected BadStudentId | Rejected BadTeacherId
  | Rejected BadName | Rejected BadClass | Rejected BadAge => true
  | _ => false
  end.

Definition is_duplicate_id_error (o : Outcome) : bool :=
  match o with Rejected IdExists => true | _ => false end.

(** The raw texts of the entry widgets. *)
Record StudentForm : Type := {
  f_student_id : string;
  f_name : string;
  f_age : string;
  f_class : string;
  f_password : string
}.

Record TeacherForm : Type := {
  f_teacher_id : string;
  f_teacher_name : string;
  f_teacher_password : string
}.

(* ================================================================= *)
(** ** Validators *)

Definition valid_classes : list string :=
  [ "7A"; "7B"; "7C"; "8A"; "8B"; "8C";
    "9A"; "9B"; "9C"; "10A"; "10B"; "10C";
    "11A"; "11B"; "11C"; "12A"; "12B"; "13A" ].

(** [class_name in self.valid_classes] *)
Definition validate_class (c : string) : bool :=
  existsb (String.eqb c) valid_classes.

Definition hash_password (self : SchoolAuthSystem) (password : string) : string :=
  Sha256.hexdigest (Sha256.digest (PyStr.encode password)).

Definition validate_student_id (s : string) : bool := Re.id_pattern "K" s.

Definition validate_teacher_id (s : string) : bool := Re.id_pattern "T" s.

Definition validate_name (s : string) : bool :=
  Re.plus_then_end Re.name_class (PyStr.strip s).

(** The age step of both student handlers:
    [age = int(age)], then [ValueError] unless [11 <= age <= 18]; [None] is
    the [except ValueError] branch. *)
Definition check_age (a : string) : option Z :=
  match PyStr.int a with
  | Some n => if (11 <=? n) && (n <=? 18) then Some n else None
  | None => None
  end.

(** The class enumeration as the specification words it: year groups 7 to 13
    with sections A, B and C, year 13 with section A only. *)
Definition spec_class_enumeration : list string :=
  flat_map (fun y => [y ++ "A"; y ++ "B"; y ++ "C"])
           ["7"; "8"; "9"; "10"; "11"; "12"]
  ++ ["13A"].

(* ================================================================= *)
(** ** SQL fragments *)

Definition set_conn (self : SchoolAuthSystem) (d : Database) : SchoolAuthSystem :=
  {| conn := d; config := config self |}.

(** The key an AUTOINCREMENT column gives to a new row: one more than the
    largest key ever used. *)
Definition next_key (used : list Z) (seq : Z) : Z :=
  Z.max seq (fold_right Z.max 0 used) + 1.

(** [WHERE student_id = ? AND name = ? AND age = ? AND class_name = ?
    AND password_hash = ?] *)
Definition student_row_matches
    (sid nm : string) (ag : Z) (cl ph : string) (s : Student) : bool :=
  (student_id s =? sid)%string && (name s =? nm)%string && (age s =? ag)
  && (class_name s =? cl)%string && (password_hash s =? ph)%string.

(** [UPDATE students SET last_login = ? WHERE student_id = ?], on one row. *)
Definition touch_last_login (t sid : string) (s : Student) : Student :=
  if (student_id s =? sid)%string then
    {| student_id := student_id s; name := name s; age := age s;
       class_name := class_name s; password_hash := password_hash s;
       created_at := created_at s; last_login := Some t |}
  else s.

Definition insert_attendance
    (sid nm cl t st : string) (d : Database) : Database :=
  let k := next_key (map att_id (attendance d)) (attendance_seq d) in
  {| students := students d;
     attendance := attendance d ++
       [ {| att_id := k; att_student_id := sid; att_name := nm;
            att_class_name := cl; login_time := t; status := st |} ];
     teachers := teachers d;
     admin_logs := admin_logs d;
     attendance_seq := k;
     admin_logs_seq := admin_logs_seq d |}.

Definition insert_admin_log (act det t : string) (d : Database) : Database :=
  let k := next_key (map log_id (admin_logs d)) (admin_logs_seq d) in
  {| students := students d;
     attendance := attendance d;
     teachers := teachers d;
     admin_logs := admin_logs d ++
       [ {| log_id := k; action := act; details := det; timestamp := t |} ];
     attendance_seq := attendance_seq d;
     admin_logs_seq := k |}.

Definition update_students (f : list Student -> list Student) (d : Database) : Database :=
  {| students := f (students d);
     attendance := attendance d;
     teachers := teachers d;
     admin_logs := admin_logs d;
     attendance_seq := attendance_seq d;
     admin_logs_seq := admin_logs_seq d |}.

Definition update_attendance
    (f : list AttendanceRecord -> list AttendanceRecord) (d : Database) : Database :=
  {| students := students d;
     attendance := f (attendance d);
     teachers := teachers d;
     admin_logs := admin_logs d;
     attendance_seq := attendance_seq d;
     admin_logs_seq := admin_logs_seq d |}.

Definition update_teachers (f : list Teacher -> list Teacher) (d : Database) : Database :=
  {| students := students d;
     attendance := attendance d;
     teachers := f (teachers d);
     admin_logs := admin_logs d;
     attendance_seq := attendance_seq d;
     admin_logs_seq := admin_logs_seq d |}.

(** SQLite's [LIKE].  Its matcher, [patternCompare]: [%] stands for any run
    of characters, [_] for any one character, any other character for
    itself, the letters A-Z and a-z without regard to case. *)
Definition like_fold (c : ascii) : ascii :=
  if PyStr.in_range 65 90 c then ascii_of_N (PyStr.code c + 32) else c.

Fixpoint pattern_compare (p s : string) : bool :=
  match p with
  | EmptyString => match s with EmptyString => true | _ => false end
  | String c p' =>
      if (c =? "%")%char then
        (fix any (s : string) : bool :=
           pattern_compare p' s || match s with
                                   | EmptyString => false
                                   | String _ s' => any s'
                                   end) s
      else if (c =? "_")%char then
        match s with
        | EmptyString => false
        | String _ s' => pattern_compare p' s'
        end
      else
        match s with
        | EmptyString => false
        | String d s' =>
            (like_fold c =? like_fold d)%char && pattern_compare p' s'
        end
  end.

(** The matcher gets both operands as C strings: each ends at its first
    U+0000. *)
Fixpoint c_string (s : string) : string :=
  match s with
  | EmptyString => EmptyString
  | String c s' => if (c =? "000")%char then EmptyString else String c (c_string s')
  end.

Definition like (p s : string) : bool :=
  pattern_compare (c_string p) (c_string s).

(** [SQLITE_MAX_LIKE_PATTERN_LENGTH]: with a pattern of more than 50000
    bytes the statement fails, "LIKE or GLOB pattern too complex". *)
Definition like_too_complex (p : string) : bool :=
  50000 <? Z.of_nat (List.length (PyStr.encode p)).

(** [ORDER BY login_time DESC]: text order, largest first.  Rows of equal
    [login_time] keep their table order here; SQLite promises none. *)
Fixpoint insert_desc (r : AttendanceRecord) (rs : list AttendanceRecord)
  : list AttendanceRecord :=
  match rs with
  | [] => [r]
  | x :: rs' =>
      if String.leb (login_time x) (login_time r) then r :: rs
      else x :: insert_desc r rs'
  end.

Definition order_by_login_time_desc (rs : list AttendanceRecord)
  : list AttendanceRecord :=
  fold_right insert_desc [] rs.

(** The five columns of the attendance views. *)
Definition AttendanceRow : Type := (string * string * string * string * string)%type.

Definition attendance_columns (r : AttendanceRecord) : AttendanceRow :=
  (att_student_id r, att_name r, att_class_name r, login_time r, status r).

(** [SELECT student_id, name, class_name, login_time, status FROM attendance
     WHERE login_time LIKE ? ORDER BY login_time DESC] with the parameter
    [f"{d}%"], as the rows the view then shows: none when the statement
    fails and [except sqlite3.Error] takes over (an empty table gives none
    either way). *)
Definition query_attendance_for_date (d : string) (self : SchoolAuthSystem)
  : list AttendanceRow :=
  if like_too_complex (d ++ "%") then []
  else
    map attendance_columns
      (order_by_login_time_desc
         (filter (fun r => like (d ++ "%") (login_time r))
                 (attendance (conn self)))).

(* ================================================================= *)
(** ** Handlers *)

Definition all_truthy (fields : list string) : bool := forallb PyStr.truthy fields.

Definition verify_student_login
    (t_update t_insert : string) (e : StudentForm) (self : SchoolAuthSystem)
  : Outcome * SchoolAuthSystem :=
  let sid := PyStr.strip (f_student_id e) in
  let nm := PyStr.strip (f_name e) in
  let ag := PyStr.strip (f_age e) in
  let cl := PyStr.strip (f_class e) in
  let pw := PyStr.strip (f_password e) in
  if negb (all_truthy [sid; nm; ag; cl; pw]) then (Rejected FieldsRequired, self)
  else if negb (validate_student_id sid) then (Rejected BadStudentId, self)
  else if negb (validate_name nm) then (Rejected BadName, self)
  else if negb (validate_class cl) then (Rejected BadClass, self)
  else
    match check_age ag with
    | None => (Rejected BadAge, self)
    | Some n =>
        if existsb (student_row_matches sid nm n cl (hash_password self pw))
                   (students (conn self))
        then
          (Success,
           set_conn self
             (insert_attendance sid nm cl t_insert "Present"
                (update_students (map (touch_last_login t_update sid)) (conn self))))
        else (Rejected BadCredentials, self)
    end.

Definition teacher_row_matches (tid nm ph : string) (t : Teacher) : bool :=
  (teacher_id t =? tid)%string && (teacher_name t =? nm)%string
  && (teacher_password_hash t =? ph)%string.

Definition verify_teacher_login (e : TeacherForm) (self : SchoolAuthSystem)
  : Outcome * SchoolAuthSystem :=
  let tid := PyStr.strip (f_teacher_id e) in
  let nm := PyStr.strip (f_teacher_name e) in
  let pw := PyStr.strip (f_teacher_password e) in
  if negb (all_truthy [tid; nm; pw]) then (Rejected FieldsRequired, self)
  else if negb (validate_teacher_id tid) then (Rejected BadTeacherId, self)
  else if negb (validate_name nm) then (Rejected BadName, self)
  else if existsb (teacher_row_matches tid nm (hash_password self pw))
                  (teachers (conn self))
  then (Success, self)
  else (Rejected BadCredentials, self).

Definition verify_admin_login (entry : string) (self : SchoolAuthSystem)
  : Outcome * SchoolAuthSystem :=
  let password := PyStr.strip entry in
  if negb (PyStr.truthy password) then (Rejected FieldsRequired, self)
  else if (hash_password self password =? admin_password (config self))%string
  then (Success, self)
  else (Rejected BadAdminPassword, self).

(** [view_attendance]: the query for [date.today()]. *)
Definition view_attendance (today : string) (self : SchoolAuthSystem)
  : list AttendanceRow :=
  query_attendance_for_date today self.

(** [load_history]: [date_entry.get().strip() or date.today()...]. *)
Definition load_history (entry today : string) (self : SchoolAuthSystem)
  : list AttendanceRow :=
  let typed := PyStr.strip entry in
  let selected_date := if PyStr.truthy typed then typed else today in
  query_attendance_for_date selected_date self.

(** [delete_student]: [selected] is the first column of the selected row of
    the listing, [confirmed] the answer to the confirmation dialog. *)
Definition delete_student
    (selected : option string) (confirmed : bool) (t : string)
    (self : SchoolAuthSystem) : Outcome * SchoolAuthSystem :=
  match selected with
  | None => (Rejected NoSelection, self)
  | Some sid =>
      if confirmed then
        (Success,
         set_conn self
           (insert_admin_log "Delete Student" ("Deleted student " ++ sid) t
              (update_attendance
                 (filter (fun r => negb (att_student_id r =? sid)%string))
                 (update_students
                    (filter (fun s => negb (student_id s =? sid)%string))
                    (conn self)))))
      else (Cancelled, self)
  end.

(** [register_student]; the first [INSERT] raises [IntegrityError] when the
    primary key is taken, and then nothing of the [try] block has effect. *)
Definition register_student
    (t_created t_logged : string) (e : StudentForm) (self : SchoolAuthSystem)
  : Outcome * SchoolAuthSystem :=
  let sid := PyStr.strip (f_student_id e) in
  let nm := PyStr.strip (f_name e) in
  let ag := PyStr.strip (f_age e) in
  let cl := PyStr.strip (f_class e) in
  let pw := PyStr.strip (f_password e) in
  if negb (all_truthy [sid; nm; ag; cl; pw]) then (Rejected FieldsRequired, self)
  else if negb (validate_student_id sid) then (Rejected BadStudentId, self)
  else if negb (validate_name nm) then (Rejected BadName, self)
  else
    match check_age ag with
    | None => (Rejected BadAge, self)
    | Some n =>
        if existsb (fun s => (student_id s =? sid)%string) (students (conn self))
        then (Rejected IdExists, self)
        else
          (Success,
           set_conn self
             (insert_admin_log "Register Student" ("Registered student " ++ sid)
                t_logged
                (update_students
                   (fun rows => (rows ++
                      [ {| student_id := sid; name := nm; age := n;
                           class_name := cl;
                           password_hash := hash_password self pw;
                           created_at := t_created; last_login := None |} ])%list)
                   (conn self))))
    end.

Definition register_teacher
    (t_created t_logged : string) (e : TeacherForm) (self : SchoolAuthSystem)
  : Outcome * SchoolAuthSystem :=
  let tid := PyStr.strip (f_teacher_id e) in
  let nm := PyStr.strip (f_teacher_name e) in
  let pw := PyStr.strip (f_teacher_password e) in
  if negb (all_truthy [tid; nm; pw]) then (Rejected FieldsRequired, self)
  else if negb (validate_teacher_id tid) then (Rejected BadTeacherId, self)
  else if negb (validate_name nm) then (Rejected BadName, self)
  else if existsb (fun t => (teacher_id t =? tid)%string) (teachers (conn self))
  then (Rejected IdExists, self)
  else
    (Success,
     set_conn self
       (insert_admin_log "Register Teacher" ("Registered teacher " ++ tid)
          t_logged
          (update_teachers
             (fun rows => (rows ++
                [ {| teacher_id := tid; teacher_name := nm;
                     teacher_password_hash := hash_password self pw;
                     teacher_created_at := t_created |} ])%list)
             (conn self)))).

(** The decimal numeral a run of digits denotes. *)
Fixpoint decimal_value_from (acc : Z) (s : string) : Z :=
  match s with
  | EmptyString => acc
  | String c s' => decimal_value_from (10 * acc + PyStr.digit_value c) s'
  end.

Definition decimal_value (s : string) : Z := decimal_value_from 0 s.

(** The forms with every entry replaced by its stripped text. *)
Definition strip_student_form (e : StudentForm) : StudentForm :=
  {| f_student_id := PyStr.strip (f_student_id e);
     f_name := PyStr.strip (f_name e);
     f_age := PyStr.strip (f_age e);
     f_class := PyStr.strip (f_class e);
     f_password := PyStr.strip (f_password e) |}.

Definition strip_teacher_form (e : TeacherForm) : TeacherForm :=
  {| f_teacher_id := PyStr.strip (f_teacher_id e);
     f_teacher_name := PyStr.strip (f_teacher_name e);
     f_teacher_password := PyStr.strip (f_teacher_password e) |}.

(** The identifier format as the specification words it: the two characters
    [x] and [J], then exactly eight digits, and nothing else. *)
Definition letters_and_8_digits (x : ascii) (s : string) : bool :=
  match s with
  | String a (String b ds) =>
      (x =? a)%char && ("J" =? b)%char
      && (String.length ds =? 8)%nat && PyStr.all_chars PyStr.isdigit ds
  | _ => false
  end.

Definition newline : string := String "010" EmptyString.

(** The class enumeration by year group, as the list of the code has it:
    years 7 to 11 with sections A, B and C, year 12 with A and B, year 13
    with A. *)
Definition classes_by_year : list string :=
  flat_map (fun y => [y ++ "A"; y ++ "B"; y ++ "C"]) ["7"; "8"; "9"; "10"; "11"]
  ++ ["12A"; "12B"] ++ ["13A"].

(** A calendar date as [strftime("%Y-%m-%d")] writes it: four digits, a
    hyphen, two digits, a hyphen, two digits. *)
Fixpoint has_shape (shape : list (ascii -> bool)) (s : string) : bool :=
  match shape, s with
  | [], EmptyString => true
  | p :: shape', String c s' => p c && has_shape shape' s'
  | _, _ => false
  end.

Definition is_hyphen (c : ascii) : bool := (c =? "-")%char.

Definition date_shape : list (ascii -> bool) :=
  [ PyStr.isdigit; PyStr.isdigit; PyStr.isdigit; PyStr.isdigit; is_hyphen;
    PyStr.isdigit; PyStr.isdigit; is_hyphen; PyStr.isdigit; PyStr.isdigit ].

Definition is_date_text (d : string) : bool := has_shape date_shape d.

(** The calendar date of a [login_time] written by
    [strftime("%Y-%m-%d %H:%M:%S")]: its first ten characters. *)
Definition calendar_date (t : string) : string := substring 0 10 t.

Definition row_login_time (r : AttendanceRow) : string :=
  let '(_, _, _, t, _) := r in t.

(** Most recent first. *)
Definition later_or_equal (r1 r2 : AttendanceRow) : Prop :=
  String.leb (row_login_time r2) (row_login_time r1) = true.

(** The five entries of a form against a stored record: identifier, name
    and class as stripped texts, the age as [int] reads it, the password
    through its hash. *)
Definition form_matches
    (self : SchoolAuthSystem) (e : StudentForm) (r : Student) : Prop :=
  student_id r = PyStr.strip (f_student_id e)
  /\ name r = PyStr.strip (f_name e)
  /\ PyStr.int (PyStr.strip (f_age e)) = Some (age r)
  /\ class_name r = PyStr.strip (f_class e)
  /\ password_hash r = hash_password self (PyStr.strip (f_password e)).

(** The record after a login at time [t]. *)
Definition logged_in (t : string) (r : Student) : Student :=
  {| student_id := student_id r; name := name r; age := age r;
     class_name := class_name r; password_hash := password_hash r;
     created_at := created_at r; last_login := Some t |}.

(** The checks of [verify_student_login] before the query. *)
Definition login_fields_valid (e : StudentForm) : bool :=
  all_truthy [ PyStr.strip (f_student_id e); PyStr.strip (f_name e);
               PyStr.strip (f_age e); PyStr.strip (f_class e);
               PyStr.strip (f_password e) ]
  && validate_student_id (PyStr.strip (f_student_id e))
  && validate_name (PyStr.strip (f_name e))
  && validate_class (PyStr.strip (f_class e))
  && match check_age (PyStr.strip (f_age e)) with Some _ => true | None => false end.

(** The checks of [register_student] before the insertion. *)
Definition registration_fields_valid (e : StudentForm) : bool :=
  all_truthy [ PyStr.strip (f_student_id e); PyStr.strip (f_name e);
               PyStr.strip (f_age e); PyStr.strip (f_class e);
               PyStr.strip (f_password e) ]
  && validate_student_id (PyStr.strip (f_student_id e))
  && validate_name (PyStr.strip (f_name e))
  && match check_age (PyStr.strip (f_age e)) with Some _ => true | None => false end.

(** A pattern character that [LIKE] reads as itself and as nothing else:
    not a wildcard, not a letter and not U+0000. *)
Definition like_plain (c : ascii) : bool :=
  negb (c =? "%")%char && negb (c =? "_")%char && negb (PyStr.isalpha c)
  && negb (c =? "000")%char.

(** Rows in [ORDER BY login_time DESC] order. *)
Definition login_time_desc (r1 r2 : AttendanceRecord) : Prop :=
  String.leb (login_time r2) (login_time r1) = true.

(** *** Sample states and forms *)

Definition empty_database : Database :=
  {| students := []; attendance := []; teachers := []; admin_logs := [];
     attendance_seq := 0; admin_logs_seq := 0 |}.

(** [default_config] of [load_config]. *)
Definition default_config : Config :=
  {| school_name := "King James School, Knaresborough";
     min_age := 11;
     max_age := 18;
     admin_password := Sha256.hexdigest (Sha256.digest (PyStr.encode "admin123"));
     teacher_password := Sha256.hexdigest (Sha256.digest (PyStr.encode "teacher123")) |}.

Definition fresh_system : SchoolAuthSystem :=
  {| conn := empty_database; config := default_config |}.

Definition alice_form : StudentForm :=
  {| f_student_id := "KJ20240001"; f_name := "Alice Smith"; f_age := "12";
     f_class := "7A"; f_password := "secret" |}.

(** The form of Alice with a class that is not in the enumeration. *)
Definition unknown_class_form : StudentForm :=
  {| f_student_id := "KJ20240001"; f_name := "Alice Smith"; f_age := "12";
     f_class := "99Z"; f_password := "secret" |}.

Definition alice : Student :=
  {| student_id := "KJ20240001"; name := "Alice Smith"; age := 12;
     class_name := "7A";
     password_hash :=
       "2bb80d537b1da3e38bd30361aa855686bde0eacd7162fef6a25fe97bf527a25b";
     created_at := "2024-09-02 08:00:00"; last_login := None |}.

Definition bob : Student :=
  {| student_id := "KJ20240002"; name := "Bob Jones"; age := 13;
     class_name := "8B";
     password_hash :=
       "2bb80d537b1da3e38bd30361aa855686bde0eacd7162fef6a25fe97bf527a25b";
     created_at := "2024-09-02 08:05:00"; last_login := None |}.

Definition sample_attendance : list AttendanceRecord :=
  [ {| att_id := 1; att_student_id := "KJ20240001"; att_name := "Alice Smith";
       att_class_name := "7A"; login_time := "2024-09-03 08:55:10";
       status := "Present" |};
    {| att_id := 2; att_student_id := "KJ20240002"; att_name := "Bob Jones";
       att_class_name := "8B"; login_time := "2024-09-03 08:57:42";
       status := "Present" |};
    {| att_id := 3; att_student_id := "KJ20240001"; att_name := "Alice Smith";
       att_class_name := "7A"; login_time := "2024-09-04 08:51:03";
       status := "Present" |} ].

Definition sample_system : SchoolAuthSystem :=
  {| conn := {| students := [alice; bob];
                attendance := sample_attendance;
                teachers := [];
                admin_logs := [];
                attendance_seq := 3;
                admin_logs_seq := 0 |};
     config := default_config |}.

(* ================================================================= *)
(** ** The student listing of [manage_students] *)

(** [ORDER BY name]: text order, smallest first; rows of equal name keep
    their table order here. *)
Fixpoint insert_by_name (r : Student) (rs : list Student) : list Student :=
  match rs with
  | [] => [r]
  | x :: rs' =>
      if String.leb (name r) (name x) then r :: rs
      else x :: insert_by_name r rs'
  end.

Definition order_by_name (rs : list Student) : list Student :=
  fold_right insert_by_name [] rs.

Definition StudentRow : Type :=
  (string * string * Z * string * option string)%type.

Definition student_columns (s : Student) : StudentRow :=
  (student_id s, name s, age s, class_name s, last_login s).

Definition student_row_id (r : StudentRow) : string :=
  let '(i, _, _, _, _) := r in i.

Definition student_row_name (r : StudentRow) : string :=
  let '(_, n, _, _, _) := r in n.

(** [SELECT student_id, name, age, class_name, last_login FROM students
     ORDER BY name] *)
Definition manage_students (self : SchoolAuthSystem) : list StudentRow :=
  map student_columns (order_by_name (students (conn self))).

Definition name_ascending (r1 r2 : StudentRow) : Prop :=
  String.leb (student_row_name r1) (student_row_name r2) = true.

(* ================================================================= *)
(** ** The login window: [self.current_login_type] and [self.entries] *)

Inductive Widget : Type :=
| CTkEntry (text : string)
| CTkComboBox (text : string).

(** [widget.get()] *)
Definition widget_get (w : Widget) : string :=
  match w with CTkEntry t => t | CTkComboBox t => t end.

Definition is_combo (w : Widget) : bool :=
  match w with CTkEntry _ => false | CTkComboBox _ => true end.

(** The dictionary [self.entries], in insertion order. *)
Definition Entries : Type := list (string * Widget).

(** [self.entries[k]]; [None] is [KeyError]. *)
Fixpoint entries_get (k : string) (d : Entries) : option Widget :=
  match d with
  | [] => None
  | (k', w) :: d' => if (k' =? k)%string then Some w else entries_get k d'
  end.

(** A new combo box shows the first of its values. *)
Definition setup_student_form : Entries :=
  [ ("Student ID", CTkEntry ""); ("Name", CTkEntry ""); ("Age", CTkEntry "");
    ("Class", CTkComboBox (nth 0 valid_classes "")); ("Password", CTkEntry "") ].

Definition setup_teacher_form : Entries :=
  [ ("Teacher ID", CTkEntry ""); ("Name", CTkEntry ""); ("Password", CTkEntry "") ].

Definition setup_admin_form : Entries :=
  [ ("Password", CTkEntry "") ].

Record Window : Type := {
  current_login_type : string;
  entries : Entries
}.

Definition form_for (login_type : string) : Entries :=
  if (login_type =? "Student")%string then setup_student_form
  else if (login_type =? "Teacher")%string then setup_teacher_form
  else setup_admin_form.

(** The window [setup_gui] leaves. *)
Definition setup_gui : Window :=
  {| current_login_type := "Student"; entries := setup_student_form |}.

Definition switch_login_type (login_type : string) (w : Window) : Window :=
  {| current_login_type := login_type; entries := form_for login_type |}.

(** The user types (or picks) [text] in the widget of field [k]. *)
Definition set_text (text : string) (w : Widget) : Widget :=
  match w with
  | CTkEntry _ => CTkEntry text
  | CTkComboBox _ => CTkComboBox text
  end.

Fixpoint type_into (k text : string) (d : Entries) : Entries :=
  match d with
  | [] => []
  | (k', w) :: d' =>
      if (k' =? k)%string then (k', set_text text w) :: d'
      else (k', w) :: type_into k text d'
  end.

Definition clear_widget (w : Widget) : Widget :=
  match w with
  | CTkEntry _ => CTkEntry ""
  | CTkComboBox _ => CTkComboBox (nth 0 valid_classes "")
  end.

(** [clear_entries] *)
Definition clear_entries (d : Entries) : Entries :=
  map (fun kw => (fst kw, clear_widget (snd kw))) d.

Definition read_student_form (d : Entries) : option StudentForm :=
  match entries_get "Student ID" d, entries_get "Name" d, entries_get "Age" d,
        entries_get "Class" d, entries_get "Password" d with
  | Some i, Some n, Some a, Some c, Some p =>
      Some {| f_student_id := widget_get i; f_name := widget_get n;
              f_age := widget_get a; f_class := widget_get c;
              f_password := widget_get p |}
  | _, _, _, _, _ => None
  end.

Definition read_teacher_form (d : Entries) : option TeacherForm :=
  match entries_get "Teacher ID" d, entries_get "Name" d,
        entries_get "Password" d with
  | Some i, Some n, Some p =>
      Some {| f_teacher_id := widget_get i; f_teacher_name := widget_get n;
              f_teacher_password := widget_get p |}
  | _, _, _ => None
  end.

(** The three login handlers call [clear_entries] on success only. *)
Definition after_login (w : Window) (r : Outcome * SchoolAuthSystem)
  : Outcome * Window * SchoolAuthSystem :=
  (fst r,
   match fst r with
   | Success => {| current_login_type := current_login_type w;
                   entries := clear_entries (entries w) |}
   | _ => w
   end,
   snd r).

(** [verify_login], with the reading of the entries that opens each
    handler; [None] is a [KeyError] from [self.entries[...]]. *)
Definition verify_login
    (t_update t_insert : string) (w : Window) (self : SchoolAuthSystem)
  : option (Outcome * Window * SchoolAuthSystem) :=
  if (current_login_type w =? "Student")%string then
    option_map
      (fun e => after_login w (verify_student_login t_update t_insert e self))
      (read_student_form (entries w))
  else if (current_login_type w =? "Teacher")%string then
    option_map (fun e => after_login w (verify_teacher_login e self))
               (read_teacher_form (entries w))
  else
    option_map (fun p => after_login w (verify_admin_login (widget_get p) self))
               (entries_get "Password" (entries w)).

(** What can happen to the login window. *)
Inductive window_step : Window -> Window -> Prop :=
| ws_switch (login_type : string) (w : Window) :
    window_step w (switch_login_type login_type w)
| ws_type (k text : string) (w : Window) :
    window_step w {| current_login_type := current_login_type w;
                     entries := type_into k text (entries w) |}
| ws_verify (t1 t2 : string) (w w' : Window) (self self' : SchoolAuthSystem)
            (o : Outcome) :
    verify_login t1 t2 w self = Some (o, w', self') ->
    window_step w w'.

Inductive window_reachable : Window -> Prop :=
| wr_setup : window_reachable setup_gui
| wr_step (w w' : Window) :
    window_reachable w -> window_step w w' -> window_reachable w'.

(* ================================================================= *)
(** ** Runs of the system *)

(** The effects of the handlers on the database when they succeed. *)
Definition record_login (t1 t2 : string) (r : Student) (d : Database) : Database :=
  insert_attendance (student_id r) (name r) (class_name r) t2 "Present"
    (update_students (map (touch_last_login t1 (student_id r))) d).

Definition add_student (t : string) (x : Student) (d : Database) : Database :=
  insert_admin_log "Register Student" ("Registered student " ++ student_id x) t
    (update_students (fun rows => (rows ++ [x])%list) d).

Definition add_teacher (t : string) (x : Teacher) (d : Database) : Database :=
  insert_admin_log "Register Teacher" ("Registered teacher " ++ teacher_id x) t
    (update_teachers (fun rows => (rows ++ [x])%list) d).

Definition remove_student (sid t : string) (d : Database) : Database :=
  insert_admin_log "Delete Student" ("Deleted student " ++ sid) t
    (update_attendance
       (filter (fun r => negb (att_student_id r =? sid)%string))
       (update_students
          (filter (fun s => negb (student_id s =? sid)%string)) d)).

(** One call of a handler, with any entries and at any time. *)
Inductive step : SchoolAuthSystem -> SchoolAuthSystem -> Prop :=
| step_verify_student (t1 t2 : string) (e : StudentForm) (s : SchoolAuthSystem) :
    step s (snd (verify_student_login t1 t2 e s))
| step_verify_teacher (e : TeacherForm) (s : SchoolAuthSystem) :
    step s (snd (verify_teacher_login e s))
| step_verify_admin (entry : string) (s : SchoolAuthSystem) :
    step s (snd (verify_admin_login entry s))
| step_register_student (t1 t2 : string) (e : StudentForm) (s : SchoolAuthSystem) :
    step s (snd (register_student t1 t2 e s))
| step_register_teacher (t1 t2 : string) (e : TeacherForm) (s : SchoolAuthSystem) :
    step s (snd (register_teacher t1 t2 e s))
| step_delete_student (selected : option string) (confirmed : bool) (t : string)
                      (s : SchoolAuthSystem) :
    step s (snd (delete_student selected confirmed t s)).

(** The states the handlers can bring about from the empty tables that
    [setup_database] creates. *)
Inductive reachable : SchoolAuthSystem -> Prop :=
| reachable_fresh (c : Config) :
    reachable {| conn := empty_database; config := c |}
| reachable_step (s s' : SchoolAuthSystem) :
    reachable s -> step s s' -> reachable s'.

(** The column constraints a stored student meets: the identifier format,
    the [CHECK] on the age, a name of letters and white space, a 64-digit
    hexadecimal password hash. *)
Definition student_well_formed (x : Student) : bool :=
  letters_and_8_digits "K" (student_id x)
  && (11 <=? age x) && (age x <=? 18)
  && PyStr.truthy (name x) && PyStr.all_chars Re.name_class (name x)
  && (String.length (password_hash x) =? 64)%nat
  && PyStr.all_chars Sha256.is_hex (password_hash x).

Definition teacher_well_formed (x : Teacher) : bool :=
  letters_and_8_digits "T" (teacher_id x)
  && PyStr.truthy (teacher_name x)
  && PyStr.all_chars Re.name_class (teacher_name x)
  && (String.length (teacher_password_hash x) =? 64)%nat
  && PyStr.all_chars Sha256.is_hex (teacher_password_hash x).

(** An attendance row belongs to a stored student and repeats the name and
    class of that student. *)
Definition attendance_of (a : AttendanceRecord) (s : Student) : Prop :=
  att_student_id a = student_id s /\ att_name a = name s
  /\ att_class_name a = class_name s.

(** Keys in table order: strictly increasing, positive, at most [seq]. *)
Fixpoint keys_increasing (lo : Z) (keys : list Z) (seq : Z) : Prop :=
  match keys with
  | [] => lo <= seq
  | k :: keys' => lo < k /\ keys_increasing k keys' seq
  end.

(** *** A run: two registrations and a login *)

Definition bob_form : StudentForm :=
  {| f_student_id := " KJ20240002 "; f_name := "Bob Jones"; f_age := "13";
     f_class := "8B"; f_password := "secret" |}.

Definition mrs_hall_form : TeacherForm :=
  {| f_teacher_id := "TJ20190007"; f_teacher_name := "Ann Hall";
     f_teacher_password := "chalk" |}.

Definition demo_system : SchoolAuthSystem :=
  snd (verify_student_login "2024-09-03 08:55:10" "2024-09-03 08:55:11" alice_form
    (snd (register_teacher "2024-09-02 08:10:00" "2024-09-02 08:10:00" mrs_hall_form
      (snd (register_student "2024-09-02 08:05:00" "2024-09-02 08:05:00" bob_form
        (snd (register_student "2024-09-02 08:00:00" "2024-09-02 08:00:00"
                alice_form fresh_system))))))).

(** The checks of the two teacher handlers before they touch the tables. *)
Definition teacher_fields_valid (e : TeacherForm) : bool :=
  all_truthy [ PyStr.strip (f_teacher_id e); PyStr.strip (f_teacher_name e);
               PyStr.strip (f_teacher_password e) ]
  && validate_teacher_id (PyStr.strip (f_teacher_id e))
  && validate_name (PyStr.strip (f_teacher_name e)).

(** The three entries of a teacher form against a stored teacher. *)
Definition teacher_form_matches
    (self : SchoolAuthSystem) (e : TeacherForm) (t : Teacher) : Prop :=
  teacher_id t = PyStr.strip (f_teacher_id e)
  /\ teacher_name t = PyStr.strip (f_teacher_name e)
  /\ teacher_password_hash t
     = hash_password self (PyStr.strip (f_teacher_password e)).

(** The same tables under another configuration. *)
Definition with_config (c : Config) (self : SchoolAuthSystem) : SchoolAuthSystem :=
  {| conn := conn self; config := c |}.

(** What a handler returns, leaving the configuration aside: the outcome and
    the tables. *)
Definition observed (r : Outcome * SchoolAuthSystem) : Outcome * Database :=
  (fst r, conn (snd r)).

(** A configuration with other age bounds, school name and teacher
    password than the default one. *)
Definition other_config : Config :=
  {| school_name := "Another School";
     min_age := 5;
     max_age := 99;
     admin_password := admin_password default_config;
     teacher_password := "" |}.

Definition mrs_hall : Teacher :=
  {| teacher_id := "TJ20190007"; teacher_name := "Ann Hall";
     teacher_password_hash :=
       Sha256.hexdigest (Sha256.digest (PyStr.encode "chalk"));
     teacher_created_at := "2024-09-02 08:10:00" |}.

(** The student row [register_student] builds from a form. *)
Definition student_of_form
    (self : SchoolAuthSystem) (t : string) (e : StudentForm) (n : Z) : Student :=
  {| student_id := PyStr.strip (f_student_id e);
     name := PyStr.strip (f_name e);
     age := n;
     class_name := PyStr.strip (f_class e);
     password_hash := hash_password self (PyStr.strip (f_password e));
     created_at := t;
     last_login := None |}.

(** The teacher row [register_teacher] builds from a form. *)
Definition teacher_of_form
    (self : SchoolAuthSystem) (t : string) (e : TeacherForm) : Teacher :=
  {| teacher_id := PyStr.strip (f_teacher_id e);
     teacher_name := PyStr.strip (f_teacher_name e);
     teacher_password_hash :=
       hash_password self (PyStr.strip (f_teacher_password e));
     teacher_created_at := t |}.

(** The attendance row a login of [r] at time [t] adds. *)
Definition present_row (k : Z) (r : Student) (t : string) : AttendanceRecord :=
  {| att_id := k; att_student_id := student_id r; att_name := name r;
     att_class_name := class_name r; login_time := t; status := "Present" |}.

(** *** What holds of the tables in every run *)

(** The primary keys of [students] and [teachers]. *)
Definition primary_keys (d : Database) : Prop :=
  NoDup (map student_id (students d)) /\ NoDup (map teacher_id (teachers d)).

Definition rows_well_formed (d : Database) : Prop :=
  forallb student_well_formed (students d) = true
  /\ forallb teacher_well_formed (teachers d) = true.

(** Every attendance row is "Present", names a class of the enumeration and
    belongs to a stored student. *)
Definition attendance_sound (d : Database) : Prop :=
  forall a, In a (attendance d) ->
            status a = "Present"
            /\ validate_class (att_class_name a) = true
            /\ exists s, In s (students d) /\ attendance_of a s.

(** Keys in table order, each one more than the one before, from [lo] up to
    [seq]. *)
Fixpoint keys_consecutive (lo : Z) (keys : list Z) (seq : Z) : Prop :=
  match keys with
  | [] => seq = lo
  | k :: keys' => k = lo + 1 /\ keys_consecutive k keys' seq
  end.

Definition keys_sound (d : Database) : Prop :=
  keys_increasing 0 (map att_id (attendance d)) (attendance_seq d)
  /\ keys_consecutive 0 (map log_id (admin_logs d)) (admin_logs_seq d).

(** A student has no [last_login] exactly when no attendance row carries
    the identifier. *)
Definition last_login_sound (d : Database) : Prop :=
  forall s, In s (students d) ->
            (last_login s = None
             <-> forall a, In a (attendance d) -> att_student_id a <> student_id s).

Definition invariant (d : Database) : Prop :=
  primary_keys d /\ rows_well_formed d /\ attendance_sound d
  /\ keys_sound d /\ last_login_sound d.

(** Several calls of handlers in a row. *)
Inductive run : SchoolAuthSystem -> SchoolAuthSystem -> Prop :=
| run_none (s : SchoolAuthSystem) : run s s
| run_more (s s' s'' : SchoolAuthSystem) : run s s' -> step s' s'' -> run s s''.

(** The keys of a dictionary of widgets with the kind of each widget. *)
Definition key_kind (kw : string * Widget) : string * bool :=
  (fst kw, is_combo (snd kw)).

(** The entries are those of the form of the current login type, whatever
    texts they hold. *)
Definition window_shaped (w : Window) : Prop :=
  map key_kind (entries w) = map key_kind (form_for (current_login_type w)).

(** The window after the user has typed [text] into the field [k]. *)
Definition typed (k text : string) (w : Window) : Window :=
  {| current_login_type := current_login_type w;
     entries := type_into k text (entries w) |}.

(** The student form filled in by Alice. *)
Definition alice_window : Window :=
  typed "Password" "secret"
    (typed "Class" "7A"
       (typed "Age" "12"
          (typed "Name" "Alice Smith"
             (typed "Student ID" "KJ20240001" setup_gui)))).

(** A form with another text in the age entry. *)
Definition with_age (a : string) (e : StudentForm) : StudentForm :=
  {| f_student_id := f_student_id e; f_name := f_name e; f_age := a;
     f_class := f_class e; f_password := f_password e |}.

(** *** The integer a text denotes

    A numeral as [int()] takes it: white space, an optional sign, digits
    with single underscores allowed between them, white space.
    [digits_tail s ds]: [s] continues a numeral after a digit and [ds] are
    the digits of [s]. *)
Inductive digits_tail : string -> string -> Prop :=
| tail_end : digits_tail EmptyString EmptyString
| tail_digit (c : ascii) (s ds : string) :
    PyStr.isdigit c = true -> digits_tail s ds ->
    digits_tail (String c s) (String c ds)
| tail_underscore (c : ascii) (s ds : string) :
    PyStr.isdigit c = true -> digits_tail s ds ->
    digits_tail (String "_" (String c s)) (String c ds).

Inductive sign_of : string -> Z -> Prop :=
| sign_none : sign_of EmptyString 1
| sign_plus : sign_of "+" 1
| sign_minus : sign_of "-" (-1).

(** [a] denotes the integer [n] and is written with the digits [ds]. *)
Definition denotes_integer (a : string) (n : Z) (ds : string) : Prop :=
  exists (ws1 sg : string) (k : Z) (c : ascii) (tl dt ws2 : string),
    a = (ws1 ++ sg ++ String c tl ++ ws2)%string
    /\ ds = String c dt
    /\ PyStr.all_chars PyStr.int_isspace ws1 = true
    /\ PyStr.all_chars PyStr.int_isspace ws2 = true
    /\ sign_of sg k
    /\ PyStr.isdigit c = true
    /\ digits_tail tl dt
    /\ n = k * decimal_value ds.

Fixpoint zeros (n : nat) (s : string) : string :=
  match n with
  | O => s
  | S n' => String "0" (zeros n' s)
  end.

(** The numeral 12 written with 4301 digits. *)
Definition long_twelve : string := zeros 4299 "12".

(* ================================================================= *)
(** * Properties *)

(** ** [str.strip] *)

Lemma lstrip_head_not_space (s : string) (c : ascii) (r : string) :
  PyStr.lstrip s = String c r -> PyStr.isspace c = false.
Proof.
  induction s as [|d s IH]; simpl; [discriminate|].
  destruct (PyStr.isspace d) eqn:E; [exact IH|].
  intros H; injection H as -> _; exact E.
Qed.

Lemma lstrip_fixed (c : ascii) (r : string) :
  PyStr.isspace c = false -> PyStr.lstrip (String c r) = String c r.
Proof. intros H; simpl; now rewrite H. Qed.

Lemma rstrip_keeps_head (c : ascii) (r : string) :
  PyStr.isspace c = false ->
  exists r', PyStr.rstrip (String c r) = String c r'.
Proof.
  intros H; simpl.
  destruct (PyStr.rstrip r); [rewrite H|]; eauto.
Qed.

Lemma rstrip_idempotent (s : string) :
  PyStr.rstrip (PyStr.rstrip s) = PyStr.rstrip s.
Proof.
  induction s as [|c s IH]; simpl; [reflexivity|].
  destruct (PyStr.rstrip s) as [|d r] eqn:E.
  - destruct (PyStr.isspace c) eqn:Ec; simpl; [reflexivity|now rewrite Ec].
  - change (PyStr.rstrip (String c (String d r)))
      with (match PyStr.rstrip (String d r) with
            | EmptyString =>
                if PyStr.isspace c then EmptyString else String c EmptyString
            | r0 => String c r0
            end).
    now rewrite IH.
Qed.

Lemma strip_idempotent (s : string) :
  PyStr.strip (PyStr.strip s) = PyStr.strip s.
Proof.
  unfold PyStr.strip.
  destruct (PyStr.lstrip s) as [|c r] eqn:E; [reflexivity|].
  pose proof (lstrip_head_not_space _ _ _ E) as Hc.
  destruct (rstrip_keeps_head c r Hc) as [r' Hr].
  rewrite Hr, (lstrip_fixed _ _ Hc), <- Hr.
  apply rstrip_idempotent.
Qed.

(** A stripped text does not end in white space. *)
Lemma rstrip_last_not_space (s r : string) (c : ascii) :
  PyStr.rstrip s = (r ++ String c EmptyString)%string -> PyStr.isspace c = false.
Proof.
  revert r; induction s as [|d s IH]; intros r; simpl.
  - destruct r; discriminate.
  - destruct (PyStr.rstrip s) as [|e t] eqn:E.
    + destruct (PyStr.isspace d) eqn:Ed.
      * destruct r; discriminate.
      * destruct r as [|x [|y r]]; simpl; try discriminate.
        intros H; injection H as ->; exact Ed.
    + destruct r as [|x r]; simpl; [discriminate|].
      intros H; injection H as _ H. exact (IH r H).
Qed.

Lemma strip_last_not_space (s r : string) (c : ascii) :
  PyStr.strip s = (r ++ String c EmptyString)%string -> PyStr.isspace c = false.
Proof. apply rstrip_last_not_space. Qed.

(** ** Claim C10: entries are stripped before anything else *)

(** C10.  Student, teacher and administrator authentication and student and
    teacher registration give the same outcome and the same resulting state
    on the raw entry texts as on their stripped texts: every handler strips
    each entry before it validates, compares or stores it. *)
Theorem handlers_strip_entries :
  forall (t1 t2 : string) (e : StudentForm) (te : TeacherForm)
         (entry : string) (self : SchoolAuthSystem),
    verify_student_login t1 t2 e self
      = verify_student_login t1 t2 (strip_student_form e) self
    /\ verify_teacher_login te self
         = verify_teacher_login (strip_teacher_form te) self
    /\ verify_admin_login entry self
         = verify_admin_login (PyStr.strip entry) self
    /\ register_student t1 t2 e self
         = register_student t1 t2 (strip_student_form e) self
    /\ register_teacher t1 t2 te self
         = register_teacher t1 t2 (strip_teacher_form te) self.
Proof.
  intros.
  unfold verify_student_login, verify_teacher_login, verify_admin_login,
    register_student, register_teacher, strip_student_form, strip_teacher_form.
  cbn [f_student_id f_name f_age f_class f_password
       f_teacher_id f_teacher_name f_teacher_password].
  rewrite !strip_idempotent.
  repeat split; reflexivity.
Qed.

(** ** The identifier patterns *)

Lemma digits_spec (n : nat) (s r : string) :
  Re.digits n s = Some r <->
  exists ds, String.length ds = n
             /\ PyStr.all_chars PyStr.isdigit ds = true
             /\ s = (ds ++ r)%string.
Proof.
  revert s; induction n as [|n IH]; intros s; simpl.
  - split.
    + intros H; injection H as ->. exists EmptyString; auto.
    + intros (ds & Hl & _ & ->). destruct ds; [reflexivity|discriminate].
  - destruct s as [|c s].
    + split; [discriminate|].
      intros (ds & Hl & _ & H). destruct ds; discriminate.
    + destruct (PyStr.isdigit c) eqn:Ec.
      * rewrite IH. split.
        -- intros (ds & Hl & Hd & ->). exists (String c ds); simpl.
           rewrite Ec, Hl, Hd; auto.
        -- intros (ds & Hl & Hd & H). destruct ds as [|d ds]; [discriminate|].
           simpl in *. injection H as -> ->. injection Hl as Hl.
           apply andb_prop in Hd as [_ Hd]. eauto.
      * split; [discriminate|].
        intros (ds & Hl & Hd & H). destruct ds as [|d ds]; [discriminate|].
        simpl in *. injection H as -> ->. rewrite Ec in Hd; discriminate.
Qed.

Lemma digits_twice (a b : nat) (s : string) :
  Re.then_ (Re.digits a s) (Re.digits b) = Re.digits (a + b) s.
Proof.
  revert s; induction a as [|a IH]; intros s; simpl; [reflexivity|].
  destruct s as [|c s]; [reflexivity|].
  destruct (PyStr.isdigit c); [apply IH|reflexivity].
Qed.

Lemma at_end_spec (r : string) :
  Re.at_end r = true <-> r = EmptyString \/ r = newline.
Proof.
  unfold newline. destruct r as [|c [|d r]]; simpl.
  - tauto.
  - destruct (Ascii.eqb_spec c "010") as [->|N].
    + split; auto.
    + split; [discriminate|].
      intros [H|H]; [discriminate|]. injection H as ->. now elim N.
  - split; [discriminate|]. intros [H|H]; discriminate.
Qed.

Lemma append_empty (s : string) : (s ++ "")%string = s.
Proof. induction s; simpl; congruence. Qed.

Lemma length_append (s t : string) :
  String.length (s ++ t) = (String.length s + String.length t)%nat.
Proof. induction s; simpl; congruence. Qed.

Lemma all_chars_append (p : ascii -> bool) (s t : string) :
  PyStr.all_chars p (s ++ t) = PyStr.all_chars p s && PyStr.all_chars p t.
Proof.
  induction s as [|c s IH]; simpl; [reflexivity|].
  now rewrite IH, andb_assoc.
Qed.

Lemma append_same_length (s s' t t' : string) :
  String.length s = String.length s' ->
  (s ++ t)%string = (s' ++ t')%string -> t = t'.
Proof.
  revert s'; induction s as [|c s IH]; intros [|c' s'] Hl H;
    try discriminate; simpl in *.
  - exact H.
  - injection H as _ H. injection Hl as Hl. eauto.
Qed.

Lemma id_pattern_unfold (x a b : ascii) (rest : string) :
  Re.id_pattern x (String a (String b rest))
  = (x =? a)%char && ("J" =? b)%char
    && match Re.digits 8 rest with Some r => Re.at_end r | None => false end.
Proof.
  unfold Re.id_pattern, Re.lit at 1.
  destruct (x =? a)%char; [|reflexivity].
  unfold Re.then_ at 3, Re.lit.
  destruct ("J" =? b)%char; [|reflexivity].
  unfold Re.then_ at 2.
  now rewrite (digits_twice 4 4 rest).
Qed.

(** What the pattern [^XJ\d{4}\d{4}$] accepts: the identifiers, and the
    identifiers followed by one newline. *)
Lemma id_pattern_spec (x : ascii) (s : string) :
  Re.id_pattern x s = true <->
  letters_and_8_digits x s = true
  \/ exists s0, s = (s0 ++ newline)%string /\ letters_and_8_digits x s0 = true.
Proof.
  destruct s as [|a [|b rest]].
  - split; [discriminate|]. intros [H|(s0 & H & H0)]; [discriminate|].
    destruct s0; discriminate.
  - split.
    + unfold Re.id_pattern; simpl. destruct (x =? a)%char; discriminate.
    + intros [H|(s0 & H & H0)]; [discriminate|].
      destruct s0 as [|? [|? ?]]; discriminate.
  - rewrite id_pattern_unfold. unfold letters_and_8_digits.
    destruct (Ascii.eqb_spec x a) as [->|Na]; cbn [andb].
    + destruct (Ascii.eqb_spec "J" b) as [<-|Nb]; cbn [andb].
      * destruct (Re.digits 8 rest) as [r|] eqn:E.
        -- apply digits_spec in E as (ds & Hl & Hd & ->).
           rewrite at_end_spec. split.
           ++ intros [->| ->].
              ** left. rewrite append_empty, Hl, Hd. reflexivity.
              ** right. exists (String a (String "J" ds)). simpl.
                 rewrite Hl, Hd, Ascii.eqb_refl. auto.
           ++ intros [H|(s0 & H & H0)].
              ** apply andb_prop in H as [H _]. apply Nat.eqb_eq in H.
                 rewrite length_append in H.
                 destruct r; [auto|simpl in H; lia].
              ** destruct s0 as [|a' [|b' ds']]; try discriminate.
                 simpl in H. injection H as _ _ H.
                 apply andb_prop in H0 as [H0 Hd'].
                 apply andb_prop in H0 as [_ Hl'].
                 apply Nat.eqb_eq in Hl'.
                 right. apply (append_same_length ds ds'); congruence.
        -- split; [discriminate|].
           intros [H|(s0 & H & H0)].
           ++ apply andb_prop in H as [Hl Hd]. apply Nat.eqb_eq in Hl.
              assert (X : Re.digits 8 rest = Some EmptyString).
              { apply digits_spec. exists rest. rewrite append_empty. auto. }
              congruence.
           ++ destruct s0 as [|a' [|b' ds']]; try discriminate.
              simpl in H. injection H as _ _ H.
              apply andb_prop in H0 as [H0 Hd'].
              apply andb_prop in H0 as [_ Hl'].
              apply Nat.eqb_eq in Hl'.
              assert (X : Re.digits 8 rest = Some newline).
              { apply digits_spec. exists ds'. auto. }
              congruence.
      * split; [discriminate|]. intros [H|(s0 & H & H0)]; [discriminate|].
        destruct s0 as [|a' [|b' ds']]; try discriminate.
        simpl in H. injection H as _ Hb _. subst b'.
        rewrite (proj2 (Ascii.eqb_neq _ _) Nb) in H0.
        rewrite andb_false_r in H0. discriminate.
    + split; [discriminate|]. intros [H|(s0 & H & H0)]; [discriminate|].
      destruct s0 as [|a' [|b' ds']]; try discriminate.
      simpl in H. injection H as Ha _ _. subst a'.
      rewrite (proj2 (Ascii.eqb_neq _ _) Na) in H0. discriminate.
Qed.

Lemma bool_eq_iff (a b : bool) : (a = true <-> b = true) -> a = b.
Proof.
  destruct a, b; intros [H1 H2]; try reflexivity.
  - symmetry. now apply H1.
  - now apply H2.
Qed.

(** On a stripped text, the only texts a handler ever validates, the
    pattern accepts the identifiers and nothing else. *)
Lemma id_pattern_stripped (x : ascii) (t : string) :
  Re.id_pattern x (PyStr.strip t) = letters_and_8_digits x (PyStr.strip t).
Proof.
  apply bool_eq_iff. rewrite id_pattern_spec. split; [|auto].
  intros [H|(s0 & H & _)]; [exact H|].
  apply strip_last_not_space in H. discriminate.
Qed.

(** ** Claim C4: the student identifier *)

(** C4.  [validate_student_id] accepts "KJ20240001" and rejects "KJ2024001",
    "kj20240001" and identifiers with a leading blank or a ninth digit, but it
    also accepts "KJ20240001" followed by a newline, which is not the two
    letters followed by exactly eight digits. *)
Theorem validate_student_id_trailing_newline :
  validate_student_id ("KJ20240001" ++ newline) = true
  /\ letters_and_8_digits "K" ("KJ20240001" ++ newline) = false
  /\ validate_student_id "KJ20240001" = true
  /\ validate_student_id "KJ2024001" = false
  /\ validate_student_id "kj20240001" = false
  /\ validate_student_id " KJ20240001" = false
  /\ validate_student_id "KJ202400011" = false.
Proof. repeat split; reflexivity. Qed.

(** Every text accepted is an identifier, or an identifier and a newline. *)
Lemma validate_student_id_spec (s : string) :
  validate_student_id s = true <->
  letters_and_8_digits "K" s = true
  \/ exists s0, s = (s0 ++ newline)%string /\ letters_and_8_digits "K" s0 = true.
Proof. apply id_pattern_spec. Qed.

Lemma validate_student_id_stripped (t : string) :
  validate_student_id (PyStr.strip t) = letters_and_8_digits "K" (PyStr.strip t).
Proof. apply id_pattern_stripped. Qed.

(** ** Claim C3: the class enumeration *)

Lemma validate_class_in (c : string) :
  validate_class c = true <-> In c valid_classes.
Proof.
  unfold validate_class. rewrite existsb_exists. split.
  - intros (x & Hin & E). apply String.eqb_eq in E. now subst.
  - intros H. exists c. split; [exact H|apply String.eqb_refl].
Qed.

(** C3, as stated, fails: "12C" belongs to the enumeration the claim
    describes (years 7 to 13 with sections A, B, C, year 13 with A only),
    which has 19 members, and [validate_class] rejects it. *)
Lemma validate_class_rejects_12C :
  In "12C" spec_class_enumeration
  /\ validate_class "12C" = false
  /\ List.length spec_class_enumeration = 19%nat.
Proof.
  repeat split; try reflexivity.
  unfold spec_class_enumeration. simpl. tauto.
Qed.

(** C3, amended.  [validate_class c] holds exactly for the members of the
    enumeration of 18 distinct labels: years 7 to 11 with sections A, B and C,
    year 12 with sections A and B, year 13 with section A. *)
Theorem validate_class_enumeration :
  forall c : string,
    (validate_class c = true <-> In c classes_by_year)
    /\ List.length classes_by_year = 18%nat
    /\ NoDup classes_by_year.
Proof.
  intros c. split; [|split].
  - rewrite validate_class_in. reflexivity.
  - reflexivity.
  - unfold classes_by_year. simpl.
    repeat (constructor; [simpl; intros H; repeat (destruct H as [H|H]; [discriminate H|]); exact H|]).
    constructor.
Qed.

(** ** Claim C8: the age check *)

Ltac each_ascii c := destruct c as [[] [] [] [] [] [] [] []].

Lemma digit_not_sign_or_space (c : ascii) :
  PyStr.isdigit c = true ->
  PyStr.int_isspace c = false /\ (c =? "+")%char = false
  /\ (c =? "-")%char = false /\ (c =? "_")%char = false.
Proof. each_ascii c; intros H; try discriminate H; repeat split. Qed.

(** *** [int] against the numerals *)

Lemma int_skip_split (a : string) :
  exists ws, a = (ws ++ PyStr.int_skip a)%string
             /\ PyStr.all_chars PyStr.int_isspace ws = true.
Proof.
  induction a as [|c a (ws & E & W)]; simpl.
  - exists EmptyString. auto.
  - destruct (PyStr.int_isspace c) eqn:Ec.
    + exists (String c ws). simpl. rewrite Ec, W, <- E. auto.
    + exists EmptyString. auto.
Qed.

Lemma int_sign_split (s r : string) (k : Z) :
  PyStr.int_sign s = (k, r) ->
  exists sg, s = (sg ++ r)%string /\ sign_of sg k.
Proof.
  unfold PyStr.int_sign. destruct s as [|c s].
  - intros H. injection H as <- <-. exists EmptyString. split; constructor.
  - destruct (Ascii.eqb_spec c "+") as [->|_].
    + intros H. injection H as <- <-. exists "+". split; constructor.
    + destruct (Ascii.eqb_spec c "-") as [->|_]; intros H; injection H as <- <-.
      * exists "-". split; constructor.
      * exists EmptyString. split; constructor.
Qed.

Lemma int_scan_sound (m : nat) :
  forall (r : string) (acc n v n' : Z) (rest : string),
    (String.length r <= m)%nat ->
    PyStr.int_scan acc n r = Some (v, n', rest) ->
    exists tl dt,
      r = (tl ++ rest)%string /\ digits_tail tl dt
      /\ v = decimal_value_from acc dt
      /\ n' = n + Z.of_nat (String.length dt).
Proof.
  induction m as [|m IH]; intros r acc n v n' rest L H.
  - destruct r; [|simpl in L; lia]. simpl in H. injection H as <- <- <-.
    exists EmptyString, EmptyString. repeat split; [constructor|simpl; lia].
  - destruct r as [|c r].
    + simpl in H. injection H as <- <- <-.
      exists EmptyString, EmptyString. repeat split; [constructor|simpl; lia].
    + simpl in H, L. destruct (PyStr.isdigit c) eqn:Ec.
      * apply IH in H as (tl & dt & -> & T & -> & ->); [|lia].
        exists (String c tl), (String c dt).
        repeat split; [now constructor|simpl String.length; lia].
      * destruct (c =? "_")%char eqn:Eu.
        -- apply Ascii.eqb_eq in Eu as ->.
           destruct r as [|d r]; [discriminate H|].
           destruct (PyStr.isdigit d) eqn:Ed; [|discriminate H].
           simpl in L. apply IH in H as (tl & dt & -> & T & -> & ->); [|lia].
           exists (String "_" (String d tl)), (String d dt).
           repeat split; [now constructor|simpl String.length; lia].
        -- injection H as <- <- <-.
           exists EmptyString, EmptyString.
           repeat split; [constructor|simpl; lia].
Qed.

Lemma space_not_digit (c : ascii) :
  PyStr.int_isspace c = true ->
  PyStr.isdigit c = false /\ (c =? "_")%char = false.
Proof. each_ascii c; intros H; try discriminate H; split; reflexivity. Qed.

Lemma underscore_not_digit : PyStr.isdigit "_" = false.
Proof. reflexivity. Qed.

Lemma int_scan_complete (tl dt ws : string) :
  digits_tail tl dt ->
  PyStr.all_chars PyStr.int_isspace ws = true ->
  forall acc n,
    PyStr.int_scan acc n (tl ++ ws)
    = Some (decimal_value_from acc dt, n + Z.of_nat (String.length dt), ws).
Proof.
  intros T W. induction T as [|c s ds Hc T IH|c s ds Hc T IH]; intros acc n.
  - simpl. destruct ws as [|c ws].
    + simpl. now rewrite Z.add_0_r.
    + simpl in W. apply andb_prop in W as [Wc _].
      destruct (space_not_digit c Wc) as [D U].
      simpl. now rewrite D, U, Z.add_0_r.
  - cbn [append PyStr.int_scan decimal_value_from String.length].
    rewrite Hc, IH, Nat2Z.inj_succ. do 3 f_equal. lia.
  - cbn [append PyStr.int_scan decimal_value_from String.length].
    rewrite underscore_not_digit. cbn [Ascii.eqb Bool.eqb].
    rewrite Hc, IH, Nat2Z.inj_succ. do 3 f_equal. lia.
Qed.

Lemma int_skip_spaces (ws x : string) :
  PyStr.all_chars PyStr.int_isspace ws = true ->
  PyStr.int_skip (ws ++ x) = PyStr.int_skip x.
Proof.
  induction ws as [|c ws IH]; simpl; [reflexivity|].
  intros H. apply andb_prop in H as [Hc Hw]. rewrite Hc. now apply IH.
Qed.

Lemma int_sign_complete (sg : string) (k : Z) (c : ascii) (x : string) :
  sign_of sg k -> PyStr.isdigit c = true ->
  PyStr.int_skip (sg ++ String c x) = (sg ++ String c x)%string
  /\ PyStr.int_sign (sg ++ String c x) = (k, String c x).
Proof.
  intros S Hc. destruct (digit_not_sign_or_space c Hc) as (H1 & H2 & H3 & _).
  destruct S; simpl; rewrite ?H1, ?H2, ?H3; split; reflexivity.
Qed.

(** [int] reads exactly the numerals of at most 4300 digits, each as the
    integer it denotes. *)
Lemma int_reads_numerals (a : string) (n : Z) :
  PyStr.int a = Some n
  <-> exists ds, denotes_integer a n ds /\ (String.length ds <= 4300)%nat.
Proof.
  split.
  - unfold PyStr.int. intros H.
    destruct (int_skip_split a) as (ws1 & Ea & W1).
    destruct (PyStr.int_sign (PyStr.int_skip a)) as [k body] eqn:Es.
    destruct (int_sign_split _ _ _ Es) as (sg & Eb & S).
    destruct body as [|c r]; [discriminate H|].
    destruct (PyStr.isdigit c) eqn:Ec; [|discriminate H].
    destruct (PyStr.int_scan (PyStr.digit_value c) 1 r) as [[[v cnt] rest]|] eqn:Er;
      [|discriminate H].
    destruct (Z.ltb_spec PyStr.int_max_str_digits cnt) as [|Lim];
      [discriminate H|].
    destruct (PyStr.all_chars PyStr.int_isspace rest) eqn:W2; [|discriminate H].
    injection H as <-.
    destruct (int_scan_sound _ r _ _ _ _ _ (Nat.le_refl _) Er)
      as (tl & dt & -> & T & -> & ->).
    exists (String c dt). split.
    + exists ws1, sg, k, c, tl, dt, rest.
      repeat split; auto. now rewrite Ea at 1; rewrite Eb.
    + unfold PyStr.int_max_str_digits in Lim. simpl String.length. lia.
  - intros (ds & (ws1 & sg & k & c & tl & dt & ws2
                  & -> & -> & W1 & W2 & S & Hc & T & ->) & L).
    unfold PyStr.int. rewrite (int_skip_spaces ws1 _ W1).
    change ((sg ++ String c tl ++ ws2)%string)
      with ((sg ++ String c (tl ++ ws2))%string).
    destruct (int_sign_complete sg k c (tl ++ ws2) S Hc) as [E1 E2].
    rewrite E1, E2, Hc, (int_scan_complete tl dt ws2 T W2), W2.
    simpl String.length in L.
    destruct (Z.ltb_spec PyStr.int_max_str_digits
                (1 + Z.of_nat (String.length dt))) as [Lim|_].
    + unfold PyStr.int_max_str_digits in Lim. lia.
    + reflexivity.
Qed.

Lemma digits_tail_plain (s : string) :
  PyStr.all_chars PyStr.isdigit s = true -> digits_tail s s.
Proof.
  induction s as [|c s IH]; simpl; [constructor|].
  intros H. apply andb_prop in H as [Hc Hs]. constructor; auto.
Qed.

(** A run of digits denotes its decimal value. *)
Lemma plain_numeral_denotes (s : string) :
  s <> EmptyString -> PyStr.all_chars PyStr.isdigit s = true ->
  denotes_integer s (decimal_value s) s.
Proof.
  destruct s as [|c s]; [congruence|]. intros _ H. simpl in H.
  apply andb_prop in H as [Hc Hs].
  exists EmptyString, EmptyString, 1, c, s, s, EmptyString.
  repeat split; auto.
  - simpl. now rewrite append_empty.
  - constructor.
  - now apply digits_tail_plain.
  - now destruct (decimal_value (String c s)).
Qed.

(** [int] reads a run of at most 4300 digits as the decimal numeral it
    is. *)
Lemma int_of_digits (s : string) :
  s <> EmptyString ->
  PyStr.all_chars PyStr.isdigit s = true ->
  (String.length s <= 4300)%nat ->
  PyStr.int s = Some (decimal_value s).
Proof.
  intros NE D L. apply int_reads_numerals. exists s.
  split; [now apply plain_numeral_denotes|exact L].
Qed.

Lemma check_age_some (a : string) (n : Z) :
  check_age a = Some n <-> PyStr.int a = Some n /\ 11 <= n <= 18.
Proof.
  unfold check_age. destruct (PyStr.int a) as [m|].
  - destruct (Z.leb_spec 11 m) as [L1|L1], (Z.leb_spec m 18) as [L2|L2];
      simpl; split; intros Hx;
      try discriminate Hx;
      try (injection Hx as <-; split; [reflexivity|lia]);
      destruct Hx as [Hx ?]; injection Hx as <-; first [reflexivity|lia].
  - split; [discriminate|]. intros [Hx _]; discriminate.
Qed.

Lemma check_age_none (a : string) :
  check_age a = None <->
  PyStr.int a = None \/ exists n, PyStr.int a = Some n /\ (n < 11 \/ 18 < n).
Proof.
  unfold check_age. destruct (PyStr.int a) as [m|].
  - destruct (Z.leb_spec 11 m) as [L1|L1], (Z.leb_spec m 18) as [L2|L2];
      simpl; split; intros Hx;
      try discriminate Hx;
      try (right; exists m; split; [reflexivity|lia]);
      try reflexivity.
    destruct Hx as [Hx|(n & Hx & Hn)]; [discriminate|]. injection Hx as <-. lia.
  - split; auto.
Qed.

(** The check accepts exactly the numerals of at most 4300 digits that
    denote an integer from 11 to 18. *)
Lemma check_age_numeral (a : string) (n : Z) :
  check_age a = Some n
  <-> 11 <= n <= 18
      /\ exists ds, denotes_integer a n ds /\ (String.length ds <= 4300)%nat.
Proof. rewrite check_age_some, int_reads_numerals. tauto. Qed.

Lemma check_age_rejects (a : string) :
  check_age a = None
  <-> ~ exists n ds, 11 <= n <= 18 /\ denotes_integer a n ds
                     /\ (String.length ds <= 4300)%nat.
Proof.
  split.
  - intros H (n & ds & B & D & L).
    assert (X : check_age a = Some n) by (apply check_age_numeral; eauto).
    congruence.
  - intros H. destruct (check_age a) as [n|] eqn:E; [|reflexivity].
    elim H. apply check_age_numeral in E as (B & ds & D & L). eauto.
Qed.

(** On a plain decimal numeral of at most 4300 digits the check is the
    range test on its value. *)
Lemma check_age_decimal (s : string) :
  s <> EmptyString ->
  PyStr.all_chars PyStr.isdigit s = true ->
  (String.length s <= 4300)%nat ->
  check_age s
  = if (11 <=? decimal_value s) && (decimal_value s <=? 18)
    then Some (decimal_value s) else None.
Proof.
  intros NE D L. unfold check_age. now rewrite (int_of_digits s NE D L).
Qed.

(** A failed age check is reported as a validation error by both student
    handlers, and the state stays as it was. *)
Lemma login_rejects_bad_age
    (t1 t2 : string) (e : StudentForm) (self : SchoolAuthSystem) :
  check_age (PyStr.strip (f_age e)) = None ->
  is_validation_error (fst (verify_student_login t1 t2 e self)) = true
  /\ snd (verify_student_login t1 t2 e self) = self.
Proof.
  intros H. unfold verify_student_login. rewrite H.
  repeat match goal with |- context [if ?b then _ else _] => destruct b end;
    split; reflexivity.
Qed.

Lemma registration_rejects_bad_age
    (t1 t2 : string) (e : StudentForm) (self : SchoolAuthSystem) :
  check_age (PyStr.strip (f_age e)) = None ->
  is_validation_error (fst (register_student t1 t2 e self)) = true
  /\ snd (register_student t1 t2 e self) = self.
Proof.
  intros H. unfold register_student. rewrite H.
  repeat match goal with |- context [if ?b then _ else _] => destruct b end;
    split; reflexivity.
Qed.

(** C8, as stated, fails: the entry made of 4299 zeros and "12" is a run
    of 4301 digits that denotes the integer 12, within 11..18, and the age
    check rejects it, because [int()] refuses numerals of more than 4300
    digits. *)
Lemma check_age_rejects_long_numeral :
  denotes_integer long_twelve 12 long_twelve
  /\ 11 <= 12 <= 18
  /\ String.length long_twelve = 4301%nat
  /\ check_age long_twelve = None.
Proof.
  assert (D : PyStr.all_chars PyStr.isdigit long_twelve = true)
    by (vm_compute; reflexivity).
  assert (V : decimal_value long_twelve = 12) by (vm_compute; reflexivity).
  assert (N : long_twelve <> EmptyString) by discriminate.
  split; [rewrite <- V; now apply plain_numeral_denotes|].
  split; [lia|]. split; vm_compute; reflexivity.
Qed.

(** C8, amended.  The age check accepts an entry exactly when it denotes an
    integer n with 11 <= n <= 18 and is written with at most 4300 digits,
    and it then yields that n; an entry denotes an integer when it is white
    space, an optional sign, digits with single underscores allowed between
    them, white space.  On a run of at most 4300 decimal digits the check is
    the range test on the value of the numeral; 11 and 18 are accepted, 10
    and 19 rejected; an entry that denotes no integer, such as "abc", "12.5"
    or the empty text, and a numeral of more than 4300 digits are rejected
    like an age out of range, and both student handlers report the rejection
    as a validation error without changing the state. *)
Theorem check_age_accepts_11_to_18 :
  (forall (a : string) (n : Z),
      check_age a = Some n
      <-> 11 <= n <= 18
          /\ exists ds, denotes_integer a n ds
                        /\ (String.length ds <= 4300)%nat)
  /\ (forall a : string,
         check_age a = None
         <-> ~ exists n ds, 11 <= n <= 18 /\ denotes_integer a n ds
                            /\ (String.length ds <= 4300)%nat)
  /\ (forall s : string,
         s <> EmptyString ->
         PyStr.all_chars PyStr.isdigit s = true ->
         (String.length s <= 4300)%nat ->
         check_age s
         = if (11 <=? decimal_value s) && (decimal_value s <=? 18)
           then Some (decimal_value s) else None)
  /\ check_age "11" = Some 11 /\ check_age "18" = Some 18
  /\ check_age "10" = None /\ check_age "19" = None
  /\ check_age "abc" = None /\ check_age "12.5" = None /\ check_age "" = None
  /\ check_age long_twelve = None
  /\ (forall t1 t2 e self,
         check_age (PyStr.strip (f_age e)) = None ->
         is_validation_error (fst (verify_student_login t1 t2 e self)) = true
         /\ snd (verify_student_login t1 t2 e self) = self)
  /\ (forall t1 t2 e self,
         check_age (PyStr.strip (f_age e)) = None ->
         is_validation_error (fst (register_student t1 t2 e self)) = true
         /\ snd (register_student t1 t2 e self) = self).
Proof.
  split; [exact check_age_numeral|].
  split; [exact check_age_rejects|].
  split; [exact check_age_decimal|].
  do 7 (split; [reflexivity|]).
  split; [vm_compute; reflexivity|].
  split; [exact login_rejects_bad_age|exact registration_rejects_bad_age].
Qed.

(** ** Claim C9: the password hash *)

(** The model agrees with [hashlib] on the published test vectors and on the
    default administrator password of [load_config]. *)
Example sha256_abc (self : SchoolAuthSystem) :
  hash_password self "abc"
  = "ba7816bf8f01cfea414140de5dae2223b00361a396177a9cb410ff61f20015ad".
Proof. vm_compute. reflexivity. Qed.

Example sha256_empty (self : SchoolAuthSystem) :
  hash_password self ""
  = "e3b0c44298fc1c149afbf4c8996fb92427ae41e4649b934ca495991b7852b855".
Proof. vm_compute. reflexivity. Qed.

Example sha256_two_blocks (self : SchoolAuthSystem) :
  hash_password self "abcdbcdecdefdefgefghfghighijhijkijkljklmklmnlmnomnopnopq"
  = "248d6a61d20638b8e5c026930c3e6039a33ce45964ff2167f6ecedd419db06c1".
Proof. vm_compute. reflexivity. Qed.

Example sha256_admin123 (self : SchoolAuthSystem) :
  hash_password self "admin123"
  = "240be518fabd2724ddb6f04eeb1da5967448d7e831c08c8fa822809f74c720a9".
Proof. vm_compute. reflexivity. Qed.

Lemma hex_digit_small (k : nat) :
  (k < 16)%nat -> Sha256.is_hex (Sha256.hex_digit (Z.of_nat k)) = true.
Proof.
  intros H. do 16 (destruct k as [|k]; [reflexivity|]). lia.
Qed.

Lemma hex_digit_is_hex (x : Z) :
  Sha256.is_hex (Sha256.hex_digit (Z.land x 15)) = true.
Proof.
  assert (B : 0 <= Z.land x 15 < 16).
  { change 15 with (Z.ones 4). rewrite Z.land_ones by lia.
    apply Z.mod_pos_bound. reflexivity. }
  rewrite <- (Z2Nat.id (Z.land x 15)) by lia.
  apply hex_digit_small. lia.
Qed.

Lemma hex_word_length (w : Z) : List.length (Sha256.hex_word w) = 8%nat.
Proof. reflexivity. Qed.

Lemma hex_word_is_hex (w : Z) :
  forallb Sha256.is_hex (Sha256.hex_word w) = true.
Proof.
  unfold Sha256.hex_word. cbn [map forallb].
  rewrite !hex_digit_is_hex. reflexivity.
Qed.

Lemma all_chars_of_list (p : ascii -> bool) (l : list ascii) :
  PyStr.all_chars p (string_of_list_ascii l) = forallb p l.
Proof. induction l as [|c l IH]; simpl; congruence. Qed.

Lemma length_of_list (l : list ascii) :
  String.length (string_of_list_ascii l) = List.length l.
Proof. induction l as [|c l IH]; simpl; congruence. Qed.

Lemma hexdigest_length (r : Sha256.regs) :
  String.length (Sha256.hexdigest r) = 64%nat.
Proof.
  unfold Sha256.hexdigest. rewrite length_of_list.
  cbn [flat_map]. rewrite !length_app, !hex_word_length. reflexivity.
Qed.

Lemma hexdigest_is_hex (r : Sha256.regs) :
  PyStr.all_chars Sha256.is_hex (Sha256.hexdigest r) = true.
Proof.
  unfold Sha256.hexdigest. rewrite all_chars_of_list.
  cbn [flat_map]. rewrite !forallb_app, !hex_word_is_hex. reflexivity.
Qed.

(** C9.  The digest of a password does not depend on the state of the system
    it is computed in, so hashing the same password twice gives the same
    digest; and it is always 64 characters long, each a hexadecimal digit:
    256 bits. *)
Theorem hash_password_deterministic_64_hex :
  forall (self1 self2 : SchoolAuthSystem) (p : string),
    hash_password self1 p = hash_password self2 p
    /\ String.length (hash_password self1 p) = 64%nat
    /\ PyStr.all_chars Sha256.is_hex (hash_password self1 p) = true.
Proof.
  intros self1 self2 p. unfold hash_password.
  split; [reflexivity|].
  split; [apply hexdigest_length|apply hexdigest_is_hex].
Qed.

(** ** Claims C2 and C6: registration *)

Lemma registration_valid_inv (e : StudentForm) :
  registration_fields_valid e = true ->
  all_truthy [ PyStr.strip (f_student_id e); PyStr.strip (f_name e);
               PyStr.strip (f_age e); PyStr.strip (f_class e);
               PyStr.strip (f_password e) ] = true
  /\ validate_student_id (PyStr.strip (f_student_id e)) = true
  /\ validate_name (PyStr.strip (f_name e)) = true
  /\ exists n, check_age (PyStr.strip (f_age e)) = Some n.
Proof.
  unfold registration_fields_valid. intros H.
  apply andb_prop in H as [H Ha]. apply andb_prop in H as [H Hn].
  apply andb_prop in H as [Ht Hi].
  repeat split; auto.
  destruct (check_age (PyStr.strip (f_age e))) as [n|]; [eauto|discriminate].
Qed.

(** What [register_student] does once its checks have passed. *)
Lemma register_student_valid
    (t1 t2 : string) (e : StudentForm) (self : SchoolAuthSystem) (n : Z) :
  registration_fields_valid e = true ->
  check_age (PyStr.strip (f_age e)) = Some n ->
  register_student t1 t2 e self
  = if existsb (fun s => (student_id s =? PyStr.strip (f_student_id e))%string)
               (students (conn self))
    then (Rejected IdExists, self)
    else
      (Success,
       set_conn self
         (insert_admin_log "Register Student"
            ("Registered student " ++ PyStr.strip (f_student_id e)) t2
            (update_students
               (fun rows => (rows ++
                  [ {| student_id := PyStr.strip (f_student_id e);
                       name := PyStr.strip (f_name e); age := n;
                       class_name := PyStr.strip (f_class e);
                       password_hash :=
                         hash_password self (PyStr.strip (f_password e));
                       created_at := t1; last_login := None |} ])%list)
               (conn self)))).
Proof.
  intros H Hn. apply registration_valid_inv in H as (Ht & Hi & Hm & _).
  unfold register_student. rewrite Ht, Hi, Hm, Hn. reflexivity.
Qed.

(** When a check of [register_student] fails the outcome is a validation
    error and the state is unchanged. *)
Lemma register_student_invalid
    (t1 t2 : string) (e : StudentForm) (self : SchoolAuthSystem) :
  registration_fields_valid e = false ->
  is_validation_error (fst (register_student t1 t2 e self)) = true
  /\ snd (register_student t1 t2 e self) = self.
Proof.
  unfold registration_fields_valid, register_student. intros H.
  destruct (all_truthy _); [|split; reflexivity].
  destruct (validate_student_id _); [|split; reflexivity].
  destruct (validate_name _); [|split; reflexivity].
  destruct (check_age _); [discriminate H|split; reflexivity].
Qed.

(** C2.  With the class "99Z", which [validate_class] rejects, and
    otherwise valid fields, [register_student] on a fresh system reports
    success and inserts the student row with that class; the registration
    handler has no class check, the login handler has one and rejects the
    same form. *)
Theorem register_student_accepts_unknown_class :
  validate_class (f_class unknown_class_form) = false
  /\ fst (register_student "2024-09-02 08:00:00" "2024-09-02 08:00:00"
            unknown_class_form fresh_system) = Success
  /\ map class_name
       (students (conn (snd (register_student "2024-09-02 08:00:00"
                               "2024-09-02 08:00:00"
                               unknown_class_form fresh_system))))
     = ["99Z"]
  /\ fst (verify_student_login "2024-09-03 08:55:10" "2024-09-03 08:55:10"
            unknown_class_form
            (snd (register_student "2024-09-02 08:00:00" "2024-09-02 08:00:00"
                    unknown_class_form fresh_system)))
     = Rejected BadClass.
Proof. repeat split; vm_compute; reflexivity. Qed.

Lemma existsb_student_id (sid : string) (rows : list Student) :
  existsb (fun s => (student_id s =? sid)%string) rows = true
  <-> exists r, In r rows /\ student_id r = sid.
Proof.
  rewrite existsb_exists. split; intros (r & Hin & E); exists r; split; auto.
  - now apply String.eqb_eq.
  - now apply String.eqb_eq.
Qed.

(** C6.  When the stripped identifier of the form is that of a stored
    student, [register_student] does not succeed and leaves the whole state
    as it was: the stored record, the student rows and the admin log are
    unchanged.  When the other fields pass their checks (which come first)
    the outcome is the duplicate-identifier error. *)
Theorem register_student_duplicate_id :
  forall (t1 t2 : string) (e : StudentForm) (self : SchoolAuthSystem)
         (r : Student),
    In r (students (conn self)) ->
    student_id r = PyStr.strip (f_student_id e) ->
    snd (register_student t1 t2 e self) = self
    /\ In r (students (conn (snd (register_student t1 t2 e self))))
    /\ students (conn (snd (register_student t1 t2 e self)))
       = students (conn self)
    /\ admin_logs (conn (snd (register_student t1 t2 e self)))
       = admin_logs (conn self)
    /\ fst (register_student t1 t2 e self) <> Success
    /\ (registration_fields_valid e = true ->
        fst (register_student t1 t2 e self) = Rejected IdExists
        /\ is_duplicate_id_error (fst (register_student t1 t2 e self)) = true)
    /\ (registration_fields_valid e = false ->
        is_validation_error (fst (register_student t1 t2 e self)) = true).
Proof.
  intros t1 t2 e self r Hin Hid.
  assert (Hex : existsb
                  (fun s => (student_id s =? PyStr.strip (f_student_id e))%string)
                  (students (conn self)) = true).
  { apply existsb_student_id. eauto. }
  destruct (registration_fields_valid e) eqn:V.
  - destruct (registration_valid_inv e V) as (_ & _ & _ & n & Hn).
    rewrite (register_student_valid t1 t2 e self n V Hn), Hex. simpl.
    repeat split; auto; discriminate.
  - destruct (register_student_invalid t1 t2 e self V) as [Hv Hs].
    rewrite Hs. repeat split; auto; try discriminate.
    intros E. rewrite E in Hv. discriminate.
Qed.

Lemma register_student_duplicate_id_witness :
  In alice (students (conn sample_system))
  /\ student_id alice = PyStr.strip (f_student_id alice_form)
  /\ snd (register_student "2024-09-05 10:00:00" "2024-09-05 10:00:00"
            alice_form sample_system) = sample_system
  /\ fst (register_student "2024-09-05 10:00:00" "2024-09-05 10:00:00"
            alice_form sample_system) <> Success.
Proof.
  assert (H1 : In alice (students (conn sample_system))) by (simpl; auto).
  assert (H2 : student_id alice = PyStr.strip (f_student_id alice_form))
    by reflexivity.
  pose proof (register_student_duplicate_id
                "2024-09-05 10:00:00" "2024-09-05 10:00:00"
                alice_form sample_system alice H1 H2) as (A & _ & _ & _ & B & _).
  repeat split; assumption.
Defined.

(** ** Claim C7: deleting a student *)

Lemma filter_not_id_in (sid : string) (rows : list Student) (s : Student) :
  In s (filter (fun s => negb (student_id s =? sid)%string) rows)
  <-> In s rows /\ student_id s <> sid.
Proof.
  rewrite filter_In, negb_true_iff, String.eqb_neq. reflexivity.
Qed.

Lemma filter_not_att_in (sid : string) (rows : list AttendanceRecord)
    (a : AttendanceRecord) :
  In a (filter (fun r => negb (att_student_id r =? sid)%string) rows)
  <-> In a rows /\ att_student_id a <> sid.
Proof.
  rewrite filter_In, negb_true_iff, String.eqb_neq. reflexivity.
Qed.

(** C7.  Deleting the selected, existing student X (the dialog confirmed)
    succeeds; afterwards the student rows are the former rows whose
    identifier is not X, in their order, so X's row is gone and every other
    student is there unchanged; the attendance rows are the former rows whose
    [student_id] is not X, in their order; the admin log is the former log
    with exactly one entry appended; teachers and configuration are
    unchanged. *)
Theorem delete_student_effects :
  forall (t : string) (self : SchoolAuthSystem) (r : Student),
    In r (students (conn self)) ->
    let after := snd (delete_student (Some (student_id r)) true t self) in
    fst (delete_student (Some (student_id r)) true t self) = Success
    /\ ~ In r (students (conn after))
    /\ (forall s, In s (students (conn after))
                  <-> In s (students (conn self)) /\ student_id s <> student_id r)
    /\ students (conn after)
       = filter (fun s => negb (student_id s =? student_id r)%string)
                (students (conn self))
    /\ (forall a, In a (attendance (conn after))
                  <-> In a (attendance (conn self))
                      /\ att_student_id a <> student_id r)
    /\ attendance (conn after)
       = filter (fun a => negb (att_student_id a =? student_id r)%string)
                (attendance (conn self))
    /\ (exists entry,
           admin_logs (conn after) = (admin_logs (conn self) ++ [entry])%list
           /\ action entry = "Delete Student"
           /\ details entry = ("Deleted student " ++ student_id r)%string
           /\ timestamp entry = t)
    /\ List.length (admin_logs (conn after))
       = S (List.length (admin_logs (conn self)))
    /\ teachers (conn after) = teachers (conn self)
    /\ config after = config self.
Proof.
  intros t self r Hin after. subst after. simpl.
  split; [reflexivity|].
  split; [rewrite filter_not_id_in; tauto|].
  split; [intros s; apply filter_not_id_in|].
  split; [reflexivity|].
  split; [intros a; apply filter_not_att_in|].
  split; [reflexivity|].
  split; [eexists; split; [reflexivity|]; repeat split|].
  split; [rewrite length_app; simpl; lia|].
  split; reflexivity.
Qed.

Lemma delete_student_effects_witness :
  In alice (students (conn sample_system))
  /\ students (conn (snd (delete_student (Some (student_id alice)) true
                            "2024-09-05 10:00:00" sample_system)))
     = [bob]
  /\ map att_id
       (attendance (conn (snd (delete_student (Some (student_id alice)) true
                                 "2024-09-05 10:00:00" sample_system))))
     = [2].
Proof.
  assert (H : In alice (students (conn sample_system))) by (simpl; auto).
  pose proof (delete_student_effects "2024-09-05 10:00:00" sample_system alice H)
    as (_ & _ & _ & A & _ & B & _).
  split; [exact H|]. split.
  - rewrite A. reflexivity.
  - rewrite B. reflexivity.
Defined.

(** ** Claim C1: student authentication *)

Lemma student_row_matches_iff
    (sid nm : string) (ag : Z) (cl ph : string) (s : Student) :
  student_row_matches sid nm ag cl ph s = true
  <-> student_id s = sid /\ name s = nm /\ age s = ag
      /\ class_name s = cl /\ password_hash s = ph.
Proof.
  unfold student_row_matches.
  rewrite !andb_true_iff, !String.eqb_eq, Z.eqb_eq. tauto.
Qed.

Lemma login_valid_inv (e : StudentForm) :
  login_fields_valid e = true ->
  all_truthy [ PyStr.strip (f_student_id e); PyStr.strip (f_name e);
               PyStr.strip (f_age e); PyStr.strip (f_class e);
               PyStr.strip (f_password e) ] = true
  /\ validate_student_id (PyStr.strip (f_student_id e)) = true
  /\ validate_name (PyStr.strip (f_name e)) = true
  /\ validate_class (PyStr.strip (f_class e)) = true
  /\ exists n, check_age (PyStr.strip (f_age e)) = Some n.
Proof.
  unfold login_fields_valid. intros H.
  apply andb_prop in H as [H Ha]. apply andb_prop in H as [H Hc].
  apply andb_prop in H as [H Hn]. apply andb_prop in H as [Ht Hi].
  repeat split; auto.
  destruct (check_age (PyStr.strip (f_age e))) as [n|]; [eauto|discriminate].
Qed.

(** What [verify_student_login] does once its checks have passed. *)
Lemma verify_student_login_valid
    (t1 t2 : string) (e : StudentForm) (self : SchoolAuthSystem) (n : Z) :
  login_fields_valid e = true ->
  check_age (PyStr.strip (f_age e)) = Some n ->
  verify_student_login t1 t2 e self
  = if existsb (student_row_matches (PyStr.strip (f_student_id e))
                  (PyStr.strip (f_name e)) n (PyStr.strip (f_class e))
                  (hash_password self (PyStr.strip (f_password e))))
               (students (conn self))
    then
      (Success,
       set_conn self
         (insert_attendance (PyStr.strip (f_student_id e))
            (PyStr.strip (f_name e)) (PyStr.strip (f_class e)) t2 "Present"
            (update_students
               (map (touch_last_login t1 (PyStr.strip (f_student_id e))))
               (conn self))))
    else (Rejected BadCredentials, self).
Proof.
  intros H Hn. apply login_valid_inv in H as (Ht & Hi & Hm & Hc & _).
  unfold verify_student_login. rewrite Ht, Hi, Hm, Hc, Hn. reflexivity.
Qed.

(** The query finds a row exactly when some stored record matches the form. *)
Lemma login_query_finds
    (e : StudentForm) (self : SchoolAuthSystem) (n : Z) :
  check_age (PyStr.strip (f_age e)) = Some n ->
  existsb (student_row_matches (PyStr.strip (f_student_id e))
             (PyStr.strip (f_name e)) n (PyStr.strip (f_class e))
             (hash_password self (PyStr.strip (f_password e))))
          (students (conn self)) = true
  <-> exists r, In r (students (conn self)) /\ form_matches self e r.
Proof.
  intros Hn. apply check_age_some in Hn as [Hi _].
  rewrite existsb_exists. unfold form_matches.
  split; intros (r & Hin & H); exists r; (split; [exact Hin|]).
  - apply student_row_matches_iff in H as (A & B & C & D & E).
    rewrite Hi. subst n. auto.
  - destruct H as (A & B & C & D & E).
    apply student_row_matches_iff. rewrite Hi in C. injection C as C. auto.
Qed.

(** The primary key: two stored rows with one identifier are one row. *)
Lemma primary_key_unique (rows : list Student) (r s : Student) :
  NoDup (map student_id rows) ->
  In r rows -> In s rows -> student_id r = student_id s -> r = s.
Proof.
  induction rows as [|x rows IH]; simpl; [tauto|].
  intros N Hr Hs E. inversion N as [|? ? Hx N']; subst.
  destruct Hr as [->|Hr], Hs as [->|Hs]; auto.
  - elim Hx. rewrite E. now apply in_map.
  - elim Hx. rewrite <- E. now apply in_map.
Qed.

Lemma touch_self (t : string) (r : Student) :
  touch_last_login t (student_id r) r = logged_in t r.
Proof. unfold touch_last_login. now rewrite String.eqb_refl. Qed.

Lemma touch_other (t sid : string) (s : Student) :
  student_id s <> sid -> touch_last_login t sid s = s.
Proof.
  intros H. unfold touch_last_login.
  now rewrite (proj2 (String.eqb_neq _ _) H).
Qed.

(** After the [UPDATE] the rows are the login record of [r] and the other
    rows as they were. *)
Lemma touched_rows (t : string) (rows : list Student) (r : Student) :
  NoDup (map student_id rows) -> In r rows ->
  forall s, In s (map (touch_last_login t (student_id r)) rows)
            <-> s = logged_in t r \/ (In s rows /\ s <> r).
Proof.
  intros N Hr s. rewrite in_map_iff. split.
  - intros (x & <- & Hx).
    destruct (string_dec (student_id x) (student_id r)) as [E|NE].
    + left. rewrite (primary_key_unique rows x r N Hx Hr E). apply touch_self.
    + right. rewrite (touch_other _ _ _ NE). split; [exact Hx|congruence].
  - intros [->|[Hs NE]].
    + exists r. split; [apply touch_self|exact Hr].
    + exists s. split; [|exact Hs]. apply touch_other.
      intros E. apply NE. exact (primary_key_unique rows s r N Hs Hr E).
Qed.

(** C1.  For a stored record [r] (identifiers being a primary key) and a
    form that passes the checks of the login handler:
    - when all five entries match [r], the password through its hash, the
      login succeeds, [r] gets the time of the login as [last_login] while
      every other student row stays as it was, and exactly one attendance row
      is added, for [r] and with status "Present";
    - when the form carries the identifier of [r] and any of its entries does
      not match [r], the outcome is "Invalid credentials" and nothing changes,
      no attendance row is added;
    - the same holds when no stored record matches the form at all. *)
Theorem verify_student_login_exact_match :
  forall (t1 t2 : string) (e : StudentForm) (self : SchoolAuthSystem)
         (r : Student),
    NoDup (map student_id (students (conn self))) ->
    In r (students (conn self)) ->
    login_fields_valid e = true ->
    let result := verify_student_login t1 t2 e self in
    (form_matches self e r ->
     fst result = Success
     /\ (forall s, In s (students (conn (snd result)))
                   <-> s = logged_in t1 r
                       \/ (In s (students (conn self)) /\ s <> r))
     /\ List.length (students (conn (snd result)))
        = List.length (students (conn self))
     /\ (exists k,
            attendance (conn (snd result))
            = (attendance (conn self) ++
                 [ {| att_id := k; att_student_id := student_id r;
                      att_name := name r; att_class_name := class_name r;
                      login_time := t2; status := "Present" |} ])%list)
     /\ List.length (attendance (conn (snd result)))
        = S (List.length (attendance (conn self)))
     /\ teachers (conn (snd result)) = teachers (conn self)
     /\ admin_logs (conn (snd result)) = admin_logs (conn self)
     /\ config (snd result) = config self)
    /\ (student_id r = PyStr.strip (f_student_id e) ->
        ~ form_matches self e r ->
        result = (Rejected BadCredentials, self))
    /\ ((forall s, In s (students (conn self)) -> ~ form_matches self e s) ->
        result = (Rejected BadCredentials, self)).
Proof.
  intros t1 t2 e self r N Hr V result. subst result.
  destruct (login_valid_inv e V) as (_ & _ & _ & _ & n & Hn).
  rewrite (verify_student_login_valid t1 t2 e self n V Hn).
  pose proof (login_query_finds e self n Hn) as Q.
  assert (NoMatch :
            (forall s, In s (students (conn self)) -> ~ form_matches self e s) ->
            existsb (student_row_matches (PyStr.strip (f_student_id e))
                       (PyStr.strip (f_name e)) n (PyStr.strip (f_class e))
                       (hash_password self (PyStr.strip (f_password e))))
                    (students (conn self)) = false).
  { intros H. apply not_true_is_false. intros X.
    apply Q in X as (s & Hs & M). exact (H s Hs M). }
  split; [|split].
  - intros M.
    rewrite (proj2 Q (ex_intro _ r (conj Hr M))).
    destruct M as (Mi & Mn & _ & Mc & _). rewrite <- Mi, <- Mn, <- Mc. simpl.
    split; [reflexivity|].
    split; [exact (touched_rows t1 _ r N Hr)|].
    split; [apply length_map|].
    split; [eexists; reflexivity|].
    split; [rewrite length_app; simpl; lia|].
    repeat split.
  - intros Hid NM. rewrite NoMatch; [reflexivity|].
    intros s Hs M. apply NM.
    assert (E : student_id s = student_id r)
      by (destruct M as (Mi & _); congruence).
    now rewrite <- (primary_key_unique _ s r N Hs Hr E).
  - intros H. now rewrite (NoMatch H).
Qed.

Lemma verify_student_login_exact_match_witness :
  NoDup (map student_id (students (conn sample_system)))
  /\ In alice (students (conn sample_system))
  /\ login_fields_valid alice_form = true
  /\ fst (verify_student_login "2024-09-05 08:50:00" "2024-09-05 08:50:01"
            alice_form sample_system) = Success
  /\ List.length
       (attendance
          (conn (snd (verify_student_login "2024-09-05 08:50:00"
                        "2024-09-05 08:50:01" alice_form sample_system))))
     = 4%nat.
Proof.
  assert (N : NoDup (map student_id (students (conn sample_system)))).
  { simpl. repeat constructor; simpl; intuition discriminate. }
  assert (Hr : In alice (students (conn sample_system))) by (simpl; auto).
  assert (V : login_fields_valid alice_form = true) by (vm_compute; reflexivity).
  assert (M : form_matches sample_system alice_form alice)
    by (repeat split; vm_compute; reflexivity).
  destruct (verify_student_login_exact_match
              "2024-09-05 08:50:00" "2024-09-05 08:50:01"
              alice_form sample_system alice N Hr V) as (A & _).
  destruct (A M) as (S1 & _ & _ & _ & S2 & _).
  repeat split; assumption.
Defined.

(** ** Claim C5: attendance of a date *)

(** *** [LIKE] with a date and a final [%] is a prefix test *)

Lemma pattern_percent_only (s : string) : pattern_compare "%" s = true.
Proof.
  induction s as [|c s IH]; [reflexivity|].
  simpl in *. exact IH.
Qed.

Lemma like_percent_only (s : string) : like "%" s = true.
Proof. unfold like. apply pattern_percent_only. Qed.

Lemma like_plain_inv (c : ascii) :
  like_plain c = true ->
  (c =? "%")%char = false /\ (c =? "_")%char = false
  /\ PyStr.isalpha c = false /\ (c =? "000")%char = false.
Proof.
  unfold like_plain. intros H.
  apply andb_prop in H as [H H4]. apply andb_prop in H as [H H3].
  apply andb_prop in H as [H1 H2].
  apply negb_true_iff in H1, H2, H3, H4. auto.
Qed.

Lemma like_fold_fixed_or_letter (x : ascii) :
  like_fold x = x
  \/ (PyStr.isalpha x = true /\ PyStr.isalpha (like_fold x) = true).
Proof. each_ascii x; first [left; reflexivity|right; split; reflexivity]. Qed.

Lemma like_plain_not_letter (c y : ascii) :
  like_plain c = true -> PyStr.isalpha y = true -> (c =? y)%char = false.
Proof.
  intros P A. destruct (Ascii.eqb_spec c y) as [->|]; [|reflexivity].
  destruct (like_plain_inv y P) as (_ & _ & L & _). congruence.
Qed.

Lemma like_fold_plain (c x : ascii) :
  like_plain c = true ->
  (like_fold c =? like_fold x)%char = (c =? x)%char.
Proof.
  intros P.
  assert (Fc : like_fold c = c).
  { destruct (like_fold_fixed_or_letter c) as [E|[A _]]; [exact E|].
    destruct (like_plain_inv c P) as (_ & _ & L & _). congruence. }
  rewrite Fc.
  destruct (like_fold_fixed_or_letter x) as [E|[A B]]; [now rewrite E|].
  now rewrite (like_plain_not_letter c _ P B), (like_plain_not_letter c _ P A).
Qed.

Lemma pattern_plain_step (c : ascii) (p s : string) :
  like_plain c = true ->
  pattern_compare (String c p) s
  = match s with
    | EmptyString => false
    | String d s' => (c =? d)%char && pattern_compare p s'
    end.
Proof.
  intros P. destruct (like_plain_inv c P) as (P1 & P2 & _).
  cbn [pattern_compare]. rewrite P1, P2.
  destruct s as [|d s']; [reflexivity|].
  now rewrite (like_fold_plain c d P).
Qed.

Lemma pattern_prefix (d s : string) :
  PyStr.all_chars like_plain d = true ->
  pattern_compare (d ++ "%") s = prefix d s.
Proof.
  revert s; induction d as [|c d IH]; intros s H.
  - cbn [append]. rewrite (pattern_percent_only s). destruct s; reflexivity.
  - simpl in H. apply andb_prop in H as [Hc Hd].
    change ((String c d ++ "%")%string) with (String c (d ++ "%")).
    rewrite (pattern_plain_step c _ s Hc).
    destruct s as [|x s']; [reflexivity|]. simpl.
    destruct (ascii_dec c x) as [->|NE].
    + rewrite Ascii.eqb_refl. simpl. now apply IH.
    + now rewrite (proj2 (Ascii.eqb_neq _ _) NE).
Qed.

(** A text without U+0000 is a C string as it is. *)
Lemma c_string_plain (d x : string) :
  PyStr.all_chars like_plain d = true ->
  c_string (d ++ x) = (d ++ c_string x)%string.
Proof.
  induction d as [|c d IH]; intros H; [reflexivity|].
  simpl in H. apply andb_prop in H as [Hc Hd].
  destruct (like_plain_inv c Hc) as (_ & _ & _ & Z).
  cbn [append c_string]. now rewrite Z, (IH Hd).
Qed.

(** Cutting the text at its first U+0000 does not change whether it begins
    with a prefix that holds no U+0000. *)
Lemma prefix_c_string (d t : string) :
  PyStr.all_chars like_plain d = true ->
  prefix d (c_string t) = prefix d t.
Proof.
  revert t; induction d as [|a d IH]; intros t H.
  - destruct t as [|b t]; [reflexivity|]. cbn [c_string].
    destruct (b =? "000")%char; reflexivity.
  - simpl in H. apply andb_prop in H as [Ha Hd].
    destruct (like_plain_inv a Ha) as (_ & _ & _ & Z).
    destruct t as [|b t]; [reflexivity|]. cbn [c_string].
    destruct (Ascii.eqb_spec b "000") as [->|NE].
    + cbn [prefix]. destruct (ascii_dec a "000") as [->|_]; [|reflexivity].
      discriminate Z.
    + cbn [prefix]. destruct (ascii_dec a b); [now apply IH|reflexivity].
Qed.

Lemma like_prefix (d s : string) :
  PyStr.all_chars like_plain d = true ->
  like (d ++ "%") s = prefix d s.
Proof.
  intros H. unfold like. rewrite (c_string_plain d "%" H).
  change (c_string "%") with "%"%string.
  now rewrite pattern_prefix, prefix_c_string.
Qed.

Lemma encode_length (s : string) :
  (List.length (PyStr.encode s) <= 2 * String.length s)%nat.
Proof.
  induction s as [|c s IH]; [apply Nat.le_refl|].
  cbn [PyStr.encode String.length]. cbv zeta.
  destruct (Z.of_N (PyStr.code c) <? 128); cbn [List.length]; lia.
Qed.

Lemma date_char_plain (c : ascii) :
  PyStr.isdigit c || is_hyphen c = true -> like_plain c = true.
Proof. each_ascii c; intros H; try discriminate H; reflexivity. Qed.

Lemma date_char_not_space (c : ascii) :
  PyStr.isdigit c || is_hyphen c = true -> PyStr.isspace c = false.
Proof. each_ascii c; intros H; try discriminate H; reflexivity. Qed.

Lemma date_text_inv (d : string) :
  is_date_text d = true ->
  String.length d = 10%nat
  /\ PyStr.all_chars (fun c => PyStr.isdigit c || is_hyphen c) d = true.
Proof.
  unfold is_date_text, date_shape.
  do 10 (destruct d as [|? d];
         [cbn [has_shape]; intros H; rewrite ?andb_false_r in H; discriminate H|]).
  destruct d;
    [|cbn [has_shape]; intros H;
      do 10 (apply andb_prop in H as [_ H]); discriminate H].
  cbn [has_shape]. intros H.
  do 10 (apply andb_prop in H as [? H]).
  split; [reflexivity|]. unfold is_hyphen in *. cbn [PyStr.all_chars].
  repeat match goal with X : _ = true |- _ => rewrite X; clear X end.
  rewrite ?orb_true_r. reflexivity.
Qed.

Lemma all_chars_impl (p q : ascii -> bool) (s : string) :
  (forall c, p c = true -> q c = true) ->
  PyStr.all_chars p s = true -> PyStr.all_chars q s = true.
Proof.
  intros I. induction s as [|c s IH]; simpl; [auto|].
  intros H. apply andb_prop in H as [Hc Hs]. rewrite (I c Hc). auto.
Qed.

(** For a date text, the [LIKE] test of the query selects the login times
    whose calendar date is that date. *)
Lemma like_date (d t : string) :
  is_date_text d = true ->
  like (d ++ "%") t = (calendar_date t =? d)%string.
Proof.
  intros D. destruct (date_text_inv d D) as [L C].
  rewrite like_prefix by (exact (all_chars_impl _ _ d date_char_plain C)).
  apply bool_eq_iff. rewrite prefix_correct, L, String.eqb_eq. reflexivity.
Qed.

(** *** The text order of [ORDER BY] *)

Lemma string_leb_trans (s1 s2 s3 : string) :
  String.leb s1 s2 = true -> String.leb s2 s3 = true -> String.leb s1 s3 = true.
Proof.
  unfold String.leb.
  revert s2 s3; induction s1 as [|a s1 IH]; intros [|b s2] [|c s3]; simpl;
    try reflexivity; try discriminate.
  unfold Ascii.compare.
  destruct (N.compare_spec (N_of_ascii a) (N_of_ascii b)) as [E1|L1|G1];
    destruct (N.compare_spec (N_of_ascii b) (N_of_ascii c)) as [E2|L2|G2];
    destruct (N.compare_spec (N_of_ascii a) (N_of_ascii c)) as [E3|L3|G3];
    try discriminate; try reflexivity; try lia.
  apply IH.
Qed.

Lemma insert_desc_perm (r : AttendanceRecord) (rs : list AttendanceRecord) :
  Permutation (insert_desc r rs) (r :: rs).
Proof.
  induction rs as [|x rs IH]; simpl; [reflexivity|].
  destruct (String.leb (login_time x) (login_time r)); [reflexivity|].
  rewrite IH. apply perm_swap.
Qed.

Lemma order_by_perm (rs : list AttendanceRecord) :
  Permutation (order_by_login_time_desc rs) rs.
Proof.
  induction rs as [|x rs IH]; simpl; [reflexivity|].
  rewrite insert_desc_perm. now constructor.
Qed.

Lemma insert_desc_sorted (r : AttendanceRecord) (rs : list AttendanceRecord) :
  StronglySorted login_time_desc rs ->
  StronglySorted login_time_desc (insert_desc r rs).
Proof.
  induction rs as [|x rs IH]; simpl; intros S.
  - repeat constructor.
  - inversion S as [|? ? S' F]; subst.
    destruct (String.leb (login_time x) (login_time r)) eqn:E.
    + constructor; [exact S|]. constructor; [exact E|].
      eapply Forall_impl; [|exact F]. intros y Hy.
      exact (string_leb_trans _ _ _ Hy E).
    + constructor; [now apply IH|].
      eapply Permutation_Forall; [symmetry; apply insert_desc_perm|].
      constructor; [|exact F]. unfold login_time_desc.
      destruct (String.leb_total (login_time x) (login_time r)); congruence.
Qed.

Lemma order_by_sorted (rs : list AttendanceRecord) :
  StronglySorted login_time_desc (order_by_login_time_desc rs).
Proof.
  induction rs as [|x rs IH]; simpl; [constructor|].
  now apply insert_desc_sorted.
Qed.

Lemma columns_sorted (rs : list AttendanceRecord) :
  StronglySorted login_time_desc rs ->
  StronglySorted later_or_equal (map attendance_columns rs).
Proof.
  induction 1 as [|x rs S IH F]; simpl; constructor; [exact IH|].
  apply Forall_map. exact F.
Qed.

Lemma query_sorted (d : string) (self : SchoolAuthSystem) :
  StronglySorted later_or_equal (query_attendance_for_date d self).
Proof.
  unfold query_attendance_for_date.
  destruct (like_too_complex (d ++ "%")); [constructor|].
  apply columns_sorted, order_by_sorted.
Qed.

(** The pattern made of a date is far below the length [LIKE] refuses. *)
Lemma date_pattern_simple (d : string) :
  is_date_text d = true -> like_too_complex (d ++ "%") = false.
Proof.
  intros D. destruct (date_text_inv d D) as [L _].
  unfold like_too_complex. apply Z.ltb_ge.
  pose proof (encode_length (d ++ "%")) as B.
  rewrite length_append, L in B. simpl String.length in B. lia.
Qed.

Lemma query_permutation (d : string) (self : SchoolAuthSystem) :
  is_date_text d = true ->
  Permutation
    (query_attendance_for_date d self)
    (map attendance_columns
       (filter (fun r => (calendar_date (login_time r) =? d)%string)
               (attendance (conn self)))).
Proof.
  intros D. unfold query_attendance_for_date.
  rewrite (date_pattern_simple d D).
  apply Permutation_map. rewrite order_by_perm.
  rewrite (filter_ext _ (fun r => (calendar_date (login_time r) =? d)%string));
    [reflexivity|].
  intros r. now apply like_date.
Qed.

Lemma date_text_stripped (d : string) :
  is_date_text d = true -> PyStr.strip d = d /\ PyStr.truthy d = true.
Proof.
  intros D. destruct (date_text_inv d D) as [L C].
  assert (NS : PyStr.all_chars (fun c => negb (PyStr.isspace c)) d = true).
  { revert C. apply all_chars_impl.
    intros c H. now rewrite (date_char_not_space c H). }
  split; [|destruct d; [discriminate L|reflexivity]].
  clear L C D. unfold PyStr.strip.
  assert (R : PyStr.rstrip d = d).
  { induction d as [|c d IH]; [reflexivity|].
    simpl in NS. apply andb_prop in NS as [Hc Hd]. apply negb_true_iff in Hc.
    simpl. rewrite (IH Hd). destruct d; [now rewrite Hc|reflexivity]. }
  destruct d as [|c d]; [reflexivity|].
  simpl in NS. apply andb_prop in NS as [Hc _]. apply negb_true_iff in Hc.
  rewrite (lstrip_fixed c d Hc). exact R.
Qed.

(** C5.  For a calendar date [d] (written YYYY-MM-DD) the query returns
    exactly the attendance rows whose [login_time] falls on [d], each once,
    most recent first; it returns nothing when no [login_time] falls on [d];
    [load_history] with [d] typed in and [view_attendance] on the day [d] run
    this query. *)
Theorem query_attendance_for_date_spec :
  forall (d today : string) (self : SchoolAuthSystem),
    is_date_text d = true ->
    Permutation
      (query_attendance_for_date d self)
      (map attendance_columns
         (filter (fun r => (calendar_date (login_time r) =? d)%string)
                 (attendance (conn self))))
    /\ (forall row,
           In row (query_attendance_for_date d self)
           <-> exists r, In r (attendance (conn self))
                         /\ calendar_date (login_time r) = d
                         /\ row = attendance_columns r)
    /\ StronglySorted later_or_equal (query_attendance_for_date d self)
    /\ ((forall r, In r (attendance (conn self)) ->
                   calendar_date (login_time r) <> d) ->
        query_attendance_for_date d self = [])
    /\ load_history d today self = query_attendance_for_date d self
    /\ view_attendance d self = query_attendance_for_date d self.
Proof.
  intros d today self D.
  pose proof (query_permutation d self D) as P.
  assert (M : forall row,
             In row (query_attendance_for_date d self)
             <-> exists r, In r (attendance (conn self))
                           /\ calendar_date (login_time r) = d
                           /\ row = attendance_columns r).
  { intros row. split.
    - intros H. apply (Permutation_in _ P) in H.
      apply in_map_iff in H as (r & <- & H).
      apply filter_In in H as [H E]. apply String.eqb_eq in E. eauto.
    - intros (r & H & E & ->). apply (Permutation_in _ (Permutation_sym P)).
      apply in_map. apply filter_In. split; [exact H|].
      now apply String.eqb_eq. }
  split; [exact P|]. split; [exact M|].
  split; [apply query_sorted|].
  split.
  - intros H.
    destruct (query_attendance_for_date d self) as [|row rows] eqn:Q;
      [reflexivity|].
    destruct (proj1 (M row) (or_introl eq_refl)) as (r & Hr & E & _).
    elim (H r Hr E).
  - split; [|reflexivity].
    unfold load_history. destruct (date_text_stripped d D) as [-> ->].
    reflexivity.
Qed.

Lemma query_attendance_for_date_spec_witness :
  is_date_text "2024-09-03" = true
  /\ Permutation
       (query_attendance_for_date "2024-09-03" sample_system)
       (map attendance_columns
          (filter (fun r => (calendar_date (login_time r) =? "2024-09-03")%string)
                  (attendance (conn sample_system))))
  /\ map row_login_time (query_attendance_for_date "2024-09-03" sample_system)
     = ["2024-09-03 08:57:42"; "2024-09-03 08:55:10"].
Proof.
  assert (D : is_date_text "2024-09-03" = true) by reflexivity.
  destruct (query_attendance_for_date_spec "2024-09-03" "2024-09-05"
              sample_system D) as (P & _).
  split; [exact D|]. split; [exact P|reflexivity].
Defined.

(** ** The primary key of [students] is kept by every handler *)

Lemma touch_keeps_ids (t sid : string) (rows : list Student) :
  map student_id (map (touch_last_login t sid) rows) = map student_id rows.
Proof.
  rewrite map_map. apply map_ext. intros s. unfold touch_last_login.
  destruct (student_id s =? sid)%string; reflexivity.
Qed.

Lemma filter_keeps_key (p : Student -> bool) (rows : list Student) :
  NoDup (map student_id rows) -> NoDup (map student_id (filter p rows)).
Proof.
  induction rows as [|x rows IH]; simpl; [auto|].
  intros N. inversion N as [|? ? Hx N']; subst.
  destruct (p x); simpl; [|auto].
  constructor; [|auto].
  intros H. apply Hx. apply in_map_iff in H as (y & E & Hy).
  apply filter_In in Hy as [Hy _]. apply in_map_iff. eauto.
Qed.

Lemma primary_key_preserved
    (t1 t2 : string) (e : StudentForm) (sel : option string) (ok : bool)
    (self : SchoolAuthSystem) :
  NoDup (map student_id (students (conn self))) ->
  NoDup (map student_id (students (conn (snd (register_student t1 t2 e self)))))
  /\ NoDup (map student_id
              (students (conn (snd (verify_student_login t1 t2 e self)))))
  /\ NoDup (map student_id
              (students (conn (snd (delete_student sel ok t1 self))))).
Proof.
  intros N. split; [|split].
  - unfold register_student.
    repeat match goal with
           | |- context [if negb ?b then _ else _] => destruct b; simpl; auto
           end.
    destruct (check_age _); simpl; auto.
    destruct (existsb _ _) eqn:E; simpl; auto.
    rewrite map_app. simpl.
    apply (Permutation_NoDup (Permutation_cons_append _ _)).
    constructor; [|exact N].
    intros H. apply in_map_iff in H as (r & Hid & Hr).
    assert (X : existsb
                  (fun s => (student_id s =? PyStr.strip (f_student_id e))%string)
                  (students (conn self)) = true)
      by (apply existsb_student_id; eauto).
    congruence.
  - unfold verify_student_login.
    repeat match goal with
           | |- context [if negb ?b then _ else _] => destruct b; simpl; auto
           end.
    destruct (check_age _); simpl; auto.
    destruct (existsb _ _); simpl; auto.
    now rewrite touch_keeps_ids.
  - unfold delete_student. destruct sel; simpl; auto.
    destruct ok; simpl; auto. now apply filter_keeps_key.
Qed.

(** Forms that differ only in white space around their entries are treated
    alike. *)
Lemma same_stripped_entries
    (t1 t2 : string) (e e' : StudentForm) (self : SchoolAuthSystem) :
  strip_student_form e = strip_student_form e' ->
  verify_student_login t1 t2 e self = verify_student_login t1 t2 e' self
  /\ register_student t1 t2 e self = register_student t1 t2 e' self.
Proof.
  intros H. unfold strip_student_form in H. injection H as H1 H2 H3 H4 H5.
  unfold verify_student_login, register_student.
  rewrite H1, H2, H3, H4, H5. split; reflexivity.
Qed.

(** The lookup runs over all rows: a valid form logs in exactly when some
    stored record matches all five of its entries. *)
Lemma verify_student_login_success_iff
    (t1 t2 : string) (e : StudentForm) (self : SchoolAuthSystem) :
  login_fields_valid e = true ->
  fst (verify_student_login t1 t2 e self) = Success
  <-> exists r, In r (students (conn self)) /\ form_matches self e r.
Proof.
  intros V. destruct (login_valid_inv e V) as (_ & _ & _ & _ & n & Hn).
  rewrite (verify_student_login_valid t1 t2 e self n V Hn).
  rewrite <- (login_query_finds e self n Hn).
  destruct (existsb _ _); simpl; split; auto; discriminate.
Qed.

(* ================================================================= *)
(** * Further properties of the validators and handlers *)

(** ** The teacher identifier and the name *)

(** X1.  [validate_teacher_id] accepts the texts made of "TJ" and exactly
    eight digits, and those texts followed by one newline, and nothing else;
    on a stripped text, which is all the handlers pass to it, it accepts
    exactly "TJ" and eight digits. *)
Theorem validate_teacher_id_format :
  forall s : string,
    (validate_teacher_id s = true <->
     letters_and_8_digits "T" s = true
     \/ exists s0, s = (s0 ++ newline)%string
                   /\ letters_and_8_digits "T" s0 = true)
    /\ validate_teacher_id (PyStr.strip s)
       = letters_and_8_digits "T" (PyStr.strip s).
Proof.
  intros s. split; [apply id_pattern_spec|apply id_pattern_stripped].
Qed.

Lemma id_patterns_disjoint (x y : ascii) (s : string) :
  x <> y -> Re.id_pattern x s && Re.id_pattern y s = false.
Proof.
  intros NE. destruct s as [|a [|b rest]].
  - reflexivity.
  - unfold Re.id_pattern. simpl.
    destruct (x =? a)%char; [reflexivity|]. reflexivity.
  - rewrite !id_pattern_unfold.
    destruct (Ascii.eqb_spec x a) as [->|]; [|reflexivity].
    destruct (Ascii.eqb_spec y a) as [->|]; [now elim NE|].
    cbn [andb]. apply andb_false_r.
Qed.

(** X2.  No text is both a student identifier and a teacher identifier:
    the two validators never accept the same text. *)
Theorem student_and_teacher_ids_disjoint :
  forall s : string, validate_student_id s && validate_teacher_id s = false.
Proof.
  intros s. apply id_patterns_disjoint. discriminate.
Qed.

Lemma plus_then_end_spec (cls : ascii -> bool) (s : string) :
  cls "010"%char = true ->
  Re.plus_then_end cls s = PyStr.truthy s && PyStr.all_chars cls s.
Proof.
  intros N. induction s as [|c s IH]; [reflexivity|].
  cbn [Re.plus_then_end PyStr.truthy PyStr.all_chars andb]. rewrite IH.
  destruct s as [|d s']; [simpl; now rewrite andb_true_r|].
  cbn [PyStr.truthy andb].
  destruct (Re.at_end (String d s')) eqn:E; [|reflexivity].
  apply at_end_spec in E as [E|E]; [discriminate|].
  unfold newline in E. injection E as -> ->.
  simpl. now rewrite N.
Qed.

Lemma name_class_newline : Re.name_class "010"%char = true.
Proof. reflexivity. Qed.

Lemma validate_name_spec (s : string) :
  validate_name s
  = PyStr.truthy (PyStr.strip s)
    && PyStr.all_chars Re.name_class (PyStr.strip s).
Proof. apply plus_then_end_spec, name_class_newline. Qed.

(** X3.  [validate_name] accepts a text exactly when, white space around it
    set aside, it is not empty and holds nothing but the letters A-Z, a-z
    and white space; so it does not matter whether the text was stripped
    before. *)
Theorem validate_name_letters_and_spaces :
  forall s : string,
    validate_name s
    = PyStr.truthy (PyStr.strip s)
      && PyStr.all_chars (fun c => PyStr.isalpha c || PyStr.isspace c)
                         (PyStr.strip s)
    /\ validate_name (PyStr.strip s) = validate_name s.
Proof.
  intros s. split; [apply validate_name_spec|].
  rewrite !validate_name_spec, strip_idempotent. reflexivity.
Qed.

(** ** Teacher login and registration *)

Lemma teacher_row_matches_iff (tid nm ph : string) (t : Teacher) :
  teacher_row_matches tid nm ph t = true
  <-> teacher_id t = tid /\ teacher_name t = nm /\ teacher_password_hash t = ph.
Proof.
  unfold teacher_row_matches.
  rewrite !andb_true_iff, !String.eqb_eq. tauto.
Qed.

Lemma teacher_valid_inv (e : TeacherForm) :
  teacher_fields_valid e = true ->
  all_truthy [ PyStr.strip (f_teacher_id e); PyStr.strip (f_teacher_name e);
               PyStr.strip (f_teacher_password e) ] = true
  /\ validate_teacher_id (PyStr.strip (f_teacher_id e)) = true
  /\ validate_name (PyStr.strip (f_teacher_name e)) = true.
Proof.
  unfold teacher_fields_valid. intros H.
  apply andb_prop in H as [H Hn]. apply andb_prop in H as [Ht Hi]. auto.
Qed.

Lemma verify_teacher_login_valid (e : TeacherForm) (self : SchoolAuthSystem) :
  teacher_fields_valid e = true ->
  verify_teacher_login e self
  = if existsb (teacher_row_matches (PyStr.strip (f_teacher_id e))
                  (PyStr.strip (f_teacher_name e))
                  (hash_password self (PyStr.strip (f_teacher_password e))))
               (teachers (conn self))
    then (Success, self) else (Rejected BadCredentials, self).
Proof.
  intros H. apply teacher_valid_inv in H as (Ht & Hi & Hn).
  unfold verify_teacher_login. now rewrite Ht, Hi, Hn.
Qed.

Lemma verify_teacher_login_invalid (e : TeacherForm) (self : SchoolAuthSystem) :
  teacher_fields_valid e = false ->
  is_validation_error (fst (verify_teacher_login e self)) = true
  /\ snd (verify_teacher_login e self) = self.
Proof.
  unfold teacher_fields_valid, verify_teacher_login. intros H.
  destruct (all_truthy _); [|split; reflexivity].
  destruct (validate_teacher_id _); [|split; reflexivity].
  destruct (validate_name _); [discriminate H|split; reflexivity].
Qed.

Lemma teacher_query_finds (e : TeacherForm) (self : SchoolAuthSystem) :
  existsb (teacher_row_matches (PyStr.strip (f_teacher_id e))
             (PyStr.strip (f_teacher_name e))
             (hash_password self (PyStr.strip (f_teacher_password e))))
          (teachers (conn self)) = true
  <-> exists t, In t (teachers (conn self)) /\ teacher_form_matches self e t.
Proof.
  rewrite existsb_exists. unfold teacher_form_matches.
  split; intros (t & Hin & H); exists t; (split; [exact Hin|]);
    now apply teacher_row_matches_iff.
Qed.

(** X4.  [verify_teacher_login] never changes the state.  It succeeds
    exactly when the three entries pass their checks and some stored teacher
    has the entered identifier, name and password hash; when the checks pass
    and no stored teacher matches, the outcome is "Invalid credentials";
    when a check fails it is a validation error. *)
Theorem verify_teacher_login_outcome :
  forall (e : TeacherForm) (self : SchoolAuthSystem),
    snd (verify_teacher_login e self) = self
    /\ (fst (verify_teacher_login e self) = Success
        <-> teacher_fields_valid e = true
            /\ exists t, In t (teachers (conn self))
                         /\ teacher_form_matches self e t)
    /\ (fst (verify_teacher_login e self) = Rejected BadCredentials
        <-> teacher_fields_valid e = true
            /\ ~ exists t, In t (teachers (conn self))
                           /\ teacher_form_matches self e t)
    /\ (is_validation_error (fst (verify_teacher_login e self)) = true
        <-> teacher_fields_valid e = false).
Proof.
  intros e self. destruct (teacher_fields_valid e) eqn:V.
  - rewrite (verify_teacher_login_valid e self V).
    pose proof (teacher_query_finds e self) as Q.
    destruct (existsb _ _); simpl.
    + pose proof (proj1 Q eq_refl) as M.
      repeat split; auto; try discriminate; intros [_ H]; now elim H.
    + assert (N : ~ exists t, In t (teachers (conn self))
                              /\ teacher_form_matches self e t)
        by (intros M; apply Q in M; discriminate).
      repeat split; auto; try discriminate. intros [_ M]. now elim N.
  - destruct (verify_teacher_login_invalid e self V) as [E S].
    split; [exact S|].
    destruct (fst (verify_teacher_login e self)) as [|r|]; try discriminate E.
    split; [split; [discriminate|intros [X _]; discriminate X]|].
    split; [split; [|intros [X _]; discriminate X]|split; auto].
    intros X. injection X as ->. discriminate E.
Qed.

Lemma existsb_teacher_id (tid : string) (rows : list Teacher) :
  existsb (fun t => (teacher_id t =? tid)%string) rows = true
  <-> exists t, In t rows /\ teacher_id t = tid.
Proof.
  rewrite existsb_exists. split; intros (t & Hin & E); exists t; split; auto;
    now apply String.eqb_eq.
Qed.

Lemma register_teacher_valid
    (t1 t2 : string) (e : TeacherForm) (self : SchoolAuthSystem) :
  teacher_fields_valid e = true ->
  register_teacher t1 t2 e self
  = if existsb (fun t => (teacher_id t =? PyStr.strip (f_teacher_id e))%string)
               (teachers (conn self))
    then (Rejected IdExists, self)
    else
      (Success,
       set_conn self
         (add_teacher t2
            {| teacher_id := PyStr.strip (f_teacher_id e);
               teacher_name := PyStr.strip (f_teacher_name e);
               teacher_password_hash :=
                 hash_password self (PyStr.strip (f_teacher_password e));
               teacher_created_at := t1 |}
            (conn self))).
Proof.
  intros H. apply teacher_valid_inv in H as (Ht & Hi & Hn).
  unfold register_teacher. now rewrite Ht, Hi, Hn.
Qed.

Lemma register_teacher_invalid
    (t1 t2 : string) (e : TeacherForm) (self : SchoolAuthSystem) :
  teacher_fields_valid e = false ->
  is_validation_error (fst (register_teacher t1 t2 e self)) = true
  /\ snd (register_teacher t1 t2 e self) = self.
Proof.
  unfold teacher_fields_valid, register_teacher. intros H.
  destruct (all_truthy _); [|split; reflexivity].
  destruct (validate_teacher_id _); [|split; reflexivity].
  destruct (validate_name _); [discriminate H|split; reflexivity].
Qed.

(** X5.  Registering a teacher under the identifier of a stored teacher
    never succeeds and leaves the whole state as it was; the outcome is
    "Teacher ID already exists" when the entries pass their checks and a
    validation error when they do not. *)
Theorem register_teacher_duplicate_id :
  forall (t1 t2 : string) (e : TeacherForm) (self : SchoolAuthSystem)
         (t : Teacher),
    In t (teachers (conn self)) ->
    teacher_id t = PyStr.strip (f_teacher_id e) ->
    snd (register_teacher t1 t2 e self) = self
    /\ fst (register_teacher t1 t2 e self) <> Success
    /\ (teacher_fields_valid e = true ->
        fst (register_teacher t1 t2 e self) = Rejected IdExists)
    /\ (teacher_fields_valid e = false ->
        is_validation_error (fst (register_teacher t1 t2 e self)) = true).
Proof.
  intros t1 t2 e self t Hin Hid.
  assert (Hex : existsb
                  (fun x => (teacher_id x =? PyStr.strip (f_teacher_id e))%string)
                  (teachers (conn self)) = true)
    by (apply existsb_teacher_id; eauto).
  destruct (teacher_fields_valid e) eqn:V.
  - rewrite (register_teacher_valid t1 t2 e self V), Hex. simpl.
    repeat split; auto; discriminate.
  - destruct (register_teacher_invalid t1 t2 e self V) as [Hv Hs].
    rewrite Hs. repeat split; auto; try discriminate.
    intros E. rewrite E in Hv. discriminate.
Qed.

Lemma register_teacher_duplicate_id_witness :
  In mrs_hall (teachers (conn demo_system))
  /\ teacher_id mrs_hall = PyStr.strip (f_teacher_id mrs_hall_form)
  /\ snd (register_teacher "2024-09-06 09:00:00" "2024-09-06 09:00:00"
            mrs_hall_form demo_system) = demo_system.
Proof.
  assert (H1 : In mrs_hall (teachers (conn demo_system)))
    by (vm_compute; left; reflexivity).
  assert (H2 : teacher_id mrs_hall = PyStr.strip (f_teacher_id mrs_hall_form))
    by reflexivity.
  split; [exact H1|]. split; [exact H2|].
  exact (proj1 (register_teacher_duplicate_id
                  "2024-09-06 09:00:00" "2024-09-06 09:00:00"
                  mrs_hall_form demo_system mrs_hall H1 H2)).
Defined.

(** ** What a successful call has done *)

Lemma register_teacher_success_inv
    (t1 t2 : string) (e : TeacherForm) (self : SchoolAuthSystem) :
  fst (register_teacher t1 t2 e self) = Success ->
  teacher_fields_valid e = true
  /\ (forall t, In t (teachers (conn self)) ->
                teacher_id t <> PyStr.strip (f_teacher_id e))
  /\ register_teacher t1 t2 e self
     = (Success, set_conn self (add_teacher t2 (teacher_of_form self t1 e) (conn self))).
Proof.
  intros H. destruct (teacher_fields_valid e) eqn:V.
  - rewrite (register_teacher_valid t1 t2 e self V) in *.
    destruct (existsb _ _) eqn:E; [discriminate H|].
    repeat split; auto.
    intros t Hin Hid.
    assert (X : existsb
                  (fun x => (teacher_id x =? PyStr.strip (f_teacher_id e))%string)
                  (teachers (conn self)) = true)
      by (apply existsb_teacher_id; eauto).
    congruence.
  - destruct (register_teacher_invalid t1 t2 e self V) as [Hv _].
    rewrite H in Hv. discriminate.
Qed.

Lemma register_student_success_inv
    (t1 t2 : string) (e : StudentForm) (self : SchoolAuthSystem) :
  fst (register_student t1 t2 e self) = Success ->
  registration_fields_valid e = true
  /\ (forall r, In r (students (conn self)) ->
                student_id r <> PyStr.strip (f_student_id e))
  /\ exists n,
       check_age (PyStr.strip (f_age e)) = Some n
       /\ register_student t1 t2 e self
          = (Success,
             set_conn self (add_student t2 (student_of_form self t1 e n) (conn self))).
Proof.
  intros H. destruct (registration_fields_valid e) eqn:V.
  - destruct (registration_valid_inv e V) as (_ & _ & _ & n & Hn).
    rewrite (register_student_valid t1 t2 e self n V Hn) in *.
    destruct (existsb _ _) eqn:E; [discriminate H|].
    split; [reflexivity|]. split; [|exists n; split; [exact Hn|reflexivity]].
    intros r Hin Hid.
    assert (X : existsb
                  (fun s => (student_id s =? PyStr.strip (f_student_id e))%string)
                  (students (conn self)) = true)
      by (apply existsb_student_id; eauto).
    congruence.
  - destruct (register_student_invalid t1 t2 e self V) as [Hv _].
    rewrite H in Hv. discriminate.
Qed.

Lemma login_invalid
    (t1 t2 : string) (e : StudentForm) (self : SchoolAuthSystem) :
  login_fields_valid e = false ->
  is_validation_error (fst (verify_student_login t1 t2 e self)) = true
  /\ snd (verify_student_login t1 t2 e self) = self.
Proof.
  unfold login_fields_valid, verify_student_login. intros H.
  destruct (all_truthy _); [|split; reflexivity].
  destruct (validate_student_id _); [|split; reflexivity].
  destruct (validate_name _); [|split; reflexivity].
  destruct (validate_class _); [|split; reflexivity].
  destruct (check_age _); [discriminate H|split; reflexivity].
Qed.

Lemma form_matches_fields
    (self : SchoolAuthSystem) (e : StudentForm) (r : Student) :
  form_matches self e r ->
  student_id r = PyStr.strip (f_student_id e)
  /\ name r = PyStr.strip (f_name e)
  /\ class_name r = PyStr.strip (f_class e).
Proof. intros (A & B & _ & C & _). auto. Qed.

Lemma verify_student_login_success_inv
    (t1 t2 : string) (e : StudentForm) (self : SchoolAuthSystem) :
  fst (verify_student_login t1 t2 e self) = Success ->
  login_fields_valid e = true
  /\ exists r,
       In r (students (conn self)) /\ form_matches self e r
       /\ verify_student_login t1 t2 e self
          = (Success, set_conn self (record_login t1 t2 r (conn self))).
Proof.
  intros H. destruct (login_fields_valid e) eqn:V.
  - destruct (login_valid_inv e V) as (_ & _ & _ & _ & n & Hn).
    rewrite (verify_student_login_valid t1 t2 e self n V Hn) in *.
    destruct (existsb _ _) eqn:E; [|discriminate H].
    apply (login_query_finds e self n Hn) in E as (r & Hr & M).
    split; [reflexivity|]. exists r. split; [exact Hr|]. split; [exact M|].
    destruct (form_matches_fields self e r M) as (A & B & C).
    unfold record_login. now rewrite A, B, C.
  - destruct (login_invalid t1 t2 e self V) as [Hv _].
    rewrite H in Hv. discriminate.
Qed.

(** ** Registration followed by login *)

(** X6.  A teacher who has just been registered can log in with the same
    entries: when [register_teacher] succeeds, [verify_teacher_login] on the
    resulting state with the same form succeeds; the registration has added
    exactly one teacher row and one admin-log entry and has left students and
    attendance alone. *)
Theorem register_then_login_teacher :
  forall (t1 t2 : string) (e : TeacherForm) (self : SchoolAuthSystem),
    fst (register_teacher t1 t2 e self) = Success ->
    let after := snd (register_teacher t1 t2 e self) in
    fst (verify_teacher_login e after) = Success
    /\ teachers (conn after)
       = (teachers (conn self) ++ [teacher_of_form self t1 e])%list
    /\ List.length (admin_logs (conn after))
       = S (List.length (admin_logs (conn self)))
    /\ students (conn after) = students (conn self)
    /\ attendance (conn after) = attendance (conn self).
Proof.
  intros t1 t2 e self H after. subst after.
  destruct (register_teacher_success_inv t1 t2 e self H) as (V & _ & E).
  rewrite E. cbn [snd].
  split.
  - rewrite (verify_teacher_login_valid e _ V).
    assert (X : existsb
                  (teacher_row_matches (PyStr.strip (f_teacher_id e))
                     (PyStr.strip (f_teacher_name e))
                     (hash_password
                        (set_conn self
                           (add_teacher t2 (teacher_of_form self t1 e) (conn self)))
                        (PyStr.strip (f_teacher_password e))))
                  (teachers
                     (conn (set_conn self
                              (add_teacher t2 (teacher_of_form self t1 e)
                                 (conn self))))) = true).
    { apply existsb_exists. exists (teacher_of_form self t1 e). split.
      - simpl. apply in_or_app. right. left. reflexivity.
      - apply teacher_row_matches_iff. repeat split. }
    now rewrite X.
  - simpl. repeat split. rewrite length_app. simpl. lia.
Qed.

Lemma register_then_login_teacher_witness :
  fst (register_teacher "2024-09-02 08:10:00" "2024-09-02 08:10:00"
         mrs_hall_form fresh_system) = Success
  /\ fst (verify_teacher_login mrs_hall_form
            (snd (register_teacher "2024-09-02 08:10:00" "2024-09-02 08:10:00"
                    mrs_hall_form fresh_system))) = Success.
Proof.
  assert (H : fst (register_teacher "2024-09-02 08:10:00" "2024-09-02 08:10:00"
                     mrs_hall_form fresh_system) = Success)
    by (vm_compute; reflexivity).
  split; [exact H|].
  exact (proj1 (register_then_login_teacher
                  "2024-09-02 08:10:00" "2024-09-02 08:10:00"
                  mrs_hall_form fresh_system H)).
Defined.

Lemma new_student_matches
    (self self' : SchoolAuthSystem) (t : string) (e : StudentForm) (n : Z) :
  student_row_matches (PyStr.strip (f_student_id e)) (PyStr.strip (f_name e)) n
    (PyStr.strip (f_class e))
    (hash_password self' (PyStr.strip (f_password e)))
    (student_of_form self t e n) = true.
Proof. apply student_row_matches_iff. repeat split. Qed.

(** X7.  A student who has just been registered can log in with the same
    entries exactly when the class of the form is one of [valid_classes]:
    after a successful [register_student], [verify_student_login] with the
    same form succeeds and records one attendance row if the class is valid,
    and is rejected with "Invalid class selection", the state unchanged, if
    it is not. *)
Theorem register_then_login_student :
  forall (t1 t2 t3 t4 : string) (e : StudentForm) (self : SchoolAuthSystem),
    fst (register_student t1 t2 e self) = Success ->
    let after := snd (register_student t1 t2 e self) in
    (validate_class (PyStr.strip (f_class e)) = true ->
     fst (verify_student_login t3 t4 e after) = Success
     /\ List.length (attendance (conn (snd (verify_student_login t3 t4 e after))))
        = S (List.length (attendance (conn self))))
    /\ (validate_class (PyStr.strip (f_class e)) = false ->
        verify_student_login t3 t4 e after = (Rejected BadClass, after)).
Proof.
  intros t1 t2 t3 t4 e self H after. subst after.
  destruct (register_student_success_inv t1 t2 e self H) as (V & _ & n & Hn & E).
  destruct (registration_valid_inv e V) as (Ht & Hi & Hm & _).
  rewrite E. cbn [snd]. split; intros C.
  - assert (L : login_fields_valid e = true)
      by (unfold login_fields_valid; now rewrite Ht, Hi, Hm, C, Hn).
    rewrite (verify_student_login_valid t3 t4 e _ n L Hn).
    assert (X : existsb
                  (student_row_matches (PyStr.strip (f_student_id e))
                     (PyStr.strip (f_name e)) n (PyStr.strip (f_class e))
                     (hash_password
                        (set_conn self
                           (add_student t2 (student_of_form self t1 e n) (conn self)))
                        (PyStr.strip (f_password e))))
                  (students
                     (conn (set_conn self
                              (add_student t2 (student_of_form self t1 e n)
                                 (conn self))))) = true).
    { apply existsb_exists. exists (student_of_form self t1 e n). split.
      - simpl. apply in_or_app. right. left. reflexivity.
      - apply new_student_matches. }
    rewrite X. simpl. split; [reflexivity|]. rewrite length_app. simpl. lia.
  - unfold verify_student_login. now rewrite Ht, Hi, Hm, C.
Qed.

Lemma register_then_login_student_witness :
  fst (register_student "2024-09-02 08:00:00" "2024-09-02 08:00:00"
         unknown_class_form fresh_system) = Success
  /\ verify_student_login "2024-09-03 08:55:10" "2024-09-03 08:55:11"
       unknown_class_form
       (snd (register_student "2024-09-02 08:00:00" "2024-09-02 08:00:00"
               unknown_class_form fresh_system))
     = (Rejected BadClass,
        snd (register_student "2024-09-02 08:00:00" "2024-09-02 08:00:00"
               unknown_class_form fresh_system)).
Proof.
  assert (H : fst (register_student "2024-09-02 08:00:00" "2024-09-02 08:00:00"
                     unknown_class_form fresh_system) = Success)
    by (vm_compute; reflexivity).
  split; [exact H|].
  apply (proj2 (register_then_login_student
                  "2024-09-02 08:00:00" "2024-09-02 08:00:00"
                  "2024-09-03 08:55:10" "2024-09-03 08:55:11"
                  unknown_class_form fresh_system H)).
  reflexivity.
Defined.

(** X8.  Registering the same form twice: after a successful
    [register_student] a second call with the same entries is rejected with
    "Student ID already exists" and changes nothing. *)
Theorem register_student_twice :
  forall (t1 t2 t3 t4 : string) (e : StudentForm) (self : SchoolAuthSystem),
    fst (register_student t1 t2 e self) = Success ->
    register_student t3 t4 e (snd (register_student t1 t2 e self))
    = (Rejected IdExists, snd (register_student t1 t2 e self)).
Proof.
  intros t1 t2 t3 t4 e self H.
  destruct (register_student_success_inv t1 t2 e self H) as (V & _ & n & Hn & E).
  rewrite E. cbn [snd].
  rewrite (register_student_valid t3 t4 e _ n V Hn).
  assert (X : existsb
                (fun s => (student_id s =? PyStr.strip (f_student_id e))%string)
                (students
                   (conn (set_conn self
                            (add_student t2 (student_of_form self t1 e n)
                               (conn self))))) = true).
  { apply existsb_student_id. exists (student_of_form self t1 e n). split.
    - simpl. apply in_or_app. right. left. reflexivity.
    - reflexivity. }
  now rewrite X.
Qed.

Lemma register_student_twice_witness :
  fst (register_student "2024-09-02 08:00:00" "2024-09-02 08:00:00"
         alice_form fresh_system) = Success
  /\ fst (register_student "2024-09-02 09:00:00" "2024-09-02 09:00:00" alice_form
            (snd (register_student "2024-09-02 08:00:00" "2024-09-02 08:00:00"
                    alice_form fresh_system)))
     = Rejected IdExists.
Proof.
  assert (H : fst (register_student "2024-09-02 08:00:00" "2024-09-02 08:00:00"
                     alice_form fresh_system) = Success)
    by (vm_compute; reflexivity).
  split; [exact H|].
  rewrite (register_student_twice
             "2024-09-02 08:00:00" "2024-09-02 08:00:00"
             "2024-09-02 09:00:00" "2024-09-02 09:00:00"
             alice_form fresh_system H).
  reflexivity.
Defined.

(** ** Logging in again, registering again *)

Lemma next_key_above (used : list Z) (seq : Z) : seq < next_key used seq.
Proof. unfold next_key. lia. Qed.

Lemma logged_in_still_matches
    (self self' : SchoolAuthSystem) (t : string) (e : StudentForm) (r : Student) :
  form_matches self e r -> form_matches self' e (logged_in t r).
Proof. intros (A & B & C & D & E). repeat split; assumption. Qed.

(** X9.  Logins are not merged: when a login succeeds, a second login with
    the same entries succeeds too, and the attendance table then ends with
    two rows for that student, both "Present", carrying the times of the two
    logins and two different keys, the later one larger. *)
Theorem login_twice_two_rows :
  forall (t1 t2 t3 t4 : string) (e : StudentForm) (self : SchoolAuthSystem),
    fst (verify_student_login t1 t2 e self) = Success ->
    let once := snd (verify_student_login t1 t2 e self) in
    fst (verify_student_login t3 t4 e once) = Success
    /\ exists r k1 k2,
         In r (students (conn self)) /\ form_matches self e r
         /\ attendance (conn (snd (verify_student_login t3 t4 e once)))
            = (attendance (conn self)
                 ++ [present_row k1 r t2; present_row k2 r t4])%list
         /\ k1 < k2.
Proof.
  intros t1 t2 t3 t4 e self H once. subst once.
  destruct (verify_student_login_success_inv t1 t2 e self H)
    as (V & r & Hr & M & E).
  rewrite E. cbn [snd].
  set (s1 := set_conn self (record_login t1 t2 r (conn self))).
  assert (Hr1 : In (logged_in t1 r) (students (conn s1))).
  { simpl. apply in_map_iff. exists r. split; [apply touch_self|exact Hr]. }
  assert (M1 : form_matches s1 e (logged_in t1 r))
    by exact (logged_in_still_matches self s1 t1 e r M).
  destruct (login_valid_inv e V) as (_ & _ & _ & _ & n & Hn).
  rewrite (verify_student_login_valid t3 t4 e s1 n V Hn).
  rewrite (proj2 (login_query_finds e s1 n Hn)) by eauto.
  split; [reflexivity|].
  destruct (form_matches_fields self e r M) as (A & B & C).
  rewrite <- A, <- B, <- C.
  exists r.
  exists (next_key (map att_id (attendance (conn self)))
                   (attendance_seq (conn self))).
  eexists. split; [exact Hr|]. split; [exact M|].
  split.
  - simpl. rewrite <- app_assoc. reflexivity.
  - apply next_key_above.
Qed.

Lemma login_twice_two_rows_witness :
  fst (verify_student_login "2024-09-05 08:50:00" "2024-09-05 08:50:01"
         alice_form sample_system) = Success
  /\ fst (verify_student_login "2024-09-05 13:10:00" "2024-09-05 13:10:01"
            alice_form
            (snd (verify_student_login "2024-09-05 08:50:00" "2024-09-05 08:50:01"
                    alice_form sample_system))) = Success.
Proof.
  assert (H : fst (verify_student_login "2024-09-05 08:50:00"
                     "2024-09-05 08:50:01" alice_form sample_system) = Success)
    by (vm_compute; reflexivity).
  split; [exact H|].
  exact (proj1 (login_twice_two_rows
                  "2024-09-05 08:50:00" "2024-09-05 08:50:01"
                  "2024-09-05 13:10:00" "2024-09-05 13:10:01"
                  alice_form sample_system H)).
Defined.

(** X10.  An identifier is free again once its student is deleted: after
    [delete_student] on the identifier of a form whose entries pass the
    registration checks, [register_student] with that form succeeds; the new
    student has no [last_login], and no attendance row carries the
    identifier, whatever the deleted student had recorded. *)
Theorem delete_then_register :
  forall (t t1 t2 : string) (e : StudentForm) (self : SchoolAuthSystem),
    registration_fields_valid e = true ->
    let sid := PyStr.strip (f_student_id e) in
    let deleted := snd (delete_student (Some sid) true t self) in
    let after := snd (register_student t1 t2 e deleted) in
    fst (register_student t1 t2 e deleted) = Success
    /\ (exists x, In x (students (conn after))
                  /\ student_id x = sid /\ last_login x = None
                  /\ created_at x = t1)
    /\ (forall a, In a (attendance (conn after)) -> att_student_id a <> sid).
Proof.
  intros t t1 t2 e self V sid deleted after. subst after deleted sid.
  destruct (registration_valid_inv e V) as (_ & _ & _ & n & Hn).
  cbn [delete_student snd].
  rewrite (register_student_valid t1 t2 e _ n V Hn).
  destruct (existsb _ _) eqn:X.
  - apply existsb_student_id in X as (r & Hr & Hid).
    simpl in Hr. apply filter_not_id_in in Hr as [_ NE]. now elim NE.
  - simpl. split; [reflexivity|]. split.
    + eexists. split; [apply in_or_app; right; left; reflexivity|].
      repeat split.
    + intros a Ha. apply filter_not_att_in in Ha as [_ NE]. exact NE.
Qed.

Lemma delete_then_register_witness :
  registration_fields_valid alice_form = true
  /\ fst (register_student "2024-09-06 08:00:00" "2024-09-06 08:00:00" alice_form
            (snd (delete_student (Some (PyStr.strip (f_student_id alice_form)))
                    true "2024-09-05 16:00:00" sample_system)))
     = Success.
Proof.
  assert (V : registration_fields_valid alice_form = true)
    by (vm_compute; reflexivity).
  split; [exact V|].
  exact (proj1 (delete_then_register
                  "2024-09-05 16:00:00" "2024-09-06 08:00:00" "2024-09-06 08:00:00"
                  alice_form sample_system V)).
Defined.

(** ** The configuration *)

Ltac split_ifs :=
  repeat match goal with
         | |- context [if ?b then _ else _] => destruct b
         | |- context [match ?o with Some _ => _ | None => _ end] => destruct o
         end.

(** X11.  Of the configuration only [admin_password] is ever read: under
    two configurations with the same administrator hash every handler gives
    the same outcome and the same tables.  The school name, the teacher
    password and the age bounds [min_age] and [max_age] of the configuration
    have no effect; the bounds enforced are always 11 and 18. *)
Theorem only_admin_password_is_read :
  forall (c c' : Config) (self : SchoolAuthSystem)
         (t1 t2 : string) (e : StudentForm) (te : TeacherForm)
         (entry : string) (selected : option string) (confirmed : bool),
    admin_password c = admin_password c' ->
    observed (verify_student_login t1 t2 e (with_config c self))
    = observed (verify_student_login t1 t2 e (with_config c' self))
    /\ observed (verify_teacher_login te (with_config c self))
       = observed (verify_teacher_login te (with_config c' self))
    /\ observed (verify_admin_login entry (with_config c self))
       = observed (verify_admin_login entry (with_config c' self))
    /\ observed (register_student t1 t2 e (with_config c self))
       = observed (register_student t1 t2 e (with_config c' self))
    /\ observed (register_teacher t1 t2 te (with_config c self))
       = observed (register_teacher t1 t2 te (with_config c' self))
    /\ observed (delete_student selected confirmed t1 (with_config c self))
       = observed (delete_student selected confirmed t1 (with_config c' self)).
Proof.
  intros c c' self t1 t2 e te entry selected confirmed A.
  unfold observed, with_config.
  repeat split.
  - unfold verify_student_login, hash_password. cbn [conn config].
    split_ifs; reflexivity.
  - unfold verify_teacher_login, hash_password. cbn [conn config].
    split_ifs; reflexivity.
  - unfold verify_admin_login, hash_password. cbn [conn config]. rewrite A.
    split_ifs; reflexivity.
  - unfold register_student, hash_password. cbn [conn config].
    split_ifs; reflexivity.
  - unfold register_teacher, hash_password. cbn [conn config].
    split_ifs; reflexivity.
  - unfold delete_student. split_ifs; reflexivity.
Qed.

Lemma only_admin_password_is_read_witness :
  admin_password default_config = admin_password other_config
  /\ observed (register_student "2024-09-02 08:00:00" "2024-09-02 08:00:00"
                 alice_form (with_config default_config fresh_system))
     = observed (register_student "2024-09-02 08:00:00" "2024-09-02 08:00:00"
                   alice_form (with_config other_config fresh_system)).
Proof.
  assert (A : admin_password default_config = admin_password other_config)
    by reflexivity.
  split; [exact A|].
  destruct (only_admin_password_is_read
              default_config other_config fresh_system
              "2024-09-02 08:00:00" "2024-09-02 08:00:00"
              alice_form mrs_hall_form "admin123" None false A)
    as (_ & _ & _ & R & _).
  exact R.
Defined.

(** ** Runs of handlers *)

Lemma login_unchanged_unless_success
    (t1 t2 : string) (e : StudentForm) (s : SchoolAuthSystem) :
  fst (verify_student_login t1 t2 e s) <> Success ->
  snd (verify_student_login t1 t2 e s) = s.
Proof.
  intros H. destruct (login_fields_valid e) eqn:V.
  - destruct (login_valid_inv e V) as (_ & _ & _ & _ & n & Hn).
    rewrite (verify_student_login_valid t1 t2 e s n V Hn) in *.
    destruct (existsb _ _); [now elim H|reflexivity].
  - apply login_invalid, V.
Qed.

Lemma register_student_unchanged_unless_success
    (t1 t2 : string) (e : StudentForm) (s : SchoolAuthSystem) :
  fst (register_student t1 t2 e s) <> Success ->
  snd (register_student t1 t2 e s) = s.
Proof.
  intros H. destruct (registration_fields_valid e) eqn:V.
  - destruct (registration_valid_inv e V) as (_ & _ & _ & n & Hn).
    rewrite (register_student_valid t1 t2 e s n V Hn) in *.
    destruct (existsb _ _); [reflexivity|now elim H].
  - apply register_student_invalid, V.
Qed.

Lemma register_teacher_unchanged_unless_success
    (t1 t2 : string) (e : TeacherForm) (s : SchoolAuthSystem) :
  fst (register_teacher t1 t2 e s) <> Success ->
  snd (register_teacher t1 t2 e s) = s.
Proof.
  intros H. destruct (teacher_fields_valid e) eqn:V.
  - rewrite (register_teacher_valid t1 t2 e s V) in *.
    destruct (existsb _ _); [reflexivity|now elim H].
  - apply register_teacher_invalid, V.
Qed.

Lemma outcome_success_dec (o : Outcome) : o = Success \/ o <> Success.
Proof. destruct o; [left; reflexivity|right; discriminate|right; discriminate]. Qed.

Lemma stored_name_ok (raw : string) :
  validate_name (PyStr.strip raw) = true ->
  PyStr.truthy (PyStr.strip raw) = true
  /\ PyStr.all_chars Re.name_class (PyStr.strip raw) = true.
Proof.
  rewrite validate_name_spec, strip_idempotent. apply andb_prop.
Qed.

Lemma hash_password_ok (self : SchoolAuthSystem) (p : string) :
  (String.length (hash_password self p) =? 64)%nat = true
  /\ PyStr.all_chars Sha256.is_hex (hash_password self p) = true.
Proof.
  unfold hash_password. rewrite hexdigest_length, hexdigest_is_hex. auto.
Qed.

Lemma student_of_form_well_formed
    (self : SchoolAuthSystem) (t : string) (e : StudentForm) (n : Z) :
  registration_fields_valid e = true ->
  check_age (PyStr.strip (f_age e)) = Some n ->
  student_well_formed (student_of_form self t e n) = true.
Proof.
  intros V Hn. destruct (registration_valid_inv e V) as (_ & Hi & Hm & _).
  apply check_age_some in Hn as [_ [L U]].
  destruct (stored_name_ok _ Hm) as [N1 N2].
  destruct (hash_password_ok self (PyStr.strip (f_password e))) as [H1 H2].
  unfold validate_student_id in Hi. rewrite id_pattern_stripped in Hi.
  unfold student_well_formed. cbn [student_of_form student_id age name password_hash].
  rewrite Hi, N1, N2, H1, H2.
  rewrite (proj2 (Z.leb_le _ _) L), (proj2 (Z.leb_le _ _) U). reflexivity.
Qed.

Lemma teacher_of_form_well_formed
    (self : SchoolAuthSystem) (t : string) (e : TeacherForm) :
  teacher_fields_valid e = true ->
  teacher_well_formed (teacher_of_form self t e) = true.
Proof.
  intros V. destruct (teacher_valid_inv e V) as (_ & Hi & Hm).
  destruct (stored_name_ok _ Hm) as [N1 N2].
  destruct (hash_password_ok self (PyStr.strip (f_teacher_password e))) as [H1 H2].
  unfold validate_teacher_id in Hi. rewrite id_pattern_stripped in Hi.
  unfold teacher_well_formed.
  cbn [teacher_of_form teacher_id teacher_name teacher_password_hash].
  now rewrite Hi, N1, N2, H1, H2.
Qed.

(** A call of a handler leaves the state as it was or has one of four
    effects on the tables. *)
Lemma step_cases (s s' : SchoolAuthSystem) :
  step s s' ->
  s' = s
  \/ (exists t1 t2 r,
         In r (students (conn s)) /\ validate_class (class_name r) = true
         /\ s' = set_conn s (record_login t1 t2 r (conn s)))
  \/ (exists t x,
         student_well_formed x = true /\ last_login x = None
         /\ (forall r, In r (students (conn s)) -> student_id r <> student_id x)
         /\ s' = set_conn s (add_student t x (conn s)))
  \/ (exists t x,
         teacher_well_formed x = true
         /\ (forall r, In r (teachers (conn s)) -> teacher_id r <> teacher_id x)
         /\ s' = set_conn s (add_teacher t x (conn s)))
  \/ (exists sid t, s' = set_conn s (remove_student sid t (conn s))).
Proof.
  intros [t1 t2 e s0|e s0|entry s0|t1 t2 e s0|t1 t2 e s0|sel ok t s0].
  - destruct (outcome_success_dec (fst (verify_student_login t1 t2 e s0))) as [H|H].
    + destruct (verify_student_login_success_inv t1 t2 e s0 H)
        as (V & r & Hr & M & E).
      right. left. exists t1, t2, r. rewrite E. cbn [snd].
      split; [exact Hr|]. split; [|reflexivity].
      destruct (login_valid_inv e V) as (_ & _ & _ & C & _).
      destruct (form_matches_fields s0 e r M) as (_ & _ & Hc). now rewrite Hc.
    + left. now apply login_unchanged_unless_success.
  - left. unfold verify_teacher_login. split_ifs; reflexivity.
  - left. unfold verify_admin_login. split_ifs; reflexivity.
  - destruct (outcome_success_dec (fst (register_student t1 t2 e s0))) as [H|H].
    + destruct (register_student_success_inv t1 t2 e s0 H)
        as (V & F & n & Hn & E).
      right. right. left. exists t2, (student_of_form s0 t1 e n).
      rewrite E. cbn [snd].
      split; [now apply student_of_form_well_formed|].
      split; [reflexivity|]. split; [exact F|reflexivity].
    + left. now apply register_student_unchanged_unless_success.
  - destruct (outcome_success_dec (fst (register_teacher t1 t2 e s0))) as [H|H].
    + destruct (register_teacher_success_inv t1 t2 e s0 H) as (V & F & E).
      right. right. right. left. exists t2, (teacher_of_form s0 t1 e).
      rewrite E. cbn [snd].
      split; [now apply teacher_of_form_well_formed|].
      split; [exact F|reflexivity].
    + left. now apply register_teacher_unchanged_unless_success.
  - destruct sel as [sid|]; [|left; reflexivity].
    destruct ok; [|left; reflexivity].
    right. right. right. right. exists sid, t. reflexivity.
Qed.

(** *** Keys *)

Lemma keys_increasing_bound (lo : Z) (keys : list Z) (seq : Z) :
  keys_increasing lo keys seq ->
  lo <= seq /\ Forall (fun k => lo < k <= seq) keys.
Proof.
  revert lo; induction keys as [|k keys IH]; intros lo; simpl.
  - auto.
  - intros [L H]. destruct (IH k H) as [B F]. split; [lia|].
    constructor; [lia|]. eapply Forall_impl; [|exact F]. simpl. intros; lia.
Qed.

Lemma next_key_fresh (lo : Z) (keys : list Z) (seq : Z) :
  0 <= lo -> keys_increasing lo keys seq -> next_key keys seq = seq + 1.
Proof.
  intros P H. apply keys_increasing_bound in H as [B F].
  unfold next_key. f_equal.
  assert (M : fold_right Z.max 0 keys <= seq).
  { induction F as [|k keys Hk F IH]; simpl; lia. }
  lia.
Qed.

Lemma keys_increasing_append (lo : Z) (keys : list Z) (seq k : Z) :
  keys_increasing lo keys seq -> seq < k ->
  keys_increasing lo (keys ++ [k]) k.
Proof.
  revert lo; induction keys as [|x keys IH]; intros lo; simpl.
  - intros; lia.
  - intros [L H] K. split; [exact L|]. now apply IH.
Qed.

Lemma keys_increasing_weaken (lo lo' : Z) (keys : list Z) (seq : Z) :
  lo' <= lo -> keys_increasing lo keys seq -> keys_increasing lo' keys seq.
Proof. destruct keys; simpl; intros; [lia|]. split; [lia|tauto]. Qed.

Lemma keys_increasing_filter
    (p : AttendanceRecord -> bool) (rows : list AttendanceRecord) (lo seq : Z) :
  keys_increasing lo (map att_id rows) seq ->
  keys_increasing lo (map att_id (filter p rows)) seq.
Proof.
  revert lo; induction rows as [|r rows IH]; intros lo; simpl; [auto|].
  intros [L H]. destruct (p r); simpl.
  - split; [exact L|]. now apply IH.
  - apply IH. apply (keys_increasing_weaken (att_id r)); [lia|exact H].
Qed.

Lemma keys_consecutive_increasing (lo : Z) (keys : list Z) (seq : Z) :
  keys_consecutive lo keys seq -> keys_increasing lo keys seq.
Proof.
  revert lo; induction keys as [|k keys IH]; intros lo; simpl.
  - intros; lia.
  - intros [E H]. split; [lia|]. now apply IH.
Qed.

Lemma keys_consecutive_append (lo : Z) (keys : list Z) (seq : Z) :
  keys_consecutive lo keys seq ->
  keys_consecutive lo (keys ++ [seq + 1]) (seq + 1).
Proof.
  revert lo; induction keys as [|k keys IH]; intros lo; simpl.
  - intros ->. auto.
  - intros [E H]. split; [exact E|]. now apply IH.
Qed.

Lemma keys_consecutive_nth (lo : Z) (keys : list Z) (seq : Z) (i : nat) (k : Z) :
  keys_consecutive lo keys seq ->
  nth_error keys i = Some k -> k = lo + Z.of_nat (S i).
Proof.
  revert lo i; induction keys as [|x keys IH]; intros lo i H E.
  - destruct i; discriminate.
  - destruct H as [-> H]. destruct i as [|i]; simpl in E.
    + injection E as <-. lia.
    + rewrite (IH _ _ H E). lia.
Qed.

Lemma keys_consecutive_seq (lo : Z) (keys : list Z) (seq : Z) :
  keys_consecutive lo keys seq -> seq = lo + Z.of_nat (List.length keys).
Proof.
  revert lo; induction keys as [|x keys IH]; intros lo; simpl.
  - intros ->. lia.
  - intros [-> H]. rewrite (IH _ H). lia.
Qed.

(** The admin log after one more entry. *)
Lemma admin_log_append (act det t : string) (d : Database) :
  keys_consecutive 0 (map log_id (admin_logs d)) (admin_logs_seq d) ->
  keys_consecutive 0
    (map log_id (admin_logs (insert_admin_log act det t d)))
    (admin_logs_seq (insert_admin_log act det t d)).
Proof.
  intros H. unfold insert_admin_log. cbn [admin_logs admin_logs_seq].
  rewrite (next_key_fresh 0 _ _ (Z.le_refl 0) (keys_consecutive_increasing _ _ _ H)).
  rewrite map_app. simpl. now apply keys_consecutive_append.
Qed.

(** *** The four effects keep the invariant *)

Lemma touch_same_columns (t sid : string) (s : Student) :
  student_id (touch_last_login t sid s) = student_id s
  /\ name (touch_last_login t sid s) = name s
  /\ age (touch_last_login t sid s) = age s
  /\ class_name (touch_last_login t sid s) = class_name s
  /\ password_hash (touch_last_login t sid s) = password_hash s.
Proof.
  unfold touch_last_login. destruct (student_id s =? sid)%string; repeat split.
Qed.

Lemma touch_well_formed (t sid : string) (s : Student) :
  student_well_formed (touch_last_login t sid s) = student_well_formed s.
Proof.
  unfold student_well_formed.
  destruct (touch_same_columns t sid s) as (A & B & C & _ & E).
  now rewrite A, B, C, E.
Qed.

Lemma forallb_filter_keeps {A : Type} (p q : A -> bool) (l : list A) :
  forallb p l = true -> forallb p (filter q l) = true.
Proof.
  induction l as [|x l IH]; simpl; [auto|].
  intros H. apply andb_prop in H as [Hx Hl].
  destruct (q x); simpl; [rewrite Hx|]; auto.
Qed.

Lemma nodup_append_fresh {A : Type} (f : A -> string) (rows : list A) (x : A) :
  NoDup (map f rows) ->
  (forall r, In r rows -> f r <> f x) ->
  NoDup (map f (rows ++ [x])).
Proof.
  intros N F. rewrite map_app. simpl.
  apply (Permutation_NoDup (Permutation_cons_append _ _)).
  constructor; [|exact N].
  intros H. apply in_map_iff in H as (r & E & Hr). exact (F r Hr E).
Qed.

Lemma nodup_filter_teacherless {A : Type} (f : A -> string) (p : A -> bool)
    (rows : list A) :
  NoDup (map f rows) -> NoDup (map f (filter p rows)).
Proof.
  induction rows as [|x rows IH]; simpl; [auto|].
  intros N. inversion N as [|? ? Hx N']; subst.
  destruct (p x); simpl; [|auto].
  constructor; [|auto].
  intros H. apply Hx. apply in_map_iff in H as (y & E & Hy).
  apply filter_In in Hy as [Hy _]. apply in_map_iff. eauto.
Qed.

Lemma invariant_record_login (t1 t2 : string) (r : Student) (d : Database) :
  invariant d -> In r (students d) -> validate_class (class_name r) = true ->
  invariant (record_login t1 t2 r d).
Proof.
  intros ([PS PT] & [WS WT] & AS & [KA KL] & LL) Hr C.
  unfold invariant, primary_keys, rows_well_formed, attendance_sound,
    keys_sound, last_login_sound, record_login, insert_attendance,
    update_students.
  cbn [students attendance teachers admin_logs attendance_seq admin_logs_seq].
  repeat split.
  - now rewrite touch_keeps_ids.
  - exact PT.
  - rewrite forallb_forall in *. intros x Hx.
    apply in_map_iff in Hx as (y & <- & Hy).
    rewrite touch_well_formed. now apply WS.
  - exact WT.
  - apply in_app_or in H as [H|[<-|[]]]; [now apply AS|reflexivity].
  - apply in_app_or in H as [H|[<-|[]]]; [now apply AS|exact C].
  - apply in_app_or in H as [H|[<-|[]]].
    + destruct (AS a H) as (_ & _ & s & Hs & I1 & I2 & I3).
      exists (touch_last_login t1 (student_id r) s).
      split; [now apply in_map|].
      destruct (touch_same_columns t1 (student_id r) s) as (A & B & _ & D & _).
      unfold attendance_of. now rewrite A, B, D.
    + exists (touch_last_login t1 (student_id r) r).
      split; [now apply in_map|].
      destruct (touch_same_columns t1 (student_id r) r) as (A & B & _ & D & _).
      unfold attendance_of. cbn [att_student_id att_name att_class_name].
      now rewrite A, B, D.
  - rewrite map_app. cbn [map att_id].
    apply (keys_increasing_append 0 _ (attendance_seq d)); [exact KA|].
    apply next_key_above.
  - exact KL.
  - apply in_map_iff in H as (x & <- & Hx). intros N a Ha.
    destruct (string_dec (student_id x) (student_id r)) as [E|NE].
    + unfold touch_last_login in N. rewrite (proj2 (String.eqb_eq _ _) E) in N.
      discriminate N.
    + rewrite (touch_other _ _ _ NE) in *.
      apply in_app_or in Ha as [Ha|[<-|[]]].
      * now apply (proj1 (LL x Hx) N).
      * cbn [att_student_id]. congruence.
  - apply in_map_iff in H as (x & <- & Hx). intros N.
    destruct (string_dec (student_id x) (student_id r)) as [E|NE].
    + exfalso.
      apply (N {| att_id := next_key (map att_id (attendance d)) (attendance_seq d);
                  att_student_id := student_id r; att_name := name r;
                  att_class_name := class_name r; login_time := t2;
                  status := "Present" |}).
      * apply in_or_app. right. left. reflexivity.
      * cbn [att_student_id].
        destruct (touch_same_columns t1 (student_id r) x) as (A & _).
        now rewrite A.
    + rewrite (touch_other _ _ _ NE) in *.
      apply (proj2 (LL x Hx)). intros a Ha. apply N.
      apply in_or_app. now left.
Qed.

Lemma invariant_add_student (t : string) (x : Student) (d : Database) :
  invariant d -> student_well_formed x = true -> last_login x = None ->
  (forall r, In r (students d) -> student_id r <> student_id x) ->
  invariant (add_student t x d).
Proof.
  intros ([PS PT] & [WS WT] & AS & [KA KL] & LL) W N F.
  unfold add_student. repeat split.
  - cbn. now apply nodup_append_fresh.
  - exact PT.
  - cbn. rewrite forallb_app, WS. simpl. now rewrite W.
  - exact WT.
  - now apply AS.
  - now apply AS.
  - cbn in H. destruct (AS a H) as (_ & _ & s & Hs & I).
    exists s. split; [|exact I]. cbn. apply in_or_app. now left.
  - exact KA.
  - now apply admin_log_append.
  - cbn in H. cbn. apply in_app_or in H as [H|[<-|[]]].
    + apply (proj1 (LL s H)).
    + intros _ a Ha E.
      destruct (AS a Ha) as (_ & _ & s & Hs & I & _).
      apply (F s Hs). congruence.
  - cbn in H. cbn. apply in_app_or in H as [H|[<-|[]]].
    + apply (proj2 (LL s H)).
    + intros _. exact N.
Qed.

Lemma invariant_add_teacher (t : string) (x : Teacher) (d : Database) :
  invariant d -> teacher_well_formed x = true ->
  (forall r, In r (teachers d) -> teacher_id r <> teacher_id x) ->
  invariant (add_teacher t x d).
Proof.
  intros ([PS PT] & [WS WT] & AS & [KA KL] & LL) W F.
  unfold add_teacher. repeat split.
  - exact PS.
  - cbn. now apply nodup_append_fresh.
  - exact WS.
  - cbn. rewrite forallb_app, WT. simpl. now rewrite W.
  - now apply AS.
  - now apply AS.
  - now apply AS.
  - exact KA.
  - now apply admin_log_append.
  - apply (proj1 (LL s H)).
  - apply (proj2 (LL s H)).
Qed.

Lemma invariant_remove_student (sid t : string) (d : Database) :
  invariant d -> invariant (remove_student sid t d).
Proof.
  intros ([PS PT] & [WS WT] & AS & [KA KL] & LL).
  unfold remove_student. repeat split.
  - cbn. now apply nodup_filter_teacherless.
  - exact PT.
  - cbn. now apply forallb_filter_keeps.
  - exact WT.
  - cbn in H. apply filter_not_att_in in H as [H _]. now apply AS.
  - cbn in H. apply filter_not_att_in in H as [H _]. now apply AS.
  - cbn in H. apply filter_not_att_in in H as [H NE].
    destruct (AS a H) as (_ & _ & s & Hs & I).
    exists s. split; [|exact I]. cbn. apply filter_not_id_in.
    split; [exact Hs|]. destruct I as (I & _). congruence.
  - cbn. now apply keys_increasing_filter.
  - now apply admin_log_append.
  - cbn in H. apply filter_not_id_in in H as [H NE]. cbn.
    intros N a Ha. apply filter_not_att_in in Ha as [Ha _].
    now apply (proj1 (LL s H) N).
  - cbn in H. apply filter_not_id_in in H as [H NE]. cbn.
    intros N. apply (proj2 (LL s H)). intros a Ha E. apply (N a); [|exact E].
    apply filter_not_att_in. split; [exact Ha|congruence].
Qed.

Lemma invariant_empty : invariant empty_database.
Proof.
  split; [split; constructor|].
  split; [split; reflexivity|].
  split; [intros a []|].
  split; [split; simpl; lia|].
  intros s [].
Qed.

Lemma invariant_step (s s' : SchoolAuthSystem) :
  invariant (conn s) -> step s s' -> invariant (conn s').
Proof.
  intros I H.
  destruct (step_cases s s' H)
    as [->|[(t1 & t2 & r & Hr & C & ->)|[(t & x & W & N & F & ->)
       |[(t & x & W & F & ->)|(sid & t & ->)]]]]; cbn [conn set_conn].
  - exact I.
  - now apply invariant_record_login.
  - now apply invariant_add_student.
  - now apply invariant_add_teacher.
  - now apply invariant_remove_student.
Qed.

Lemma reachable_invariant (s : SchoolAuthSystem) :
  reachable s -> invariant (conn s).
Proof.
  induction 1 as [c|s s' _ IH H]; [exact invariant_empty|].
  exact (invariant_step s s' IH H).
Qed.

Lemma demo_reachable : reachable demo_system.
Proof.
  unfold demo_system.
  repeat (eapply reachable_step; [|constructor]).
  apply reachable_fresh.
Qed.

Lemma demo_run : run fresh_system demo_system.
Proof.
  unfold demo_system.
  repeat (eapply run_more; [|constructor]).
  apply run_none.
Qed.

(** ** What holds in every reachable state *)

(** X12.  In every state the handlers can reach from empty tables the
    student identifiers are pairwise distinct and so are the teacher
    identifiers: two stored students with one identifier are the same row. *)
Theorem reachable_primary_keys :
  forall s : SchoolAuthSystem,
    reachable s ->
    NoDup (map student_id (students (conn s)))
    /\ NoDup (map teacher_id (teachers (conn s)))
    /\ (forall r1 r2, In r1 (students (conn s)) -> In r2 (students (conn s)) ->
                      student_id r1 = student_id r2 -> r1 = r2).
Proof.
  intros s R. destruct (reachable_invariant s R) as ([PS PT] & _).
  split; [exact PS|]. split; [exact PT|].
  intros r1 r2. now apply primary_key_unique.
Qed.

Lemma reachable_primary_keys_witness :
  reachable demo_system
  /\ NoDup (map student_id (students (conn demo_system))).
Proof.
  split; [exact demo_reachable|].
  exact (proj1 (reachable_primary_keys demo_system demo_reachable)).
Defined.

(** X13.  Every stored student of a reachable state has an identifier made
    of "KJ" and eight digits, an age from 11 to 18 (so the [CHECK] of the
    table never fails), a non-empty name of letters and white space and a
    password hash of 64 hexadecimal digits; every stored teacher has an
    identifier made of "TJ" and eight digits, such a name and such a hash. *)
Theorem reachable_rows_well_formed :
  forall s : SchoolAuthSystem,
    reachable s ->
    (forall x, In x (students (conn s)) ->
               letters_and_8_digits "K" (student_id x) = true
               /\ 11 <= age x <= 18
               /\ name x <> EmptyString
               /\ PyStr.all_chars Re.name_class (name x) = true
               /\ String.length (password_hash x) = 64%nat
               /\ PyStr.all_chars Sha256.is_hex (password_hash x) = true)
    /\ (forall x, In x (teachers (conn s)) ->
                  letters_and_8_digits "T" (teacher_id x) = true
                  /\ teacher_name x <> EmptyString
                  /\ PyStr.all_chars Re.name_class (teacher_name x) = true
                  /\ String.length (teacher_password_hash x) = 64%nat
                  /\ PyStr.all_chars Sha256.is_hex (teacher_password_hash x) = true).
Proof.
  intros s R. destruct (reachable_invariant s R) as (_ & [WS WT] & _).
  rewrite forallb_forall in WS, WT. split; intros x Hx.
  - specialize (WS x Hx). unfold student_well_formed in WS.
    repeat (apply andb_prop in WS as [WS ?]).
    repeat split; auto; try (now apply Z.leb_le); try (now apply Nat.eqb_eq).
    intros E. rewrite E in *. discriminate.
  - specialize (WT x Hx). unfold teacher_well_formed in WT.
    repeat (apply andb_prop in WT as [WT ?]).
    repeat split; auto; try (now apply Nat.eqb_eq).
    intros E. rewrite E in *. discriminate.
Qed.

Lemma reachable_rows_well_formed_witness :
  reachable demo_system
  /\ (forall x, In x (teachers (conn demo_system)) ->
                letters_and_8_digits "T" (teacher_id x) = true
                /\ teacher_name x <> EmptyString
                /\ PyStr.all_chars Re.name_class (teacher_name x) = true
                /\ String.length (teacher_password_hash x) = 64%nat
                /\ PyStr.all_chars Sha256.is_hex (teacher_password_hash x) = true).
Proof.
  split; [exact demo_reachable|].
  exact (proj2 (reachable_rows_well_formed demo_system demo_reachable)).
Defined.

(** X14.  Every attendance row of a reachable state has the status
    "Present" and a class of [valid_classes], and belongs to a student who is
    still stored and whose name and class it repeats: the handlers keep the
    reference from attendance to students intact, which SQLite does not
    enforce for them. *)
Theorem reachable_attendance_sound :
  forall s : SchoolAuthSystem,
    reachable s ->
    forall a, In a (attendance (conn s)) ->
              status a = "Present"
              /\ In (att_class_name a) valid_classes
              /\ exists x, In x (students (conn s))
                           /\ student_id x = att_student_id a
                           /\ name x = att_name a
                           /\ class_name x = att_class_name a.
Proof.
  intros s R a Ha.
  destruct (reachable_invariant s R) as (_ & _ & AS & _).
  destruct (AS a Ha) as (P & C & x & Hx & I1 & I2 & I3).
  split; [exact P|]. split; [now apply validate_class_in|].
  exists x. auto.
Qed.

Lemma reachable_attendance_sound_witness :
  reachable demo_system
  /\ forall a, In a (attendance (conn demo_system)) -> status a = "Present".
Proof.
  split; [exact demo_reachable|].
  intros a Ha.
  exact (proj1 (reachable_attendance_sound demo_system demo_reachable a Ha)).
Defined.

Lemma keys_increasing_sorted (lo : Z) (keys : list Z) (seq : Z) :
  keys_increasing lo keys seq -> StronglySorted Z.lt keys.
Proof.
  revert lo; induction keys as [|k keys IH]; intros lo; simpl.
  - constructor.
  - intros [_ H]. constructor; [exact (IH k H)|].
    destruct (keys_increasing_bound k keys seq H) as [_ F].
    eapply Forall_impl; [|exact F]. simpl. intros; lia.
Qed.

(** X15.  In a reachable state the keys of the attendance rows increase
    strictly down the table, are positive and do not exceed the counter, so
    the key of a deleted row is never given again; the admin log has the keys
    1, 2, 3, ... without a gap and its counter is its length. *)
Theorem reachable_keys :
  forall s : SchoolAuthSystem,
    reachable s ->
    StronglySorted Z.lt (map att_id (attendance (conn s)))
    /\ Forall (fun k => 0 < k <= attendance_seq (conn s))
              (map att_id (attendance (conn s)))
    /\ attendance_seq (conn s)
       < next_key (map att_id (attendance (conn s))) (attendance_seq (conn s))
    /\ (forall i entry, nth_error (admin_logs (conn s)) i = Some entry ->
                        log_id entry = Z.of_nat (S i))
    /\ admin_logs_seq (conn s) = Z.of_nat (List.length (admin_logs (conn s))).
Proof.
  intros s R. destruct (reachable_invariant s R) as (_ & _ & _ & [KA KL] & _).
  split; [exact (keys_increasing_sorted _ _ _ KA)|].
  split; [exact (proj2 (keys_increasing_bound _ _ _ KA))|].
  split; [apply next_key_above|].
  split.
  - intros i entry E.
    rewrite (keys_consecutive_nth 0 _ _ i (log_id entry) KL); [lia|].
    rewrite nth_error_map, E. reflexivity.
  - rewrite (keys_consecutive_seq _ _ _ KL), length_map. lia.
Qed.

Lemma reachable_keys_witness :
  reachable demo_system
  /\ admin_logs_seq (conn demo_system)
     = Z.of_nat (List.length (admin_logs (conn demo_system))).
Proof.
  split; [exact demo_reachable|].
  destruct (reachable_keys demo_system demo_reachable) as (_ & _ & _ & _ & E).
  exact E.
Defined.

(** X16.  In a reachable state a stored student has no [last_login]
    exactly when the attendance table holds no row for that student. *)
Theorem reachable_last_login :
  forall s : SchoolAuthSystem,
    reachable s ->
    forall x, In x (students (conn s)) ->
              (last_login x = None
               <-> forall a, In a (attendance (conn s)) ->
                             att_student_id a <> student_id x).
Proof.
  intros s R. destruct (reachable_invariant s R) as (_ & _ & _ & _ & LL).
  exact LL.
Qed.

Lemma reachable_last_login_witness :
  reachable demo_system
  /\ forall x, In x (students (conn demo_system)) ->
               (last_login x = None
                <-> forall a, In a (attendance (conn demo_system)) ->
                              att_student_id a <> student_id x).
Proof.
  split; [exact demo_reachable|].
  exact (reachable_last_login demo_system demo_reachable).
Defined.

(** ** What never happens *)

Lemma step_appends (s s' : SchoolAuthSystem) :
  step s s' ->
  config s' = config s
  /\ (exists more, admin_logs (conn s') = (admin_logs (conn s) ++ more)%list)
  /\ (exists more, teachers (conn s') = (teachers (conn s) ++ more)%list).
Proof.
  intros H.
  destruct (step_cases s s' H)
    as [->|[(t1 & t2 & r & _ & _ & ->)|[(t & x & _ & _ & _ & ->)
       |[(t & x & _ & _ & ->)|(sid & t & ->)]]]]; cbn.
  - split; [reflexivity|]. split; exists []; now rewrite app_nil_r.
  - split; [reflexivity|]. split; exists []; now rewrite app_nil_r.
  - split; [reflexivity|]. split; [eexists; reflexivity|].
    exists []; now rewrite app_nil_r.
  - split; [reflexivity|]. split; eexists; reflexivity.
  - split; [reflexivity|]. split; [eexists; reflexivity|].
    exists []; now rewrite app_nil_r.
Qed.

(** X17.  No handler removes or rewrites an admin-log entry or a teacher
    row, and none touches the configuration: after any number of calls the
    admin log is the former log with entries appended, the teacher table the
    former table with rows appended, the configuration the same. *)
Theorem log_and_teachers_only_grow :
  forall s s' : SchoolAuthSystem,
    run s s' ->
    config s' = config s
    /\ (exists more, admin_logs (conn s') = (admin_logs (conn s) ++ more)%list)
    /\ (exists more, teachers (conn s') = (teachers (conn s) ++ more)%list).
Proof.
  induction 1 as [s|s s' s'' _ IH H].
  - split; [reflexivity|]. split; exists []; now rewrite app_nil_r.
  - destruct IH as (C & (l1 & L) & (m1 & T)).
    destruct (step_appends s' s'' H) as (C' & (l2 & L') & (m2 & T')).
    split; [congruence|]. split.
    + exists (l1 ++ l2)%list. now rewrite L', L, app_assoc.
    + exists (m1 ++ m2)%list. now rewrite T', T, app_assoc.
Qed.

Lemma log_and_teachers_only_grow_witness :
  run fresh_system demo_system
  /\ config demo_system = config fresh_system.
Proof.
  split; [exact demo_run|].
  exact (proj1 (log_and_teachers_only_grow fresh_system demo_system demo_run)).
Defined.

Lemma filter_all {A : Type} (p : A -> bool) (l : list A) :
  (forall x, In x l -> p x = true) -> filter p l = l.
Proof.
  induction l as [|x l IH]; simpl; [reflexivity|].
  intros H. rewrite (H x (or_introl eq_refl)). f_equal. apply IH.
  intros y Hy. apply H. now right.
Qed.

(** X18.  Deleting an identifier that no stored student has is not an
    error: in a reachable state [delete_student] on such an identifier
    reports success, leaves the student, attendance and teacher tables
    exactly as they were, and still appends an admin-log entry
    "Delete Student". *)
Theorem delete_absent_student :
  forall (sid t : string) (s : SchoolAuthSystem),
    reachable s ->
    (forall r, In r (students (conn s)) -> student_id r <> sid) ->
    let after := snd (delete_student (Some sid) true t s) in
    fst (delete_student (Some sid) true t s) = Success
    /\ students (conn after) = students (conn s)
    /\ attendance (conn after) = attendance (conn s)
    /\ teachers (conn after) = teachers (conn s)
    /\ exists entry,
         admin_logs (conn after) = (admin_logs (conn s) ++ [entry])%list
         /\ action entry = "Delete Student"
         /\ details entry = ("Deleted student " ++ sid)%string.
Proof.
  intros sid t s R F after. subst after. cbn.
  destruct (reachable_invariant s R) as (_ & _ & AS & _).
  split; [reflexivity|]. split; [|split; [|split]].
  - apply filter_all. intros r Hr. apply negb_true_iff, String.eqb_neq.
    now apply F.
  - apply filter_all. intros a Ha. apply negb_true_iff, String.eqb_neq.
    destruct (AS a Ha) as (_ & _ & x & Hx & I & _). rewrite I. now apply F.
  - reflexivity.
  - eexists. split; [reflexivity|]. split; reflexivity.
Qed.

Lemma delete_absent_student_witness :
  reachable demo_system
  /\ (forall r, In r (students (conn demo_system)) ->
                student_id r <> "KJ20249999")
  /\ students (conn (snd (delete_student (Some "KJ20249999") true
                            "2024-09-06 10:00:00" demo_system)))
     = students (conn demo_system).
Proof.
  assert (F : forall r, In r (students (conn demo_system)) ->
                        student_id r <> "KJ20249999").
  { intros r H. vm_compute in H. destruct H as [<-|[<-|[]]]; discriminate. }
  split; [exact demo_reachable|]. split; [exact F|].
  destruct (delete_absent_student "KJ20249999" "2024-09-06 10:00:00"
              demo_system demo_reachable F) as (_ & E & _).
  exact E.
Defined.

Lemma filter_twice {A : Type} (p : A -> bool) (l : list A) :
  filter p (filter p l) = filter p l.
Proof.
  apply filter_all. intros x Hx. now apply filter_In in Hx as [_ Hx].
Qed.

(** X19.  Deleting the same identifier a second time changes no table but
    the admin log: the student and attendance tables after the second
    [delete_student] are those after the first, and the log has one more
    entry each time. *)
Theorem delete_student_twice :
  forall (sid t t' : string) (s : SchoolAuthSystem),
    let once := snd (delete_student (Some sid) true t s) in
    let twice := snd (delete_student (Some sid) true t' once) in
    students (conn twice) = students (conn once)
    /\ attendance (conn twice) = attendance (conn once)
    /\ teachers (conn twice) = teachers (conn s)
    /\ List.length (admin_logs (conn twice))
       = S (S (List.length (admin_logs (conn s)))).
Proof.
  intros sid t t' s once twice. subst twice once. cbn.
  split; [apply filter_twice|]. split; [apply filter_twice|].
  split; [reflexivity|].
  rewrite !length_app. simpl. lia.
Qed.

(** ** The student listing *)

Lemma insert_by_name_perm (r : Student) (rs : list Student) :
  Permutation (insert_by_name r rs) (r :: rs).
Proof.
  induction rs as [|x rs IH]; simpl; [reflexivity|].
  destruct (String.leb (name r) (name x)); [reflexivity|].
  rewrite IH. apply perm_swap.
Qed.

Lemma order_by_name_perm (rs : list Student) :
  Permutation (order_by_name rs) rs.
Proof.
  induction rs as [|x rs IH]; simpl; [reflexivity|].
  rewrite insert_by_name_perm. now constructor.
Qed.

Lemma insert_by_name_sorted (r : Student) (rs : list Student) :
  StronglySorted (fun a b => String.leb (name a) (name b) = true) rs ->
  StronglySorted (fun a b => String.leb (name a) (name b) = true)
                 (insert_by_name r rs).
Proof.
  induction rs as [|x rs IH]; simpl; intros S.
  - repeat constructor.
  - inversion S as [|? ? S' F]; subst.
    destruct (String.leb (name r) (name x)) eqn:E.
    + constructor; [exact S|]. constructor; [exact E|].
      eapply Forall_impl; [|exact F]. intros y Hy.
      exact (string_leb_trans _ _ _ E Hy).
    + constructor; [now apply IH|].
      eapply Permutation_Forall; [symmetry; apply insert_by_name_perm|].
      constructor; [|exact F].
      destruct (String.leb_total (name x) (name r)); congruence.
Qed.

Lemma order_by_name_sorted (rs : list Student) :
  StronglySorted (fun a b => String.leb (name a) (name b) = true)
                 (order_by_name rs).
Proof.
  induction rs as [|x rs IH]; simpl; [constructor|].
  now apply insert_by_name_sorted.
Qed.

Lemma student_columns_sorted (rs : list Student) :
  StronglySorted (fun a b => String.leb (name a) (name b) = true) rs ->
  StronglySorted name_ascending (map student_columns rs).
Proof.
  induction 1 as [|x rs S IH F]; simpl; constructor; [exact IH|].
  apply Forall_map. exact F.
Qed.

(** X20.  The listing of [manage_students] shows every stored student
    exactly once, in ascending order of name, and after [delete_student] on
    an identifier it shows no row with that identifier. *)
Theorem manage_students_listing :
  forall (self : SchoolAuthSystem),
    Permutation (manage_students self)
                (map student_columns (students (conn self)))
    /\ StronglySorted name_ascending (manage_students self)
    /\ List.length (manage_students self)
       = List.length (students (conn self))
    /\ (forall sid t row,
           In row (manage_students
                     (snd (delete_student (Some sid) true t self))) ->
           student_row_id row <> sid).
Proof.
  intros self.
  assert (P : forall s, Permutation (manage_students s)
                          (map student_columns (students (conn s)))).
  { intros s. unfold manage_students. apply Permutation_map, order_by_name_perm. }
  split; [apply P|].
  split; [apply student_columns_sorted, order_by_name_sorted|].
  split.
  - unfold manage_students. rewrite length_map.
    apply Permutation_length, order_by_name_perm.
  - intros sid t row H. apply (Permutation_in _ (P _)) in H.
    apply in_map_iff in H as (x & <- & Hx). cbn in Hx.
    apply filter_not_id_in in Hx as [_ NE]. exact NE.
Qed.

(** ** The history view *)

Lemma like_leading_percent (p s : string) :
  like p s = true -> like (String "%" p) s = true.
Proof.
  unfold like. intros H.
  change (c_string (String "%" p)) with (String "%" (c_string p)).
  destruct (c_string s); simpl; rewrite H; reflexivity.
Qed.

Lemma query_rows_from_table (d : string) (self : SchoolAuthSystem) (row : AttendanceRow) :
  In row (query_attendance_for_date d self) ->
  exists r, In r (attendance (conn self))
            /\ like (d ++ "%") (login_time r) = true
            /\ row = attendance_columns r.
Proof.
  unfold query_attendance_for_date.
  destruct (like_too_complex (d ++ "%")); intros H; [destruct H|].
  apply in_map_iff in H as (r & <- & H).
  apply (Permutation_in _ (order_by_perm _)) in H.
  apply filter_In in H as [H L]. eauto.
Qed.

(** X21.  Whatever is typed as the date, [load_history] shows only rows of
    the attendance table, most recent first; an empty or blank entry shows
    the rows of today, as [view_attendance] does; and the entry "%" shows
    every row of the table, since the text is handed to [LIKE] as it is. *)
Theorem load_history_any_entry :
  forall (entry today : string) (self : SchoolAuthSystem),
    StronglySorted later_or_equal (load_history entry today self)
    /\ (forall row, In row (load_history entry today self) ->
                    exists r, In r (attendance (conn self))
                              /\ row = attendance_columns r)
    /\ (PyStr.strip entry = EmptyString ->
        load_history entry today self = view_attendance today self)
    /\ Permutation (load_history "%" today self)
                   (map attendance_columns (attendance (conn self))).
Proof.
  intros entry today self. split; [|split; [|split]].
  - unfold load_history. apply query_sorted.
  - intros row H. unfold load_history in H.
    apply query_rows_from_table in H as (r & Hr & _ & E). eauto.
  - intros E. unfold load_history. rewrite E. reflexivity.
  - change (load_history "%" today self)
      with (map attendance_columns
              (order_by_login_time_desc
                 (filter (fun r => like "%%" (login_time r))
                         (attendance (conn self))))).
    apply Permutation_map. rewrite order_by_perm.
    rewrite filter_all; [reflexivity|].
    intros r _. apply like_leading_percent, like_percent_only.
Qed.

(** X22.  A typed text of at most 49999 bytes that holds no "%", "_",
    letter or U+0000 and has no white space around it selects by prefix:
    [load_history] shows exactly the rows whose [login_time] begins with the
    text, so "2024-09" shows the whole month. *)
Theorem load_history_prefix :
  forall (p today : string) (self : SchoolAuthSystem),
    PyStr.all_chars like_plain p = true ->
    PyStr.strip p = p -> p <> EmptyString ->
    like_too_complex (p ++ "%") = false ->
    Permutation
      (load_history p today self)
      (map attendance_columns
         (filter (fun r => prefix p (login_time r)) (attendance (conn self)))).
Proof.
  intros p today self P S N C. unfold load_history. rewrite S.
  destruct p as [|c p]; [now elim N|]. cbn [PyStr.truthy].
  unfold query_attendance_for_date. rewrite C. apply Permutation_map.
  rewrite order_by_perm.
  rewrite (filter_ext _ (fun r => prefix (String c p) (login_time r)));
    [reflexivity|].
  intros r. now apply like_prefix.
Qed.

Lemma load_history_prefix_witness :
  PyStr.all_chars like_plain "2024-09" = true
  /\ PyStr.strip "2024-09" = "2024-09"
  /\ "2024-09" <> EmptyString
  /\ like_too_complex "2024-09%" = false
  /\ List.length (load_history "2024-09" "2024-10-01" sample_system) = 3%nat.
Proof.
  assert (P : PyStr.all_chars like_plain "2024-09" = true) by reflexivity.
  assert (S : PyStr.strip "2024-09" = "2024-09") by reflexivity.
  assert (N : "2024-09" <> EmptyString) by discriminate.
  assert (C : like_too_complex ("2024-09" ++ "%") = false) by reflexivity.
  split; [exact P|]. split; [exact S|]. split; [exact N|]. split; [exact C|].
  rewrite (Permutation_length
             (load_history_prefix "2024-09" "2024-10-01" sample_system P S N C)).
  reflexivity.
Defined.

(** ** The login window *)

Lemma type_into_shape (k text : string) (d : Entries) :
  map key_kind (type_into k text d) = map key_kind d.
Proof.
  induction d as [|[k' w] d IH]; simpl; [reflexivity|].
  destruct (k' =? k)%string; simpl.
  - destruct w; reflexivity.
  - now rewrite IH.
Qed.

Lemma clear_entries_shape (d : Entries) :
  map key_kind (clear_entries d) = map key_kind d.
Proof.
  unfold clear_entries. rewrite map_map. apply map_ext.
  intros [k w]. destruct w; reflexivity.
Qed.

Lemma entries_get_shape (k : string) (d d' : Entries) :
  map key_kind d = map key_kind d' ->
  option_map is_combo (entries_get k d) = option_map is_combo (entries_get k d').
Proof.
  revert d'; induction d as [|[k1 w1] d IH]; intros [|[k2 w2] d'] H;
    try discriminate H; [reflexivity|].
  simpl in H. injection H as Hk Hw Hd. unfold key_kind in *. simpl in *.
  subst k2. destruct (k1 =? k)%string; simpl; [now rewrite Hw|now apply IH].
Qed.

Lemma entries_get_clear (k : string) (d : Entries) :
  entries_get k (clear_entries d) = option_map clear_widget (entries_get k d).
Proof.
  induction d as [|[k' w] d IH]; simpl; [reflexivity|].
  destruct (k' =? k)%string; [reflexivity|exact IH].
Qed.

(** A field that the form holds as a plain entry is there, and empty after
    [clear_entries]. *)
Lemma entry_present (k : string) (d d0 : Entries) :
  map key_kind d = map key_kind d0 ->
  option_map is_combo (entries_get k d0) = Some false ->
  (exists text, entries_get k d = Some (CTkEntry text))
  /\ entries_get k (clear_entries d) = Some (CTkEntry "").
Proof.
  intros S H. rewrite <- (entries_get_shape k d d0 S) in H.
  rewrite entries_get_clear.
  destruct (entries_get k d) as [[text|text]|]; try discriminate H.
  split; [eauto|reflexivity].
Qed.

Lemma widget_present (k : string) (d d0 : Entries) :
  map key_kind d = map key_kind d0 ->
  entries_get k d0 <> None -> entries_get k d <> None.
Proof.
  intros S H E. pose proof (entries_get_shape k d d0 S) as X.
  rewrite E in X. destruct (entries_get k d0); [discriminate X|now elim H].
Qed.

Lemma verify_login_keeps_type
    (t1 t2 : string) (w w' : Window) (self self' : SchoolAuthSystem) (o : Outcome) :
  verify_login t1 t2 w self = Some (o, w', self') ->
  w' = w
  \/ (o = Success
      /\ w' = {| current_login_type := current_login_type w;
                 entries := clear_entries (entries w) |}).
Proof.
  unfold verify_login, after_login. intros H.
  destruct (current_login_type w =? "Student")%string;
    [|destruct (current_login_type w =? "Teacher")%string];
    match type of H with
    | option_map _ ?x = _ => destruct x; [|discriminate H]
    end;
    cbn [option_map] in H; injection H as Ho Hw Hs; subst o w';
    match goal with
    | |- context [match ?f with Success => _ | _ => _ end] =>
        destruct f; auto
    end.
Qed.

Lemma window_step_shaped (w w' : Window) :
  window_shaped w -> window_step w w' -> window_shaped w'.
Proof.
  unfold window_shaped. intros S H.
  destruct H as [lt w0|k text w0|t1 t2 w0 w1 self self' o H].
  - reflexivity.
  - cbn [entries current_login_type]. now rewrite type_into_shape.
  - destruct (verify_login_keeps_type _ _ _ _ _ _ _ H) as [->|[_ ->]];
      [exact S|].
    cbn [entries current_login_type]. now rewrite clear_entries_shape.
Qed.

Lemma window_reachable_shaped (w : Window) :
  window_reachable w -> window_shaped w.
Proof.
  induction 1 as [|w w' _ IH H]; [reflexivity|].
  exact (window_step_shaped w w' IH H).
Qed.

Lemma shaped_verify_login_answers
    (t1 t2 : string) (w : Window) (self : SchoolAuthSystem) :
  window_shaped w -> verify_login t1 t2 w self <> None.
Proof.
  unfold window_shaped, verify_login, form_for. intros S.
  destruct (current_login_type w =? "Student")%string.
  - unfold read_student_form.
    assert (G : forall k, entries_get k setup_student_form <> None ->
                          entries_get k (entries w) <> None)
      by (intros k; now apply widget_present).
    destruct (entries_get "Student ID" (entries w)) eqn:E1;
      [|now elim (G "Student ID")].
    destruct (entries_get "Name" (entries w)) eqn:E2; [|now elim (G "Name")].
    destruct (entries_get "Age" (entries w)) eqn:E3; [|now elim (G "Age")].
    destruct (entries_get "Class" (entries w)) eqn:E4; [|now elim (G "Class")].
    destruct (entries_get "Password" (entries w)) eqn:E5;
      [|now elim (G "Password")].
    discriminate.
  - destruct (current_login_type w =? "Teacher")%string.
    + unfold read_teacher_form.
      assert (G : forall k, entries_get k setup_teacher_form <> None ->
                            entries_get k (entries w) <> None)
        by (intros k; now apply widget_present).
      destruct (entries_get "Teacher ID" (entries w)) eqn:E1;
        [|now elim (G "Teacher ID")].
      destruct (entries_get "Name" (entries w)) eqn:E2; [|now elim (G "Name")].
      destruct (entries_get "Password" (entries w)) eqn:E3;
        [|now elim (G "Password")].
      discriminate.
    + assert (G : entries_get "Password" (entries w) <> None)
        by (apply (widget_present _ _ setup_admin_form S); discriminate).
      destruct (entries_get "Password" (entries w)); [discriminate|now elim G].
Qed.

(** X23.  The login handlers never fail on a missing entry: in every
    window reached from [setup_gui] by switching the login type (to any
    value), typing into entries and pressing the button, [verify_login] finds
    every entry it reads, because [current_login_type] and the dictionary of
    entries are always replaced together. *)
Theorem verify_login_no_key_error :
  forall (w : Window),
    window_reachable w ->
    window_shaped w
    /\ forall (t1 t2 : string) (self : SchoolAuthSystem),
         verify_login t1 t2 w self <> None.
Proof.
  intros w R. pose proof (window_reachable_shaped w R) as S.
  split; [exact S|]. intros t1 t2 self.
  now apply shaped_verify_login_answers.
Qed.

Lemma verify_login_no_key_error_witness :
  window_reachable (switch_login_type "Teacher" setup_gui)
  /\ verify_login "2024-09-03 08:55:10" "2024-09-03 08:55:11"
       (switch_login_type "Teacher" setup_gui) demo_system <> None.
Proof.
  assert (R : window_reachable (switch_login_type "Teacher" setup_gui))
    by (eapply wr_step; [apply wr_setup|apply ws_switch]).
  split; [exact R|].
  exact (proj2 (verify_login_no_key_error _ R)
               "2024-09-03 08:55:10" "2024-09-03 08:55:11" demo_system).
Defined.

Lemma student_login_without_id
    (t1 t2 : string) (e : StudentForm) (self : SchoolAuthSystem) :
  f_student_id e = EmptyString ->
  verify_student_login t1 t2 e self = (Rejected FieldsRequired, self).
Proof. intros H. unfold verify_student_login. rewrite H. reflexivity. Qed.

Lemma teacher_login_without_id (e : TeacherForm) (self : SchoolAuthSystem) :
  f_teacher_id e = EmptyString ->
  verify_teacher_login e self = (Rejected FieldsRequired, self).
Proof. intros H. unfold verify_teacher_login. rewrite H. reflexivity. Qed.

Lemma verify_login_success_clears
    (t1 t2 : string) (w w' : Window) (self self' : SchoolAuthSystem) :
  verify_login t1 t2 w self = Some (Success, w', self') ->
  w' = {| current_login_type := current_login_type w;
          entries := clear_entries (entries w) |}.
Proof.
  unfold verify_login, after_login. intros H.
  destruct (current_login_type w =? "Student")%string;
    [|destruct (current_login_type w =? "Teacher")%string];
    match type of H with
    | option_map _ ?x = _ => destruct x; [|discriminate H]
    end;
    cbn [option_map] in H; injection H as Ho Hw Hs; rewrite Ho in Hw;
    now symmetry.
Qed.

(** X24.  After a successful login the form is cleared, so pressing the
    button again does nothing: in a window reached from [setup_gui], when
    [verify_login] succeeds, a second [verify_login] on the window it leaves
    is rejected with "All fields are required" (or "Password is required")
    and changes neither the window nor the state; no second attendance row
    is recorded. *)
Theorem second_click_is_rejected :
  forall (w w' : Window) (t1 t2 t3 t4 : string) (self self' : SchoolAuthSystem),
    window_reachable w ->
    verify_login t1 t2 w self = Some (Success, w', self') ->
    verify_login t3 t4 w' self' = Some (Rejected FieldsRequired, w', self').
Proof.
  intros w w' t1 t2 t3 t4 self self' R H.
  pose proof (window_reachable_shaped w R) as S.
  rewrite (verify_login_success_clears _ _ _ _ _ _ H). clear H.
  unfold window_shaped, form_for in S.
  unfold verify_login. cbn [current_login_type entries].
  destruct (current_login_type w =? "Student")%string.
  - destruct (entry_present "Student ID" _ _ S eq_refl) as [_ E1].
    unfold read_student_form. rewrite E1, !entries_get_clear.
    assert (G : forall k, entries_get k setup_student_form <> None ->
                          entries_get k (entries w) <> None)
      by (intros k; now apply widget_present).
    destruct (entries_get "Name" (entries w)) eqn:E2; [|now elim (G "Name")].
    destruct (entries_get "Age" (entries w)) eqn:E3; [|now elim (G "Age")].
    destruct (entries_get "Class" (entries w)) eqn:E4; [|now elim (G "Class")].
    destruct (entries_get "Password" (entries w)) eqn:E5;
      [|now elim (G "Password")].
    cbn [option_map]. now rewrite student_login_without_id.
  - destruct (current_login_type w =? "Teacher")%string.
    + destruct (entry_present "Teacher ID" _ _ S eq_refl) as [_ E1].
      unfold read_teacher_form. rewrite E1, !entries_get_clear.
      assert (G : forall k, entries_get k setup_teacher_form <> None ->
                            entries_get k (entries w) <> None)
        by (intros k; now apply widget_present).
      destruct (entries_get "Name" (entries w)) eqn:E2; [|now elim (G "Name")].
      destruct (entries_get "Password" (entries w)) eqn:E3;
        [|now elim (G "Password")].
      cbn [option_map]. now rewrite teacher_login_without_id.
    + destruct (entry_present "Password" _ _ S eq_refl) as [_ E1].
      rewrite E1. reflexivity.
Qed.

Lemma alice_window_reachable : window_reachable alice_window.
Proof.
  unfold alice_window, typed.
  repeat (eapply wr_step; [|apply ws_type]).
  apply wr_setup.
Qed.

Lemma second_click_is_rejected_witness :
  window_reachable alice_window
  /\ verify_login "2024-09-05 08:50:00" "2024-09-05 08:50:01"
       alice_window sample_system
     = Some (Success,
             {| current_login_type := "Student";
                entries := clear_entries (entries alice_window) |},
             snd (verify_student_login "2024-09-05 08:50:00"
                    "2024-09-05 08:50:01" alice_form sample_system))
  /\ verify_login "2024-09-05 08:50:02" "2024-09-05 08:50:03"
       {| current_login_type := "Student";
          entries := clear_entries (entries alice_window) |}
       (snd (verify_student_login "2024-09-05 08:50:00"
               "2024-09-05 08:50:01" alice_form sample_system))
     = Some (Rejected FieldsRequired,
             {| current_login_type := "Student";
                entries := clear_entries (entries alice_window) |},
             snd (verify_student_login "2024-09-05 08:50:00"
                    "2024-09-05 08:50:01" alice_form sample_system)).
Proof.
  assert (H : verify_login "2024-09-05 08:50:00" "2024-09-05 08:50:01"
                alice_window sample_system
              = Some (Success,
                      {| current_login_type := "Student";
                         entries := clear_entries (entries alice_window) |},
                      snd (verify_student_login "2024-09-05 08:50:00"
                             "2024-09-05 08:50:01" alice_form sample_system)))
    by (vm_compute; reflexivity).
  split; [exact alice_window_reachable|]. split; [exact H|].
  exact (second_click_is_rejected _ _ _ _ _ _ _ _ alice_window_reachable H).
Defined.

(** ** More on the student handlers *)

(** X25.  The age entry counts by its value, not by its spelling: two
    non-empty age entries that [int] reads alike, such as "12", "012", "+12"
    and "1_2", give the same outcome and the same resulting state in
    [verify_student_login] and in [register_student]. *)
Theorem age_entry_by_value :
  forall (t1 t2 : string) (e : StudentForm) (a : string) (self : SchoolAuthSystem),
    PyStr.strip (f_age e) <> EmptyString ->
    PyStr.strip a <> EmptyString ->
    PyStr.int (PyStr.strip a) = PyStr.int (PyStr.strip (f_age e)) ->
    verify_student_login t1 t2 (with_age a e) self
    = verify_student_login t1 t2 e self
    /\ register_student t1 t2 (with_age a e) self
       = register_student t1 t2 e self.
Proof.
  intros t1 t2 e a self N1 N2 I.
  assert (T : PyStr.truthy (PyStr.strip a) = PyStr.truthy (PyStr.strip (f_age e))).
  { destruct (PyStr.strip a); [now elim N2|].
    destruct (PyStr.strip (f_age e)); [now elim N1|reflexivity]. }
  assert (C : check_age (PyStr.strip a) = check_age (PyStr.strip (f_age e)))
    by (unfold check_age; now rewrite I).
  unfold verify_student_login, register_student, with_age, all_truthy.
  cbn [f_student_id f_name f_age f_class f_password forallb].
  rewrite T, C. split; reflexivity.
Qed.

Lemma age_entry_by_value_witness :
  PyStr.strip (f_age alice_form) <> EmptyString
  /\ PyStr.strip " +1_2 " <> EmptyString
  /\ PyStr.int (PyStr.strip " +1_2 ") = PyStr.int (PyStr.strip (f_age alice_form))
  /\ verify_student_login "2024-09-05 08:50:00" "2024-09-05 08:50:01"
       (with_age " +1_2 " alice_form) sample_system
     = verify_student_login "2024-09-05 08:50:00" "2024-09-05 08:50:01"
         alice_form sample_system.
Proof.
  assert (N1 : PyStr.strip (f_age alice_form) <> EmptyString) by discriminate.
  assert (N2 : PyStr.strip " +1_2 " <> EmptyString) by discriminate.
  assert (I : PyStr.int (PyStr.strip " +1_2 ")
              = PyStr.int (PyStr.strip (f_age alice_form))) by reflexivity.
  split; [exact N1|]. split; [exact N2|]. split; [exact I|].
  exact (proj1 (age_entry_by_value
                  "2024-09-05 08:50:00" "2024-09-05 08:50:01"
                  alice_form " +1_2 " sample_system N1 N2 I)).
Defined.

(** X26.  What a successful registration stores: the student table gets
    exactly one more row, at its end, holding the stripped identifier, name
    and class, the age as a number from 11 to 18, the hash of the stripped
    password, the first time stamp as [created_at] and no [last_login]; the
    admin log gets exactly one more entry, "Register Student", naming the
    identifier; attendance and teachers stay as they were. *)
Theorem register_student_success_effects :
  forall (t1 t2 : string) (e : StudentForm) (self : SchoolAuthSystem),
    fst (register_student t1 t2 e self) = Success ->
    let after := snd (register_student t1 t2 e self) in
    (exists n,
        PyStr.int (PyStr.strip (f_age e)) = Some n /\ 11 <= n <= 18
        /\ students (conn after)
           = (students (conn self) ++ [student_of_form self t1 e n])%list)
    /\ (exists entry,
           admin_logs (conn after) = (admin_logs (conn self) ++ [entry])%list
           /\ action entry = "Register Student"
           /\ details entry
              = ("Registered student " ++ PyStr.strip (f_student_id e))%string
           /\ timestamp entry = t2)
    /\ attendance (conn after) = attendance (conn self)
    /\ teachers (conn after) = teachers (conn self)
    /\ (forall r, In r (students (conn self)) ->
                  student_id r <> PyStr.strip (f_student_id e)).
Proof.
  intros t1 t2 e self H after. subst after.
  destruct (register_student_success_inv t1 t2 e self H) as (_ & F & n & Hn & E).
  rewrite E. cbn [snd]. split.
  - exists n. apply check_age_some in Hn as [I B].
    split; [exact I|]. split; [exact B|reflexivity].
  - split; [eexists; split; [reflexivity|repeat split]|].
    split; [reflexivity|]. split; [reflexivity|exact F].
Qed.

Lemma register_student_success_effects_witness :
  fst (register_student "2024-09-02 08:05:00" "2024-09-02 08:05:01"
         bob_form fresh_system) = Success
  /\ attendance (conn (snd (register_student "2024-09-02 08:05:00"
                              "2024-09-02 08:05:01" bob_form fresh_system)))
     = attendance (conn fresh_system).
Proof.
  assert (H : fst (register_student "2024-09-02 08:05:00" "2024-09-02 08:05:01"
                     bob_form fresh_system) = Success)
    by (vm_compute; reflexivity).
  split; [exact H|].
  destruct (register_student_success_effects
              "2024-09-02 08:05:00" "2024-09-02 08:05:01" bob_form fresh_system H)
    as (_ & _ & A & _).
  exact A.
Defined.

Lemma touch_keeps_column {B : Type} (f : Student -> B) (t sid : string)
    (rows : list Student) :
  (forall s, f (touch_last_login t sid s) = f s) ->
  map f (map (touch_last_login t sid) rows) = map f rows.
Proof. intros H. rewrite map_map. apply map_ext. exact H. Qed.

Lemma touch_created_at (t sid : string) (s : Student) :
  created_at (touch_last_login t sid s) = created_at s.
Proof. unfold touch_last_login. destruct (student_id s =? sid)%string; reflexivity. Qed.

(** X27.  A login, whatever its entries and outcome, changes nothing of
    the stored students but [last_login]: identifiers, names, ages, classes,
    password hashes and creation times stay as they were, row by row; it
    keeps every attendance row and adds at most one at the end; it leaves
    teachers, admin log and configuration alone. *)
Theorem verify_student_login_frame :
  forall (t1 t2 : string) (e : StudentForm) (self : SchoolAuthSystem),
    let after := snd (verify_student_login t1 t2 e self) in
    map student_id (students (conn after)) = map student_id (students (conn self))
    /\ map name (students (conn after)) = map name (students (conn self))
    /\ map age (students (conn after)) = map age (students (conn self))
    /\ map class_name (students (conn after))
       = map class_name (students (conn self))
    /\ map password_hash (students (conn after))
       = map password_hash (students (conn self))
    /\ map created_at (students (conn after))
       = map created_at (students (conn self))
    /\ (exists more, attendance (conn after)
                     = (attendance (conn self) ++ more)%list
                     /\ (List.length more <= 1)%nat)
    /\ teachers (conn after) = teachers (conn self)
    /\ admin_logs (conn after) = admin_logs (conn self)
    /\ config after = config self.
Proof.
  intros t1 t2 e self after. subst after.
  destruct (outcome_success_dec (fst (verify_student_login t1 t2 e self))) as [H|H].
  - destruct (verify_student_login_success_inv t1 t2 e self H)
      as (_ & r & _ & _ & E).
    rewrite E. cbn.
    repeat split;
      try (apply touch_keeps_column; intros s;
           first [apply touch_created_at
                 |apply (touch_same_columns t1 (student_id r) s)]).
    eexists. split; [reflexivity|]. simpl. lia.
  - rewrite (login_unchanged_unless_success t1 t2 e self H).
    repeat split. exists []. split; [now rewrite app_nil_r|]. simpl. lia.
Qed.

Lemma step_keeps_attendance (s s' : SchoolAuthSystem) (a : AttendanceRecord) :
  step s s' -> In a (attendance (conn s)) ->
  In a (attendance (conn s'))
  \/ (forall x, In x (students (conn s')) -> student_id x <> att_student_id a).
Proof.
  intros H Ha.
  destruct (step_cases s s' H)
    as [->|[(t1 & t2 & r & _ & _ & ->)|[(t & x & _ & _ & _ & ->)
       |[(t & x & _ & _ & ->)|(sid & t & ->)]]]]; cbn.
  - now left.
  - left. apply in_or_app. now left.
  - now left.
  - now left.
  - destruct (string_dec (att_student_id a) sid) as [E|NE].
    + right. intros x Hx. apply filter_not_id_in in Hx as [_ N]. congruence.
    + left. apply filter_not_att_in. auto.
Qed.

(** X28.  An attendance row disappears only together with its student:
    after any call of a handler every former attendance row is still in the
    table, unchanged, unless no stored student has its identifier any
    more. *)
Theorem attendance_removed_only_with_student :
  forall (s s' : SchoolAuthSystem),
    step s s' ->
    forall a, In a (attendance (conn s)) ->
              In a (attendance (conn s'))
              \/ (forall x, In x (students (conn s')) ->
                            student_id x <> att_student_id a).
Proof.
  intros s s' H a Ha. exact (step_keeps_attendance s s' a H Ha).
Qed.

Lemma attendance_removed_only_with_student_witness :
  step sample_system
       (snd (delete_student (Some "KJ20240002") true "2024-09-05 16:00:00"
               sample_system))
  /\ forall a, In a (attendance (conn sample_system)) ->
               In a (attendance
                       (conn (snd (delete_student (Some "KJ20240002") true
                                     "2024-09-05 16:00:00" sample_system))))
               \/ (forall x,
                      In x (students
                              (conn (snd (delete_student (Some "KJ20240002") true
                                            "2024-09-05 16:00:00" sample_system)))) ->
                      student_id x <> att_student_id a).
Proof.
  assert (H : step sample_system
                (snd (delete_student (Some "KJ20240002") true
                        "2024-09-05 16:00:00" sample_system)))
    by constructor.
  split; [exact H|].
  exact (attendance_removed_only_with_student _ _ H).
Defined.
